(** * PyRDP MITM: passive file stealer and MITM client

    A shallow embedding of
    - [pyrdp/mitm/virtual_channel/device_redirection.py] (the passive file
      stealer of the RDPDR channel), and
    - [pyrdp/mitm/client.py] (the client side of the MITM: connection
      confirm, connect initial, client info),
    together with the properties of the specification that concern them.

    Python values are modelled as follows: [bytes] is a list of bytes, [str]
    a list of Unicode code points, an [int] is an [N] (identifiers, unsigned
    fields) or a [Z] (flag words, because [~] yields a negative number), a
    [dict] is a [gmap], and a raised exception is the [Raise] case of
    [Result].  Mutable objects live in a state record that is threaded
    through a state-and-exception monad; the state survives an exception, as
    it does in Python. *)

From Stdlib Require Import ZArith NArith List Lia Bool Ascii String.
From Stdlib Require Import Strings.Byte.
From stdpp Require Import base option list gmap.
Import ListNotations.

Set Default Proof Using "Type".

(** ** Python values *)

Abbreviation bytes := (list byte).

(** A Python [str]: the sequence of its code points. *)
Abbreviation str := (list N).

Definition str_of_string (s : string) : str :=
  List.map N_of_ascii (list_ascii_of_string s).

Definition NUL : N := 0.
Definition DOT : N := 46.
Definition SLASH : N := 47.
Definition BACKSLASH : N := 92.

(** Exceptions that the modelled code can raise. *)
Inductive exn : Type :=
| KeyError
| ValueError
| UnicodeDecodeError
| ParseError
| AttributeError.

Inductive Result (A : Type) : Type :=
| Ok (a : A)
| Raise (e : exn).
Arguments Ok {A} a.
Arguments Raise {A} e.

Definition is_Ok {A} (r : Result A) : bool :=
  match r with Ok _ => true | Raise _ => false end.

Definition result_map {A B} (f : A -> B) (r : Result A) : Result B :=
  match r with Ok a => Ok (f a) | Raise e => Raise e end.

(** ** State and exceptions

    A computation over a state of type [S] returns a value or raises, and
    leaves a state in both cases. *)

Definition M (S A : Type) : Type := S -> Result A * S.

Definition ret {S A} (a : A) : M S A := fun m => (Ok a, m).

Definition bind {S A B} (c : M S A) (k : A -> M S B) : M S B :=
  fun m =>
    match c m with
    | (Ok a, m') => k a m'
    | (Raise e, m') => (Raise e, m')
    end.

Definition lift {S A} (r : Result A) : M S A := fun m => (r, m).

Definition raise {S A} (e : exn) : M S A := lift (Raise e).

Definition gets {S A} (f : S -> A) : M S A := fun m => (Ok (f m), m).

Definition modify {S} (f : S -> S) : M S unit := fun m => (Ok tt, f m).

Declare Scope py_scope.
Delimit Scope py_scope with py.
Notation "'let*' x ':=' c 'in' k" := (bind c (fun x => k))
  (at level 10, x name, c at level 100, k at level 200) : py_scope.
Notation "c '>>' k" := (bind c (fun _ => k))
  (at level 62, right associativity) : py_scope.
Open Scope py_scope.

(** ** [str] methods used by the stealer *)

Module PyStr.

Definition mem (c : N) (chars : str) : bool :=
  existsb (N.eqb c) chars.

(** [s.lstrip(chars)] *)
Fixpoint lstrip (chars s : str) : str :=
  match s with
  | [] => []
  | c :: s' => if mem c chars then lstrip chars s' else s
  end.

(** [s.rstrip(chars)] *)
Definition rstrip (chars s : str) : str :=
  rev (lstrip chars (rev s)).

(** [s.strip(chars)]: characters of [chars] are removed at both ends. *)
Definition strip (chars s : str) : str :=
  rstrip chars (lstrip chars s).

Fixpoint startswith (s old : str) {struct old} : bool :=
  match old, s with
  | [], _ => true
  | _ :: _, [] => false
  | o :: old', c :: s' => N.eqb o c && startswith s' old'
  end.

(** [s.replace(old, new)] for a non-empty [old]: the occurrences of [old]
    are found from left to right and do not overlap.  [skip] counts the
    characters of the occurrence just replaced that are still to be
    passed over. *)
Fixpoint replace_from (old new : str) (skip : nat) (s : str) : str :=
  match s with
  | [] => []
  | c :: s' =>
      match skip with
      | S k => replace_from old new k s'
      | O =>
          if startswith s old
          then new ++ replace_from old new (length old - 1) s'
          else c :: replace_from old new 0 s'
      end
  end.

Definition replace (old new s : str) : str :=
  replace_from old new 0 s.

End PyStr.

(** ** [io.BytesIO] *)

Module BytesIO.

Record t : Type := mk { buf : bytes; pos : nat }.

(** [BytesIO()] *)
Definition empty : t := {| buf := []; pos := 0 |}.

(** [stream.seek(offset)] with a non-negative offset. *)
Definition seek (offset : nat) (s : t) : t :=
  {| buf := buf s; pos := offset |}.

(** The buffer after [data] is stored at position [p]: a gap between the
    end of the buffer and [p] is filled with zero bytes, bytes under the
    data are overwritten, bytes after it are kept. *)
Definition store (b : bytes) (p : nat) (data : bytes) : bytes :=
  take p b ++ replicate (p - length b) x00 ++ data
         ++ drop (p + length data) b.

(** [stream.write(data)]: writing no byte changes nothing, not even after
    a seek past the end. *)
Definition write (data : bytes) (s : t) : t :=
  match data with
  | [] => s
  | _ :: _ =>
      {| buf := store (buf s) (pos s) data; pos := pos s + length data |}
  end.

(** [stream.getvalue()] *)
Definition getvalue (s : t) : bytes := buf s.

(** The content of a stream with content [b] after [seek(offset)] and
    [write(data)]. *)
Definition write_at (b : bytes) (offset : nat) (data : bytes) : bytes :=
  getvalue (write data (seek offset {| buf := b; pos := 0 |})).

End BytesIO.

(** ** RDPDR PDUs

    Only the fields the stealer reads are kept, with the names they have in
    the source.  Identifiers are unsigned 32-bit fields, offsets and lengths
    unsigned 64-bit and 32-bit fields; the code does no arithmetic on them,
    so nothing wraps. *)

(** The sub-classes of [DeviceIORequestPDU] that the stealer tells apart
    with [isinstance]. *)
Inductive RequestKind : Type :=
| DeviceReadRequestPDU (length offset : nat)
| DeviceCreateRequestPDU (desiredAccess createOptions : N) (path : bytes)
| DeviceCloseRequestPDU
| OtherIORequest.

Record DeviceIORequestPDU : Type := {
  req_deviceId : N;
  fileId : N;
  req_completionId : N;
  majorFunction : N;
  kind : RequestKind
}.

Record DeviceIOResponsePDU : Type := {
  deviceId : N;
  completionId : N;
  ioStatus : N;
  payload : bytes
}.

Record DeviceAnnounce : Type := {
  deviceType : N;
  ann_deviceId : N;
  deviceData : bytes
}.

(** What the RDPDR layer hands to [onPDUReceived]. *)
Inductive DeviceRedirectionPDU : Type :=
| IORequest (r : DeviceIORequestPDU)
| IOResponse (r : DeviceIOResponsePDU)
| DeviceListAnnounceRequest (deviceList : list DeviceAnnounce)
| DeviceRedirectionServerCapabilitiesPDU
| DeviceRedirectionClientCapabilitiesPDU
| UnparsedPDU (packetId : N).

(** The objects that [parseReadResponse] and [parseDeviceCreateResponse]
    build from a response. *)
Record DeviceReadResponsePDU : Type := {
  rr_deviceId : N;
  rr_completionId : N;
  rr_ioStatus : N;
  readData : bytes
}.

Record DeviceCreateResponsePDU : Type := {
  cr_deviceId : N;
  cr_completionId : N;
  cr_ioStatus : N;
  cr_fileId : N;
  information : bytes
}.

(** What [self.pduToSend] can hold: the received object itself, or one of
    the two objects a response handler has put in its place. *)
Inductive OutgoingPDU : Type :=
| Received (pdu : DeviceRedirectionPDU)
| ReadResponse (r : DeviceReadResponsePDU)
| CreateResponse (r : DeviceCreateResponsePDU).

(** ** What the stealer imports

    The functions and constants that the stealer takes from [pyrdp.core],
    [pyrdp.parser] and [pyrdp.enum] are parameters.  The functions may
    raise. *)
Class Externals : Type := {
  decodeUTF16LE : bytes -> Result str;
  parseReadResponse : DeviceIOResponsePDU -> Result DeviceReadResponsePDU;
  parseDeviceCreateResponse :
    DeviceIOResponsePDU -> Result DeviceCreateResponsePDU;
  (** [MajorFunction(n)], the enumeration's constructor *)
  MajorFunction : N -> Result N;
  GENERIC_READ : N;
  FILE_READ_DATA : N;
  FILE_NON_DIRECTORY_FILE : N;
  STATUS_SEVERITY_ERROR : N
}.

(** ** State of the two stealers *)

Inductive Level : Type := DEBUG | INFO | WARNING | ERROR.

Inductive Side : Type := ClientSide | ServerSide.

(** The attributes of a stealer that its methods use;
    [reconstructedFilesTemp] is set to an empty dictionary when the stealer
    is made and never used. *)
Record PassiveFileStealer : Type := {
  completionIdInProgress : gmap N DeviceIORequestPDU;
  openedFiles : gmap N bytes;
  finalFiles : gmap str BytesIO.t;
  pduToSend : option OutgoingPDU;
  (** what [self.layer.sendPDU] was called with, oldest first *)
  layer_sent : list OutgoingPDU;
  (** the records of [self.mitm_log], oldest first *)
  mitm_log : list (Level * string)
}.

(** The two stealers of a session, each the [peer] of the other, and the
    files under the working directory.  The file system is a map from the
    path given to [open] to the content written: [os.makedirs] and [open]
    are taken to succeed, and a second write to a path replaces the file
    (mode ["wb"]). *)
Record MITM : Type := {
  clientStealer : PassiveFileStealer;
  serverStealer : PassiveFileStealer;
  disk : gmap str bytes
}.

(** [PassiveFileStealer.__init__] *)
Definition newStealer : PassiveFileStealer := {|
  completionIdInProgress := ∅;
  openedFiles := ∅;
  finalFiles := ∅;
  pduToSend := None;
  layer_sent := [];
  mitm_log := []
|}.

Definition newMITM : MITM := {|
  clientStealer := newStealer;
  serverStealer := newStealer;
  disk := ∅
|}.

Definition peer (s : Side) : Side :=
  match s with ClientSide => ServerSide | ServerSide => ClientSide end.

Definition stealer (s : Side) (m : MITM) : PassiveFileStealer :=
  match s with ClientSide => clientStealer m | ServerSide => serverStealer m end.

Definition set_stealer (s : Side) (x : PassiveFileStealer) (m : MITM) : MITM :=
  match s with
  | ClientSide => {| clientStealer := x; serverStealer := serverStealer m; disk := disk m |}
  | ServerSide => {| clientStealer := clientStealer m; serverStealer := x; disk := disk m |}
  end.

Definition set_disk (d : gmap str bytes) (m : MITM) : MITM :=
  {| clientStealer := clientStealer m; serverStealer := serverStealer m; disk := d |}.

Definition set_completionIdInProgress (c : gmap N DeviceIORequestPDU)
    (x : PassiveFileStealer) : PassiveFileStealer :=
  {| completionIdInProgress := c; openedFiles := openedFiles x;
     finalFiles := finalFiles x; pduToSend := pduToSend x;
     layer_sent := layer_sent x; mitm_log := mitm_log x |}.

Definition set_openedFiles (o : gmap N bytes)
    (x : PassiveFileStealer) : PassiveFileStealer :=
  {| completionIdInProgress := completionIdInProgress x; openedFiles := o;
     finalFiles := finalFiles x; pduToSend := pduToSend x;
     layer_sent := layer_sent x; mitm_log := mitm_log x |}.

Definition set_finalFiles (f : gmap str BytesIO.t)
    (x : PassiveFileStealer) : PassiveFileStealer :=
  {| completionIdInProgress := completionIdInProgress x;
     openedFiles := openedFiles x;
     finalFiles := f; pduToSend := pduToSend x;
     layer_sent := layer_sent x; mitm_log := mitm_log x |}.

Definition set_pduToSend (p : option OutgoingPDU)
    (x : PassiveFileStealer) : PassiveFileStealer :=
  {| completionIdInProgress := completionIdInProgress x;
     openedFiles := openedFiles x;
     finalFiles := finalFiles x; pduToSend := p;
     layer_sent := layer_sent x; mitm_log := mitm_log x |}.

Definition add_sent (p : OutgoingPDU)
    (x : PassiveFileStealer) : PassiveFileStealer :=
  {| completionIdInProgress := completionIdInProgress x;
     openedFiles := openedFiles x;
     finalFiles := finalFiles x; pduToSend := pduToSend x;
     layer_sent := layer_sent x ++ [p]; mitm_log := mitm_log x |}.

Definition add_log (l : Level) (msg : string)
    (x : PassiveFileStealer) : PassiveFileStealer :=
  {| completionIdInProgress := completionIdInProgress x;
     openedFiles := openedFiles x;
     finalFiles := finalFiles x; pduToSend := pduToSend x;
     layer_sent := layer_sent x; mitm_log := mitm_log x ++ [(l, msg)] |}.

(** ** Access to the state of the stealers *)

(** [d[k]] on a dictionary *)
Definition getitem {S V} (d : gmap N V) (k : N) : M S V :=
  match d !! k with
  | Some v => ret v
  | None => raise KeyError
  end.

Definition update (s : Side) (f : PassiveFileStealer -> PassiveFileStealer) : M MITM unit :=
  modify (fun m => set_stealer s (f (stealer s m)) m).

Definition log (s : Side) (l : Level) (msg : string) : M MITM unit :=
  update s (add_log l msg).

(** ** The passive file stealer *)

Section Stealer.
Context `{Externals}.

Definition truthy (n : N) : bool := negb (N.eqb n 0).

(** [bytesToPath] *)
Definition bytesToPath (pathAsBytes : bytes) : Result str :=
  result_map (PyStr.strip [NUL]) (decodeUTF16LE pathAsBytes).

(** The path that [writeToDisk] computes before it touches the disk. *)
Definition goodPath (path : str) : str :=
  str_of_string "./saved_files/"
    ++ PyStr.replace [DOT; DOT] []
         (PyStr.replace [BACKSLASH] [SLASH] path).

(** [writeToDisk] *)
Definition writeToDisk (self : Side) (path : str) (stream : BytesIO.t) : M MITM unit :=
  let goodPath := goodPath path in
  log self INFO "Writing %(path)s to disk." >>
  modify (fun m => set_disk (<[goodPath := BytesIO.getvalue stream]> (disk m)) m).

(** [sendPDU]: the PDU goes to the stealer's own layer. *)
Definition sendPDU (self : Side) (pdu : OutgoingPDU) : M MITM unit :=
  update self (add_sent pdu).

(** [handleIORequest] *)
Definition handleIORequest (self : Side) (pdu : DeviceIORequestPDU) : M MITM unit :=
  update (peer self) (fun x =>
    set_completionIdInProgress
      (<[req_completionId pdu := pdu]> (completionIdInProgress x)) x) >>
  match kind pdu with
  | DeviceReadRequestPDU _ _ =>
      let* opened := gets (fun m => openedFiles (stealer (peer self) m)) in
      let* _ := getitem opened (fileId pdu) in
      log self DEBUG "ReadRequest received for file"
  | DeviceCreateRequestPDU desiredAccess _ path =>
      if truthy (N.land desiredAccess (N.lor GENERIC_READ FILE_READ_DATA))
      then
        let* _ := lift (bytesToPath path) in
        log self DEBUG "Create request for read received for path"
      else ret tt
  | _ =>
      let* _ := lift (MajorFunction (majorFunction pdu)) in
      log self DEBUG "Unparsed request"
  end.

(** [handleReadResponse]; [requestPDU] is a [DeviceReadRequestPDU] and
    [offset] its offset. *)
Definition handleReadResponse (self : Side) (pdu : DeviceIOResponsePDU)
    (requestPDU : DeviceIORequestPDU) (offset : nat) : M MITM unit :=
  let* readDataResponsePDU := lift (parseReadResponse pdu) in
  update self (set_pduToSend (Some (ReadResponse readDataResponsePDU))) >>
  let* opened := gets (fun m => openedFiles (stealer self m)) in
  let* pathAsBytes := getitem opened (fileId requestPDU) in
  let* fileName := lift (bytesToPath pathAsBytes) in
  update self (fun x =>
    let stream := default BytesIO.empty (finalFiles x !! fileName) in
    set_finalFiles
      (<[fileName := BytesIO.write (readData readDataResponsePDU)
                       (BytesIO.seek offset stream)]> (finalFiles x)) x).

(** [handleCreateResponse]; [requestPDU] is a [DeviceCreateRequestPDU]
    with the given fields. *)
Definition handleCreateResponse (self : Side) (pdu : DeviceIOResponsePDU)
    (desiredAccess createOptions : N) (path : bytes) : M MITM unit :=
  let* createResponse := lift (parseDeviceCreateResponse pdu) in
  update self (set_pduToSend (Some (CreateResponse createResponse))) >>
  if truthy (N.land desiredAccess (N.lor GENERIC_READ FILE_READ_DATA))
     && negb (N.eqb (N.land createOptions FILE_NON_DIRECTORY_FILE) 0)
  then
    let* _ := lift (decodeUTF16LE path) in
    log self DEBUG "Opening file %(path)s as number %(number)d" >>
    update self (fun x =>
      set_openedFiles (<[cr_fileId createResponse := path]> (openedFiles x)) x)
  else ret tt.

(** [handleCloseResponse] *)
Definition handleCloseResponse (self : Side) (pdu : DeviceIOResponsePDU)
    (requestPDU : DeviceIORequestPDU) : M MITM unit :=
  let* opened := gets (fun m => openedFiles (stealer self m)) in
  match opened !! fileId requestPDU with
  | Some pathAsBytes =>
      log self DEBUG "Closing file: %(fileId)s." >>
      let* path := lift (bytesToPath pathAsBytes) in
      let* final := gets (fun m => finalFiles (stealer self m)) in
      match final !! path with
      | Some stream => writeToDisk self path stream
      | None => ret tt
      end >>
      update self (fun x =>
        set_openedFiles (delete (fileId requestPDU) (openedFiles x)) x)
  | None => ret tt
  end.

(** [handleIOResponse] *)
Definition handleIOResponse (self : Side) (pdu : DeviceIOResponsePDU) : M MITM unit :=
  let* inProgress := gets (fun m => completionIdInProgress (stealer self m)) in
  match inProgress !! completionId pdu with
  | Some requestPDU =>
      (if N.eqb (N.shiftr (ioStatus pdu) 30) STATUS_SEVERITY_ERROR
       then log self WARNING "Received an IO Response with an error IO status"
       else ret tt) >>
      match kind requestPDU with
      | DeviceReadRequestPDU _ offset =>
          log self DEBUG "Read response received." >>
          handleReadResponse self pdu requestPDU offset
      | DeviceCreateRequestPDU desiredAccess createOptions path =>
          handleCreateResponse self pdu desiredAccess createOptions path
      | DeviceCloseRequestPDU =>
          handleCloseResponse self pdu requestPDU
      | OtherIORequest =>
          log self DEBUG "Unknown response received: %(pdu)s"
      end >>
      update self (fun x =>
        set_completionIdInProgress
          (delete (completionId pdu) (completionIdInProgress x)) x)
  | None =>
      log self ERROR "Completion id %(completionId)d not in the completionId in progress list."
  end.

(** [handleDeviceListAnnounceRequest] *)
Fixpoint handleDeviceListAnnounceRequest (self : Side)
    (deviceList : list DeviceAnnounce) : M MITM unit :=
  match deviceList with
  | [] => ret tt
  | _ :: rest =>
      log self INFO "%(deviceName)s mapped with ID %(deviceId)d: %(deviceData)s" >>
      handleDeviceListAnnounceRequest self rest
  end.

(** [onPDUReceived] *)
Definition onPDUReceived (self : Side) (pdu : DeviceRedirectionPDU) : M MITM unit :=
  update self (set_pduToSend (Some (Received pdu))) >>
  match pdu with
  | IORequest r => handleIORequest self r
  | IOResponse r => handleIOResponse self r
  | DeviceListAnnounceRequest deviceList =>
      handleDeviceListAnnounceRequest self deviceList
  | DeviceRedirectionServerCapabilitiesPDU =>
      log self DEBUG "Received Server capabilities"
  | DeviceRedirectionClientCapabilitiesPDU =>
      log self DEBUG "Received Client capabilities"
  | UnparsedPDU _ => log self DEBUG "Received unparsed PDU"
  end >>
  let* toSend := gets (fun m => pduToSend (stealer self m)) in
  match toSend with
  | Some p => sendPDU (peer self) p
  | None => ret tt
  end.

(** A trace: the PDUs in the order of their arrival, each with the
    stealer that receives it.  Processing stops at the first exception
    that leaves [onPDUReceived]. *)
Fixpoint run (trace : list (Side * DeviceRedirectionPDU)) : M MITM unit :=
  match trace with
  | [] => ret tt
  | (self, pdu) :: rest => onPDUReceived self pdu >> run rest
  end.

End Stealer.

(** The path of the file on disk for a remote path given as bytes:
    [handleReadResponse] and [handleCloseResponse] pass the bytes through
    [bytesToPath], [writeToDisk] passes the result through [goodPath]. *)
Definition savedPath `{Externals} (pathAsBytes : bytes) : Result str :=
  result_map goodPath (bytesToPath pathAsBytes).

(** ** A runnable instance of the imports

    Used to run the model on concrete traces. *)

Module Reference.

Definition in_range (lo hi c : N) : bool := N.leb lo c && N.ltb c hi.

(** The 16-bit code units of a little-endian byte string. *)
Fixpoint code_units (b : bytes) : Result (list N) :=
  match b with
  | [] => Ok []
  | [_] => Raise UnicodeDecodeError
  | lo :: hi :: rest =>
      result_map (cons (Byte.to_N lo + 256 * Byte.to_N hi)%N) (code_units rest)
  end.

(** Surrogate pairs are combined; a lone surrogate is an error. *)
Fixpoint code_points (u : list N) : Result str :=
  match u with
  | [] => Ok []
  | c :: rest =>
      if in_range 0xD800 0xDC00 c then
        match rest with
        | d :: rest' =>
            if in_range 0xDC00 0xE000 d
            then result_map
                   (cons (0x10000 + (c - 0xD800) * 0x400 + (d - 0xDC00))%N)
                   (code_points rest')
            else Raise UnicodeDecodeError
        | [] => Raise UnicodeDecodeError
        end
      else if in_range 0xDC00 0xE000 c then Raise UnicodeDecodeError
      else result_map (cons c) (code_points rest)
  end.

(** Modelled from the spec: [pyrdp.core.decodeUTF16LE] is not in the
    sources; the spec says that paths are decoded from UTF-16LE. *)
Definition decodeUTF16LE (b : bytes) : Result str :=
  match code_units b with
  | Ok u => code_points u
  | Raise e => Raise e
  end.

Definition uint32LE (b0 b1 b2 b3 : byte) : N :=
  (Byte.to_N b0 + 256 * (Byte.to_N b1 + 256 * (Byte.to_N b2 + 256 * Byte.to_N b3)))%N.

(** Modelled from the spec: [DeviceRedirectionParser.parseReadResponse]
    is not in the sources; the spec says that the response is parsed and
    has a [readData].  The payload is taken to be a 32-bit length followed
    by that many bytes of data. *)
Definition parseReadResponse (pdu : DeviceIOResponsePDU) : Result DeviceReadResponsePDU :=
  match payload pdu with
  | b0 :: b1 :: b2 :: b3 :: data =>
      let n := N.to_nat (uint32LE b0 b1 b2 b3) in
      if Nat.leb n (length data)
      then Ok {| rr_deviceId := deviceId pdu;
                 rr_completionId := completionId pdu;
                 rr_ioStatus := ioStatus pdu;
                 readData := take n data |}
      else Raise ParseError
  | _ => Raise ParseError
  end.

(** Modelled from the spec: [DeviceRedirectionParser.parseDeviceCreateResponse]
    is not in the sources; the spec says that the response is parsed and
    has a [fileId].  The payload is taken to be a 32-bit file identifier
    followed by the information bytes. *)
Definition parseDeviceCreateResponse (pdu : DeviceIOResponsePDU) : Result DeviceCreateResponsePDU :=
  match payload pdu with
  | b0 :: b1 :: b2 :: b3 :: info =>
      Ok {| cr_deviceId := deviceId pdu;
            cr_completionId := completionId pdu;
            cr_ioStatus := ioStatus pdu;
            cr_fileId := uint32LE b0 b1 b2 b3;
            information := info |}
  | _ => Raise ParseError
  end.

(** The major functions of an I/O request packet (create, close, read,
    write, device control and so on). *)
Definition MajorFunction (n : N) : Result N :=
  if existsb (N.eqb n) [0; 2; 3; 4; 5; 6; 10; 11; 12; 14; 17]%N
  then Ok n else Raise ValueError.

(** The access and option bits are those of the file system protocol:
    [GENERIC_READ = 0x80000000], [FILE_READ_DATA = 1],
    [FILE_NON_DIRECTORY_FILE = 0x40], [STATUS_SEVERITY_ERROR = 3]. *)
Definition externals : Externals :=
  Build_Externals decodeUTF16LE parseReadResponse parseDeviceCreateResponse
    MajorFunction 0x80000000 0x00000001 0x00000040 3.

End Reference.

(** ** The path sanitization in the words of the specification *)

Module SpecPath.

Fixpoint dropLeadingNULs (s : str) : str :=
  match s with
  | 0%N :: s' => dropLeadingNULs s'
  | _ => s
  end.

(** Trailing NULs trimmed. *)
Definition trimTrailingNULs (s : str) : str :=
  rev (dropLeadingNULs (rev s)).

(** NULs trimmed at both ends. *)
Definition trimNULs (s : str) : str :=
  trimTrailingNULs (dropLeadingNULs s).

(** Every backslash replaced by a slash. *)
Definition slashes (s : str) : str :=
  List.map (fun c => if N.eqb c BACKSLASH then SLASH else c) s.

(** Every [..] removed: two dots in a row are dropped, reading from the
    left. *)
Fixpoint removeDotDot (s : str) : str :=
  match s with
  | 46%N :: 46%N :: rest => removeDotDot rest
  | c :: rest => c :: removeDotDot rest
  | [] => []
  end.

Definition sanitize (s : str) : str := removeDotDot (slashes s).

(** No two dots in a row. *)
Fixpoint noDotDot (s : str) : bool :=
  match s with
  | [] => true
  | c :: rest =>
      negb (N.eqb c DOT
            && match rest with d :: _ => N.eqb d DOT | [] => false end)
      && noDotDot rest
  end.

(** The path of the specification, for a decoded remote path. *)
Definition path (decoded : str) : str :=
  str_of_string "./saved_files/" ++ sanitize (trimTrailingNULs decoded).

(** The same with NULs trimmed at both ends. *)
Definition pathTrimmedBothEnds (decoded : str) : str :=
  str_of_string "./saved_files/" ++ sanitize (trimNULs decoded).

End SpecPath.

(** ** The client side of the MITM ([pyrdp/mitm/client.py]) *)

Module Client.

(** [PlayerMessageType], as listed in [pyrdp/layer/recording.py]. *)
Inductive PlayerMessageType : Type :=
| CONNECTION_CLOSE
| CLIENT_INFO
| SLOW_PATH_PDU
| FAST_PATH_INPUT
| FAST_PATH_OUTPUT
| CLIPBOARD_DATA
| CLIENT_DATA.

(** The X.224 Connection Confirm. *)
Record X224ConnectionConfirmPDU : Type := {
  cc_payload : bytes
}.

(** What [NegotiationResponseParser.parse] returns. *)
Record NegotiationResponsePDU : Type := {
  type : N;
  tlsSelected : bool
}.

Record ChannelDefinition : Type := {
  name : str;
  options : N
}.

Record ClientCoreData : Type := {
  clientName : str;
  desktopWidth : N;
  desktopHeight : N;
  earlyCapabilityFlags : Z
}.

Record ClientNetworkData : Type := {
  channelDefinitions : list ChannelDefinition
}.

Record ClientDataPDU : Type := {
  coreData : ClientCoreData;
  securityData : bytes;
  networkData : option ClientNetworkData;
  clusterData : bytes
}.

Record GCCConferenceCreateRequestPDU : Type := {
  conferenceName : bytes
}.

(** The fields of the Client Info PDU. *)
Record ClientInfoPDU : Type := {
  codePage : N;
  flags : Z;
  domain : str;
  username : str;
  password : str;
  alternateShell : str;
  workingDir : str;
  extraInfo : bytes
}.

(** An event of the recording, as [PlayerMessageLayer.sendMessage] builds
    it.  The payload is the serialized PDU; it is represented by the value
    of the PDU that was serialized. *)
Record PlayerMessagePDU : Type := {
  header : PlayerMessageType;
  timestamp : N;
  pm_payload : ClientDataPDU
}.

(** Calls on the collaborators of the client: the TCP layer, the server
    side of the MITM, the connection layer and the security layer. *)
Inductive Call : Type :=
| TcpStartTLS
| TcpDisconnect
| ServerOnConnectionConfirm (pdu : X224ConnectionConfirmPDU)
| RdpConnectSendPDU (pdu : ClientDataPDU)
| SecurityLayerSendClientInfo (pdu : ClientInfoPDU).

(** The parser and the constants that [client.py] imports. *)
Class Externals : Type := {
  parseNegotiationResponse : bytes -> Result NegotiationResponsePDU;
  TYPE_RDP_NEG_FAILURE : N;
  RNS_UD_CS_WANT_32BPP_SESSION : Z;
  INFO_AUTOLOGON : Z;
  INFO_COMPRESSION : Z;
  INFO_CompressionTypeMask : Z
}.

Record MITMClient : Type := {
  replacementUsername : option str;
  replacementPassword : option str;
  useTLS : bool;
  self_channelDefinitions : list ChannelDefinition;
  gccConnect_conferenceName : bytes;
  (** whether [self.securityLayer] is a layer; it is [None] from
      [__init__] until [buildIOChannel] assigns it *)
  securityLayer : bool;
  (** the records of [self.log], oldest first *)
  client_log : list (Level * string);
  (** the events that the recorder has written, oldest first *)
  recording : list PlayerMessagePDU;
  (** the calls made on [tcp], [server], [rdpConnect] and
      [securityLayer], oldest first *)
  calls : list Call
}.

(** [MITMClient.__init__]; [gccConnect] is built with the name [b"1"]. *)
Definition newClient (replacementUsername replacementPassword : option str) : MITMClient := {|
  replacementUsername := replacementUsername;
  replacementPassword := replacementPassword;
  useTLS := false;
  self_channelDefinitions := [];
  gccConnect_conferenceName := ["1"%byte];
  securityLayer := false;
  client_log := [];
  recording := [];
  calls := []
|}.

Definition log (l : Level) (msg : string) : M MITMClient unit :=
  modify (fun c =>
    {| replacementUsername := replacementUsername c;
       replacementPassword := replacementPassword c;
       useTLS := useTLS c;
       self_channelDefinitions := self_channelDefinitions c;
       gccConnect_conferenceName := gccConnect_conferenceName c;
       securityLayer := securityLayer c;
       client_log := client_log c ++ [(l, msg)];
       recording := recording c;
       calls := calls c |}).

Definition call (x : Call) : M MITMClient unit :=
  modify (fun c =>
    {| replacementUsername := replacementUsername c;
       replacementPassword := replacementPassword c;
       useTLS := useTLS c;
       self_channelDefinitions := self_channelDefinitions c;
       gccConnect_conferenceName := gccConnect_conferenceName c;
       securityLayer := securityLayer c;
       client_log := client_log c;
       recording := recording c;
       calls := calls c ++ [x] |}).

Definition set_useTLS (b : bool) : M MITMClient unit :=
  modify (fun c =>
    {| replacementUsername := replacementUsername c;
       replacementPassword := replacementPassword c;
       useTLS := b;
       self_channelDefinitions := self_channelDefinitions c;
       gccConnect_conferenceName := gccConnect_conferenceName c;
       securityLayer := securityLayer c;
       client_log := client_log c;
       recording := recording c;
       calls := calls c |}).

Definition set_channelDefinitions (d : list ChannelDefinition) : M MITMClient unit :=
  modify (fun c =>
    {| replacementUsername := replacementUsername c;
       replacementPassword := replacementPassword c;
       useTLS := useTLS c;
       self_channelDefinitions := d;
       gccConnect_conferenceName := gccConnect_conferenceName c;
       securityLayer := securityLayer c;
       client_log := client_log c;
       recording := recording c;
       calls := calls c |}).

Definition set_conferenceName (n : bytes) : M MITMClient unit :=
  modify (fun c =>
    {| replacementUsername := replacementUsername c;
       replacementPassword := replacementPassword c;
       useTLS := useTLS c;
       self_channelDefinitions := self_channelDefinitions c;
       gccConnect_conferenceName := n;
       securityLayer := securityLayer c;
       client_log := client_log c;
       recording := recording c;
       calls := calls c |}).

(** [self.securityLayer = ...], as [buildIOChannel] does. *)
Definition set_securityLayer (b : bool) : M MITMClient unit :=
  modify (fun c =>
    {| replacementUsername := replacementUsername c;
       replacementPassword := replacementPassword c;
       useTLS := useTLS c;
       self_channelDefinitions := self_channelDefinitions c;
       gccConnect_conferenceName := gccConnect_conferenceName c;
       securityLayer := b;
       client_log := client_log c;
       recording := recording c;
       calls := calls c |}).

(** A client whose [self.securityLayer] has been assigned. *)
Definition withSecurityLayer (c : MITMClient) : MITMClient :=
  snd (set_securityLayer true c).

(** Modelled from the spec: [Recorder.record] is not in the sources.  The
    spec (section 4.8) says that it serializes the PDU, takes a timestamp,
    builds a [PlayerMessagePDU] from the message type, the timestamp and
    the bytes, and sends it to every sink.  The event therefore holds the
    PDU as it is when [record] is called; [now] is the clock reading. *)
Definition record (now : N) (pdu : ClientDataPDU) (messageType : PlayerMessageType) : M MITMClient unit :=
  modify (fun c =>
    {| replacementUsername := replacementUsername c;
       replacementPassword := replacementPassword c;
       useTLS := useTLS c;
       self_channelDefinitions := self_channelDefinitions c;
       gccConnect_conferenceName := gccConnect_conferenceName c;
       securityLayer := securityLayer c;
       client_log := client_log c;
       recording := recording c
         ++ [{| header := messageType; timestamp := now; pm_payload := pdu |}];
       calls := calls c |}).

Section Handlers.
Context `{Externals}.

(** [disconnect] *)
Definition disconnect : M MITMClient unit :=
  log DEBUG "Disconnecting" >>
  call TcpDisconnect.

(** [onUnknownTPKTHeader] *)
Definition onUnknownTPKTHeader (header : N) : M MITMClient unit :=
  log ERROR "Closing the connection because an unknown TPKT header was received." >>
  disconnect.

(** [onConnectionConfirm] *)
Definition onConnectionConfirm (pdu : X224ConnectionConfirmPDU) : M MITMClient unit :=
  log DEBUG "Connection Confirm received" >>
  let* response := lift (parseNegotiationResponse (cc_payload pdu)) in
  (if N.eqb (type response) TYPE_RDP_NEG_FAILURE
   then log ERROR "Server returned a TYPE_RDP_NEG_FAILURE packet"
   else ret tt) >>
  (if tlsSelected response
   then call TcpStartTLS >> set_useTLS true
   else ret tt) >>
  call (ServerOnConnectionConfirm pdu).

(** [clientData.coreData.earlyCapabilityFlags &= ~RNS_UD_CS_WANT_32BPP_SESSION] *)
Definition clearWant32BPP (clientData : ClientDataPDU) : ClientDataPDU :=
  {| coreData :=
       {| clientName := clientName (coreData clientData);
          desktopWidth := desktopWidth (coreData clientData);
          desktopHeight := desktopHeight (coreData clientData);
          earlyCapabilityFlags :=
            Z.land (earlyCapabilityFlags (coreData clientData))
                   (Z.lnot RNS_UD_CS_WANT_32BPP_SESSION) |};
     securityData := securityData clientData;
     networkData := networkData clientData;
     clusterData := clusterData clientData |}.

(** [onConnectInitial]; [now] is the clock reading when the recorder is
    called. *)
Definition onConnectInitial (now : N)
    (gccConferenceCreateRequest : GCCConferenceCreateRequestPDU)
    (clientData : ClientDataPDU) : M MITMClient unit :=
  log INFO "Client Data received with client name %(clientName)s, resolution %(desktopWidth)dx%(desktopHeight)d" >>
  record now clientData CLIENT_DATA >>
  let clientData := clearWant32BPP clientData in
  match networkData clientData with
  | Some network => set_channelDefinitions (channelDefinitions network)
  | None => ret tt
  end >>
  set_conferenceName (conferenceName gccConferenceCreateRequest) >>
  call (RdpConnectSendPDU clientData).

Definition with_username (u : str) (pdu : ClientInfoPDU) : ClientInfoPDU :=
  {| codePage := codePage pdu; flags := flags pdu; domain := domain pdu;
     username := u; password := password pdu;
     alternateShell := alternateShell pdu; workingDir := workingDir pdu;
     extraInfo := extraInfo pdu |}.

Definition with_password (p : str) (pdu : ClientInfoPDU) : ClientInfoPDU :=
  {| codePage := codePage pdu; flags := flags pdu; domain := domain pdu;
     username := username pdu; password := p;
     alternateShell := alternateShell pdu; workingDir := workingDir pdu;
     extraInfo := extraInfo pdu |}.

Definition with_flags (f : Z) (pdu : ClientInfoPDU) : ClientInfoPDU :=
  {| codePage := codePage pdu; flags := f; domain := domain pdu;
     username := username pdu; password := password pdu;
     alternateShell := alternateShell pdu; workingDir := workingDir pdu;
     extraInfo := extraInfo pdu |}.

(** The PDU that [onClientInfoPDUReceived] has made of [pdu] when it
    hands it to the security layer. *)
Definition rewriteClientInfo (replacementUsername replacementPassword : option str)
    (pdu : ClientInfoPDU) : ClientInfoPDU :=
  let pdu := match replacementUsername with
             | Some u => with_username u pdu
             | None => pdu
             end in
  let pdu := match replacementPassword with
             | Some p => with_password p pdu
             | None => pdu
             end in
  let pdu := match replacementUsername, replacementPassword with
             | Some _, Some _ => with_flags (Z.lor (flags pdu) INFO_AUTOLOGON) pdu
             | _, _ => pdu
             end in
  let pdu := with_flags (Z.land (flags pdu) (Z.lnot INFO_COMPRESSION)) pdu in
  let pdu := with_flags (Z.land (flags pdu) (Z.lnot INFO_CompressionTypeMask)) pdu in
  pdu.

(** [onClientInfoPDUReceived]; without a security layer the attribute
    access [self.securityLayer.sendClientInfo] fails, after the PDU has
    been rewritten and the record written to the log. *)
Definition onClientInfoPDUReceived (pdu : ClientInfoPDU) : M MITMClient unit :=
  let* u := gets replacementUsername in
  let* p := gets replacementPassword in
  let pdu := rewriteClientInfo u p pdu in
  log DEBUG "Sending Client Info: %(arg1)s" >>
  let* layer := gets securityLayer in
  if layer
  then call (SecurityLayerSendClientInfo pdu)
  else raise AttributeError.

End Handlers.

(** A flag (or a mask) is set in a flag word when all its bits are. *)
Definition flag_set (f word : Z) : Prop := Z.land word f = f.

(** A flag (or a mask) is cleared in a flag word when none of its bits is
    set. *)
Definition flag_cleared (f word : Z) : Prop := Z.land word f = 0%Z.

(** Modelled from the spec: [NegotiationResponseParser] is not in the
    sources; the spec says that the confirm tells whether TLS was
    selected and whether a failure was signalled.  The payload is taken
    to be the eight bytes of a negotiation structure: type, flags, a
    16-bit length, and a 32-bit value, which in a response (type 2) has
    its lowest bit set when TLS is selected. *)
Definition referenceParseNegotiationResponse (b : bytes) : Result NegotiationResponsePDU :=
  match b with
  | [t; _; _; _; v; _; _; _] =>
      Ok {| type := Byte.to_N t;
            tlsSelected := N.eqb (Byte.to_N t) 2 && N.testbit (Byte.to_N v) 0 |}
  | _ => Raise ParseError
  end.

(** The constants are those of the protocol: a failure has type 3,
    [RNS_UD_CS_WANT_32BPP_SESSION = 0x0002], [INFO_AUTOLOGON = 0x8],
    [INFO_COMPRESSION = 0x80], [INFO_CompressionTypeMask = 0x1E00]. *)
Definition referenceExternals : Externals :=
  Build_Externals referenceParseNegotiationResponse 3 0x0002 0x8 0x80 0x1E00.

End Client.

(** ** File transfers

    The reads of a transfer are given as the PDUs of the read requests and
    of their responses in the order of their arrival.  The requests arrive
    at one stealer, the responses at its peer. *)

Definition arrival (requestSide : Side) (pdu : DeviceRedirectionPDU) : Side * DeviceRedirectionPDU :=
  match pdu with
  | IOResponse _ => (peer requestSide, pdu)
  | _ => (requestSide, pdu)
  end.

(** A write into the reconstructed file: the offset of a read request and
    the data of its response. *)
Abbreviation write := (nat * bytes)%type.

Section Transfers.
Context `{Externals}.

(** [reads fileId pending pdus] is [Some ws] when [pdus] consists of read
    requests for [fileId] and of responses to them, where a request never
    takes a completion identifier that is still in progress, every
    response answers a request in progress, and every response parses.
    [pending] holds the requests in progress and [ws] the writes, in the
    order in which the responses arrive. *)
Fixpoint reads (file : N) (pending : gmap N DeviceIORequestPDU)
    (pdus : list DeviceRedirectionPDU) : option (list write) :=
  match pdus with
  | [] => Some []
  | IORequest rq :: rest =>
      match kind rq, pending !! req_completionId rq with
      | DeviceReadRequestPDU _ _, None =>
          if N.eqb (fileId rq) file
          then reads file (<[req_completionId rq := rq]> pending) rest
          else None
      | _, _ => None
      end
  | IOResponse rs :: rest =>
      match pending !! completionId rs with
      | Some rq =>
          match kind rq, parseReadResponse rs with
          | DeviceReadRequestPDU _ offset, Ok r =>
              option_map (cons (offset, readData r))
                (reads file (delete (completionId rs) pending) rest)
          | _, _ => None
          end
      | None => None
      end
  | _ :: _ => None
  end.

(** A create request with read intent for a file that is not a directory,
    and its response, which names the file [file]. *)
Record opens (request : DeviceIORequestPDU) (response : DeviceIOResponsePDU)
    (file : N) (remotePath : bytes) : Prop := {
  opens_kind : exists desiredAccess createOptions,
    kind request = DeviceCreateRequestPDU desiredAccess createOptions remotePath
    /\ N.land desiredAccess (N.lor GENERIC_READ FILE_READ_DATA) <> 0%N
    /\ N.land createOptions FILE_NON_DIRECTORY_FILE <> 0%N;
  opens_completionId : completionId response = req_completionId request;
  opens_fileId : exists r,
    parseDeviceCreateResponse response = Ok r /\ cr_fileId r = file
}.

(** A close request for [file] and its response. *)
Record closes (request : DeviceIORequestPDU) (response : DeviceIOResponsePDU)
    (file : N) : Prop := {
  closes_kind : kind request = DeviceCloseRequestPDU;
  closes_majorFunction : is_Ok (MajorFunction (majorFunction request)) = true;
  closes_fileId : fileId request = file;
  closes_completionId : completionId response = req_completionId request
}.

(** The trace of a transfer: create, reads, close. *)
Definition transfer (requestSide : Side)
    (createRequest : DeviceIORequestPDU) (createResponse : DeviceIOResponsePDU)
    (readPDUs : list DeviceRedirectionPDU)
    (closeRequest : DeviceIORequestPDU) (closeResponse : DeviceIOResponsePDU)
    : list (Side * DeviceRedirectionPDU) :=
  [arrival requestSide (IORequest createRequest);
   arrival requestSide (IOResponse createResponse)]
  ++ List.map (arrival requestSide) readPDUs
  ++ [arrival requestSide (IORequest closeRequest);
      arrival requestSide (IOResponse closeResponse)].

(** The PDU that [onPDUReceived] hands to the peer for [pdu] in the state
    [m], when it gets that far: a response to a read or create request in
    progress is replaced by what the parser makes of it. *)
Definition forwarded (self : Side) (pdu : DeviceRedirectionPDU) (m : MITM) : Result OutgoingPDU :=
  match pdu with
  | IOResponse r =>
      match completionIdInProgress (stealer self m) !! completionId r with
      | Some requestPDU =>
          match kind requestPDU with
          | DeviceReadRequestPDU _ _ =>
              result_map ReadResponse (parseReadResponse r)
          | DeviceCreateRequestPDU _ _ _ =>
              result_map CreateResponse (parseDeviceCreateResponse r)
          | _ => Ok (Received pdu)
          end
      | None => Ok (Received pdu)
      end
  | _ => Ok (Received pdu)
  end.

End Transfers.

(** The writes tile a file from [start] on: each begins where the one
    before it ends. *)
Fixpoint tiles (start : nat) (ws : list write) : bool :=
  match ws with
  | [] => true
  | (offset, data) :: rest =>
      Nat.eqb offset start && tiles (start + length data) rest
  end.

(** The byte that a write puts at position [p], if it covers [p]. *)
Definition byte_at (w : write) (p : nat) : option byte :=
  if Nat.leb (fst w) p then snd w !! (p - fst w) else None.

(** Two writes agree when they put the same byte at every position that
    both cover. *)
Definition agree (w1 w2 : write) : bool :=
  forallb (fun i =>
             match snd w1 !! i, byte_at w2 (fst w1 + i) with
             | Some b1, Some b2 => Byte.eqb b1 b2
             | _, _ => true
             end)
          (seq 0 (length (snd w1))).

(** The writes do not overlap inconsistently: any two of them agree. *)
Definition consistent (ws : list write) : bool :=
  forallb (fun w1 => forallb (agree w1) ws) ws.


(** The byte of a buffer at a position; zero beyond its end. *)
Definition byte_of (b : bytes) (i : nat) : byte := default x00 (b !! i).

(** The end of a write that has data; a write without data reaches
    nothing. *)
Definition reach (w : write) : nat :=
  match snd w with
  | [] => 0
  | _ :: _ => fst w + length (snd w)
  end.

(** The length of a stream of length [n] after the writes. *)
Definition extent (ws : list write) (n : nat) : nat :=
  fold_right (fun w n => Nat.max n (reach w)) n ws.

(** The property that [agree] decides. *)
Definition agreeP (w1 w2 : write) : Prop :=
  forall i x y, byte_at w1 i = Some x -> byte_at w2 i = Some y -> x = y.

(** The property that [consistent] decides. *)
Definition consistentP (ws : list write) : Prop :=
  forall w1 w2, In w1 ws -> In w2 ws -> agreeP w1 w2.

(** A stream after the writes, in order. *)
Definition written (ws : list write) (b : bytes) : bytes :=
  fold_left (fun b w => BytesIO.write_at b (fst w) (snd w)) ws b.

(** The content of the reconstructed file after the writes, in order, into
    an empty stream. *)
Definition contents (ws : list write) : bytes := written ws [].

(** The same on the stream object. *)
Definition written_stream (ws : list write) (s : BytesIO.t) : BytesIO.t :=
  fold_left (fun s w => BytesIO.write (snd w) (BytesIO.seek (fst w) s)) ws s.

(** The three dictionaries of a stealer. *)
Definition files (s : Side) (m : MITM)
    : gmap N DeviceIORequestPDU * gmap N bytes * gmap str BytesIO.t :=
  (completionIdInProgress (stealer s m), openedFiles (stealer s m),
   finalFiles (stealer s m)).

(** What [handleIORequest] evaluates for its log record succeeds. *)
Definition loggable `{Externals} (self : Side) (pdu : DeviceIORequestPDU) (m : MITM) : Prop :=
  match kind pdu with
  | DeviceReadRequestPDU _ _ =>
      is_Some (openedFiles (stealer (peer self) m) !! fileId pdu)
  | DeviceCreateRequestPDU desiredAccess _ path =>
      N.land desiredAccess (N.lor GENERIC_READ FILE_READ_DATA) <> 0%N ->
      is_Ok (bytesToPath path) = true
  | _ => is_Ok (MajorFunction (majorFunction pdu)) = true
  end.

(** The streams of a stealer after the writes into the stream of
    [fileName]: without a write no stream is made. *)
Definition stored (fileName : str) (ws : list write)
    (final : gmap str BytesIO.t) : gmap str BytesIO.t :=
  match ws with
  | [] => final
  | _ :: _ =>
      <[fileName := written_stream ws
                      (default BytesIO.empty (final !! fileName))]> final
  end.

(** ** A concrete transfer

    The PDUs of a transfer of the eleven bytes [hello world] from the
    remote path [\foo.txt], for the instance [Reference.externals]. *)

Module Scenario.

(** An ASCII string in UTF-16LE. *)
Definition utf16 (s : string) : bytes :=
  flat_map (fun a => [byte_of_ascii a; x00]) (list_ascii_of_string s).

Definition data (s : string) : bytes := list_byte_of_string s.

(** [\foo.txt] with its terminating NUL. *)
Definition remotePath : bytes :=
  [x5c; x00] ++ utf16 "foo.txt" ++ [x00; x00].

Definition createRequest : DeviceIORequestPDU := {|
  req_deviceId := 1; fileId := 0; req_completionId := 1; majorFunction := 0;
  kind := DeviceCreateRequestPDU 0x80000000 0x40 remotePath
|}.

(** The response names the file 7. *)
Definition createResponse : DeviceIOResponsePDU := {|
  deviceId := 1; completionId := 1; ioStatus := 0;
  payload := [x07; x00; x00; x00; x01]
|}.

Definition readRequest (id : N) (offset length : nat) : DeviceIORequestPDU := {|
  req_deviceId := 1; fileId := 7; req_completionId := id; majorFunction := 3;
  kind := DeviceReadRequestPDU length offset
|}.

Definition readResponse (id : N) (length : byte) (s : string) : DeviceIOResponsePDU := {|
  deviceId := 1; completionId := id; ioStatus := 0;
  payload := [length; x00; x00; x00] ++ data s
|}.

Definition closeRequest : DeviceIORequestPDU := {|
  req_deviceId := 1; fileId := 7; req_completionId := 5; majorFunction := 2;
  kind := DeviceCloseRequestPDU
|}.

Definition closeResponse : DeviceIOResponsePDU := {|
  deviceId := 1; completionId := 5; ioStatus := 0; payload := []
|}.

(** A create request with read access whose options do not say that the
    file is not a directory. *)
Definition createRequestAnyKind : DeviceIORequestPDU := {|
  req_deviceId := 1; fileId := 0; req_completionId := 1; majorFunction := 0;
  kind := DeviceCreateRequestPDU 0x80000000 0x20 remotePath
|}.

(** Three reads that tile the file, each answered before the next is
    sent. *)
Definition tilingReads : list DeviceRedirectionPDU :=
  [IORequest (readRequest 2 0 4); IOResponse (readResponse 2 x04 "hell");
   IORequest (readRequest 3 4 4); IOResponse (readResponse 3 x04 "o wo");
   IORequest (readRequest 4 8 3); IOResponse (readResponse 4 x03 "rld")].

(** Three reads that overlap, each answered before the next is sent. *)
Definition overlappingReads : list DeviceRedirectionPDU :=
  [IORequest (readRequest 2 0 6); IOResponse (readResponse 2 x06 "hello ");
   IORequest (readRequest 3 4 5); IOResponse (readResponse 3 x05 "o wor");
   IORequest (readRequest 4 8 3); IOResponse (readResponse 4 x03 "rld")].

(** The same reads, all sent before the responses arrive, the last
    response first. *)
Definition overlappingReadsReordered : list DeviceRedirectionPDU :=
  [IORequest (readRequest 2 0 6); IORequest (readRequest 3 4 5);
   IORequest (readRequest 4 8 3);
   IOResponse (readResponse 4 x03 "rld");
   IOResponse (readResponse 2 x06 "hello ");
   IOResponse (readResponse 3 x05 "o wor")].

Definition onDisk : str := str_of_string "./saved_files//foo.txt".

(** The three reads of a file of 5000 bytes, at the offsets 0, 2048 and
    4096 and of the lengths 2048, 2048 and 904. *)
Definition largeReads : list DeviceRedirectionPDU :=
  [IORequest (readRequest 2 0 2048);
   IOResponse {| deviceId := 1; completionId := 2; ioStatus := 0;
                 payload := [x00; x08; x00; x00] ++ replicate 2048 "a"%byte |};
   IORequest (readRequest 3 2048 2048);
   IOResponse {| deviceId := 1; completionId := 3; ioStatus := 0;
                 payload := [x00; x08; x00; x00] ++ replicate 2048 "b"%byte |};
   IORequest (readRequest 4 4096 904);
   IOResponse {| deviceId := 1; completionId := 4; ioStatus := 0;
                 payload := [x88; x03; x00; x00] ++ replicate 904 "c"%byte |}].

End Scenario.

(** ** More on the stealer *)

(** [pdu] is a response to a close request in progress at [self]. *)
Definition answersClose (self : Side) (pdu : DeviceRedirectionPDU) (m : MITM) : bool :=
  match pdu with
  | IOResponse r =>
      match completionIdInProgress (stealer self m) !! completionId r with
      | Some requestPDU =>
          match kind requestPDU with
          | DeviceCloseRequestPDU => true
          | _ => false
          end
      | None => false
      end
  | _ => false
  end.


(** No backslash. *)
Definition noBackslash (s : str) : bool :=
  forallb (fun c => negb (N.eqb c BACKSLASH)) s.


(** ** More concrete traces, for the instance [Reference.externals] *)

Module Cases.

(** The stealers after a create request whose options do not say that
    the file is not a directory. *)
Definition creatingAnyKind : MITM :=
  snd (run (H := Reference.externals)
         [(ClientSide, IORequest Scenario.createRequestAnyKind)] newMITM).

(** The stealers after a close request for a file that is not opened. *)
Definition closingUnopened : MITM :=
  snd (run (H := Reference.externals)
         [(ClientSide, IORequest Scenario.closeRequest)] newMITM).

(** The stealers after the transfer of [hello world]. *)
Definition transferred : MITM :=
  snd (run (H := Reference.externals)
         (transfer ClientSide Scenario.createRequest Scenario.createResponse
            Scenario.tilingReads Scenario.closeRequest Scenario.closeResponse)
         newMITM).

(** The name of the stream of the transferred file: the remote path
    without its terminating NUL. *)
Definition fileName : str := BACKSLASH :: str_of_string "foo.txt".



(** The reads of [Scenario.tilingReads], all sent before a response
    arrives; the responses arrive for the offsets 4, 8 and 0. *)
Definition tilingReadsReordered : list DeviceRedirectionPDU :=
  [IORequest (Scenario.readRequest 2 0 4);
   IORequest (Scenario.readRequest 3 4 4);
   IORequest (Scenario.readRequest 4 8 3);
   IOResponse (Scenario.readResponse 3 x04 "o wo");
   IOResponse (Scenario.readResponse 4 x03 "rld");
   IOResponse (Scenario.readResponse 2 x04 "hell")].

End Cases.

(** ** Channels of the client side of the MITM ([pyrdp/mitm/client.py])

    [onServerData], [buildChannel] and the functions it calls,
    [getChannelObserver], [getFastPathObserver] and
    [onLicensingDataReceived].  The layers and observers that these
    functions make are objects of classes that [client.py] imports: they are
    represented by the name of their class, and what is done to the objects
    that the client holds from its construction on (the security settings,
    the slow-path layer, the segmentation layer, the server side) is
    recorded as a call.  The constructors of layers and observers are taken
    to return; the two factory functions that depend on the encryption
    method may raise. *)

Module Channels.

Inductive Error : Type :=
| KeyError
| IndexError
| AttributeError
| FactoryError.

Inductive Outcome (A : Type) : Type :=
| Returns (a : A)
| Raises (e : Error).
Arguments Returns {A} a.
Arguments Raises {A} e.

(** [serverData.security] *)
Record ServerSecurityData : Type := {
  encryptionMethod : N
}.

(** [serverData.network] *)
Record ServerNetworkData : Type := {
  mcsChannelID : N;
  channels : list N
}.

Record ServerDataPDU : Type := {
  security : ServerSecurityData;
  network : ServerNetworkData
}.

(** The classes of the observers that are put into [channelObservers]. *)
Inductive Observer : Type :=
| MITMSlowPathObserver
| ActiveClipboardStealer
| PassiveFileStealerClient
| MITMVirtualChannelObserver.

(** The classes of the security layers that [createSecurityLayer]
    returns. *)
Inductive SecurityLayerClass : Type :=
| TLSSecurityLayer
| SecurityLayer (encryptionMethod : N).

(** The security layer of the I/O channel; [securityHeaderExpected] is
    [None] as long as the client has not assigned it. *)
Record SecurityLayerObject : Type := {
  layerClass : SecurityLayerClass;
  securityHeaderExpected : option bool
}.

(** The layers under the channel that a builder returns. *)
Inductive Stack : Type :=
| RawStack (securityLayer : SecurityLayerClass)
| ClipboardStack (securityLayer : SecurityLayerClass)
| DeviceRedirectionStack (securityLayer : SecurityLayerClass)
| IOStack.

Record MCSClientChannel : Type := {
  userID : N;
  channelID : N;
  stack : Stack
}.

Inductive LayerObserver : Type :=
| MITMObserver
| RecordingObserver.

Inductive Call : Type :=
| GenerateClientRandom
| ServerSecurityReceived (security : ServerSecurityData)
| SecurityLayerCreateObserver
| SlowPathLayerAddObserver (o : LayerObserver)
| FastPathLayerAddObserver (o : LayerObserver)
| SegmentationAttachFastPath
| SendSecurityExchange
| ServerOnChannelJoinAccepted (userID channelID : N)
| ServerOnLicensingDataReceived (data : bytes).

Class Externals : Type := {
  (** [SecurityLayer.create(encryptionMethod, crypter)] returns or raises *)
  SecurityLayer_create : N -> Outcome unit;
  (** [createFastPathParser(useTLS, encryptionMethod, crypter, mode)]
      returns or raises *)
  createFastPathParser : bool -> N -> Outcome unit;
  (** [VirtualChannelName.CLIPBOARD] *)
  CLIPBOARD : str;
  (** [VirtualChannelName.DEVICE_REDIRECTION] *)
  DEVICE_REDIRECTION : str
}.

Record MITMClient : Type := {
  useTLS : bool;
  channelDefinitions : list Client.ChannelDefinition;
  channelMap : gmap N str;
  channelObservers : gmap N Observer;
  deviceRedirectionObserver : option Observer;
  serverData : option ServerDataPDU;
  securityLayer : option SecurityLayerObject;
  (** whether [self.fastPathObserver] is an observer or still [None] *)
  fastPathObserver : bool;
  (** the records of [self.log], oldest first *)
  log : list (Level * string);
  (** the calls, oldest first *)
  calls : list Call
}.

(** The attributes as [MITMClient.__init__] sets them, for a client that
    has got its channel definitions and its [useTLS] since. *)
Definition newClient (useTLS : bool)
    (channelDefinitions : list Client.ChannelDefinition) : MITMClient := {|
  useTLS := useTLS;
  channelDefinitions := channelDefinitions;
  channelMap := ∅;
  channelObservers := ∅;
  deviceRedirectionObserver := None;
  serverData := None;
  securityLayer := None;
  fastPathObserver := false;
  log := [];
  calls := []
|}.

Definition C (A : Type) : Type := MITMClient -> Outcome A * MITMClient.

Definition ret {A} (a : A) : C A := fun c => (Returns a, c).

Definition bind {A B} (x : C A) (k : A -> C B) : C B :=
  fun c =>
    match x c with
    | (Returns a, c') => k a c'
    | (Raises e, c') => (Raises e, c')
    end.

Definition raise {A} (e : Error) : C A := fun c => (Raises e, c).

Definition lift {A} (o : Outcome A) : C A := fun c => (o, c).

Definition gets {A} (f : MITMClient -> A) : C A := fun c => (Returns (f c), c).

Definition modify (f : MITMClient -> MITMClient) : C unit :=
  fun c => (Returns tt, f c).

Declare Scope channels_scope.
Notation "'let*' x ':=' c 'in' k" := (bind c (fun x => k))
  (at level 10, x name, c at level 100, k at level 200) : channels_scope.
Notation "c '>>' k" := (bind c (fun _ => k))
  (at level 62, right associativity) : channels_scope.
#[local] Open Scope channels_scope.

Definition set_channelMap (v : gmap N str) : C unit :=
  modify (fun c =>
    {| useTLS := useTLS c; channelDefinitions := channelDefinitions c;
       channelMap := v; channelObservers := channelObservers c;
       deviceRedirectionObserver := deviceRedirectionObserver c;
       serverData := serverData c; securityLayer := securityLayer c;
       fastPathObserver := fastPathObserver c; log := log c;
       calls := calls c |}).

Definition set_channelObservers (v : gmap N Observer) : C unit :=
  modify (fun c =>
    {| useTLS := useTLS c; channelDefinitions := channelDefinitions c;
       channelMap := channelMap c; channelObservers := v;
       deviceRedirectionObserver := deviceRedirectionObserver c;
       serverData := serverData c; securityLayer := securityLayer c;
       fastPathObserver := fastPathObserver c; log := log c;
       calls := calls c |}).

Definition set_deviceRedirectionObserver (v : option Observer) : C unit :=
  modify (fun c =>
    {| useTLS := useTLS c; channelDefinitions := channelDefinitions c;
       channelMap := channelMap c; channelObservers := channelObservers c;
       deviceRedirectionObserver := v;
       serverData := serverData c; securityLayer := securityLayer c;
       fastPathObserver := fastPathObserver c; log := log c;
       calls := calls c |}).

Definition set_serverData (v : option ServerDataPDU) : C unit :=
  modify (fun c =>
    {| useTLS := useTLS c; channelDefinitions := channelDefinitions c;
       channelMap := channelMap c; channelObservers := channelObservers c;
       deviceRedirectionObserver := deviceRedirectionObserver c;
       serverData := v; securityLayer := securityLayer c;
       fastPathObserver := fastPathObserver c; log := log c;
       calls := calls c |}).

Definition set_securityLayer (v : option SecurityLayerObject) : C unit :=
  modify (fun c =>
    {| useTLS := useTLS c; channelDefinitions := channelDefinitions c;
       channelMap := channelMap c; channelObservers := channelObservers c;
       deviceRedirectionObserver := deviceRedirectionObserver c;
       serverData := serverData c; securityLayer := v;
       fastPathObserver := fastPathObserver c; log := log c;
       calls := calls c |}).

Definition set_fastPathObserver (v : bool) : C unit :=
  modify (fun c =>
    {| useTLS := useTLS c; channelDefinitions := channelDefinitions c;
       channelMap := channelMap c; channelObservers := channelObservers c;
       deviceRedirectionObserver := deviceRedirectionObserver c;
       serverData := serverData c; securityLayer := securityLayer c;
       fastPathObserver := v; log := log c;
       calls := calls c |}).

Definition debug (msg : string) : C unit :=
  modify (fun c =>
    {| useTLS := useTLS c; channelDefinitions := channelDefinitions c;
       channelMap := channelMap c; channelObservers := channelObservers c;
       deviceRedirectionObserver := deviceRedirectionObserver c;
       serverData := serverData c; securityLayer := securityLayer c;
       fastPathObserver := fastPathObserver c;
       log := log c ++ [(DEBUG, msg)];
       calls := calls c |}).

Definition call (x : Call) : C unit :=
  modify (fun c =>
    {| useTLS := useTLS c; channelDefinitions := channelDefinitions c;
       channelMap := channelMap c; channelObservers := channelObservers c;
       deviceRedirectionObserver := deviceRedirectionObserver c;
       serverData := serverData c; securityLayer := securityLayer c;
       fastPathObserver := fastPathObserver c; log := log c;
       calls := calls c ++ [x] |}).

(** [self.channelMap[channelID] = name] *)
Definition setChannelName (channelID : N) (name : str) : C unit :=
  let* m := gets channelMap in
  set_channelMap (<[channelID := name]> m).

(** [self.channelObservers[channelID] = observer] *)
Definition setChannelObserver (channelID : N) (observer : Observer) : C unit :=
  let* m := gets channelObservers in
  set_channelObservers (<[channelID := observer]> m).

(** [self.serverData.security.encryptionMethod]; without server data the
    attribute access fails. *)
Definition serverEncryptionMethod : C N :=
  let* data := gets serverData in
  match data with
  | Some d => ret (encryptionMethod (security d))
  | None => raise AttributeError
  end.

(** The loop of [onServerData]: [ids] are the channels from [index] on. *)
Fixpoint nameChannels (ids : list N) (index : nat) : C unit :=
  match ids with
  | [] => ret tt
  | channelID :: rest =>
      let* definitions := gets channelDefinitions in
      match definitions !! index with
      | Some definition =>
          setChannelName channelID (Client.name definition) >>
          nameChannels rest (S index)
      | None => raise IndexError
      end
  end.

(** [onServerData] *)
Definition onServerData (serverData : ServerDataPDU) : C unit :=
  set_serverData (Some serverData) >>
  call GenerateClientRandom >>
  call (ServerSecurityReceived (security serverData)) >>
  setChannelName (mcsChannelID (network serverData)) (str_of_string "I/O") >>
  nameChannels (channels (network serverData)) 0.

Section Builders.
Context `{Externals}.

(** [createSecurityLayer] *)
Definition createSecurityLayer : C SecurityLayerClass :=
  let* encryptionMethod := serverEncryptionMethod in
  let* tls := gets useTLS in
  if tls
  then ret TLSSecurityLayer
  else
    lift (SecurityLayer_create encryptionMethod) >>
    ret (SecurityLayer encryptionMethod).

(** [buildVirtualChannel] *)
Definition buildVirtualChannel (userID channelID : N) : C MCSClientChannel :=
  let* securityLayer := createSecurityLayer in
  setChannelObserver channelID MITMVirtualChannelObserver >>
  ret {| userID := userID; channelID := channelID;
         stack := RawStack securityLayer |}.

(** [buildClipboardChannel] *)
Definition buildClipboardChannel (userID channelID : N) : C MCSClientChannel :=
  let* securityLayer := createSecurityLayer in
  setChannelObserver channelID ActiveClipboardStealer >>
  ret {| userID := userID; channelID := channelID;
         stack := ClipboardStack securityLayer |}.

(** [buildDeviceRedirectionChannel] *)
Definition buildDeviceRedirectionChannel (userID channelID : N) : C MCSClientChannel :=
  let* securityLayer := createSecurityLayer in
  set_deviceRedirectionObserver (Some PassiveFileStealerClient) >>
  setChannelObserver channelID PassiveFileStealerClient >>
  ret {| userID := userID; channelID := channelID;
         stack := DeviceRedirectionStack securityLayer |}.

(** [buildIOChannel] *)
Definition buildIOChannel (userID channelID : N) : C MCSClientChannel :=
  let* encryptionMethod := serverEncryptionMethod in
  let* layer := createSecurityLayer in
  set_securityLayer
    (Some {| layerClass := layer; securityHeaderExpected := None |}) >>
  call SecurityLayerCreateObserver >>
  call (SlowPathLayerAddObserver MITMObserver) >>
  call (SlowPathLayerAddObserver RecordingObserver) >>
  setChannelObserver channelID MITMSlowPathObserver >>
  let* tls := gets useTLS in
  lift (createFastPathParser tls encryptionMethod) >>
  set_fastPathObserver true >>
  call (FastPathLayerAddObserver MITMObserver) >>
  call (FastPathLayerAddObserver RecordingObserver) >>
  call SegmentationAttachFastPath >>
  (if tls
   then
     set_securityLayer
       (Some {| layerClass := layer; securityHeaderExpected := Some true |})
   else if negb (N.eqb encryptionMethod 0)
   then debug "Sending Security Exchange" >> call SendSecurityExchange
   else ret tt) >>
  ret {| userID := userID; channelID := channelID; stack := IOStack |}.

(** [buildChannel] *)
Definition buildChannel (userID channelID : N) : C MCSClientChannel :=
  let* names := gets channelMap in
  let channelName := names !! channelID in
  debug "building channel %(arg1)s for user %(arg2)d" >>
  let* channel :=
    if bool_decide (channelName = Some (str_of_string "I/O"))
    then buildIOChannel userID channelID
    else if bool_decide (channelName = Some CLIPBOARD)
    then buildClipboardChannel userID channelID
    else if bool_decide (channelName = Some DEVICE_REDIRECTION)
    then buildDeviceRedirectionChannel userID channelID
    else buildVirtualChannel userID channelID in
  call (ServerOnChannelJoinAccepted userID channelID) >>
  ret channel.

End Builders.

(** [getChannelObserver] *)
Definition getChannelObserver (channelID : N) : C Observer :=
  let* observers := gets channelObservers in
  match observers !! channelID with
  | Some observer => ret observer
  | None => raise KeyError
  end.

(** [getFastPathObserver]: whether it returns an observer or [None]. *)
Definition getFastPathObserver : C bool := gets fastPathObserver.

(** [onLicensingDataReceived] *)
Definition onLicensingDataReceived (data : bytes) : C unit :=
  debug "Licensing data received" >>
  let* tls := gets useTLS in
  (if tls
   then
     let* layer := gets securityLayer in
     match layer with
     | Some l =>
         set_securityLayer
           (Some {| layerClass := layerClass l;
                    securityHeaderExpected := Some false |})
     | None => raise AttributeError
     end
   else ret tt) >>
  call (ServerOnLicensingDataReceived data).

(** The observer that [buildChannel] makes for a channel of the given
    name, or without a name. *)
Definition observerFor `{Externals} (channelName : option str) : Observer :=
  if bool_decide (channelName = Some (str_of_string "I/O"))
  then MITMSlowPathObserver
  else if bool_decide (channelName = Some CLIPBOARD)
  then ActiveClipboardStealer
  else if bool_decide (channelName = Some DEVICE_REDIRECTION)
  then PassiveFileStealerClient
  else MITMVirtualChannelObserver.

(** The factories return for every encryption method; the channel names
    are those of the protocol. *)
Definition referenceExternals : Externals :=
  Build_Externals (fun _ => Returns tt) (fun _ _ => Returns tt)
    (str_of_string "cliprdr") (str_of_string "rdpdr").

End Channels.

(** A client that has defined the clipboard, the device redirection and
    the sound channel, and a server that gives them the ids 1004 to 1006
    beside the I/O channel 1003. *)
Module Session.

Definition definitions : list Client.ChannelDefinition :=
  [Client.Build_ChannelDefinition (str_of_string "cliprdr") 0;
   Client.Build_ChannelDefinition (str_of_string "rdpdr") 0;
   Client.Build_ChannelDefinition (str_of_string "rdpsnd") 0].

Definition serverData : Channels.ServerDataPDU :=
  Channels.Build_ServerDataPDU
    (Channels.Build_ServerSecurityData 2)
    (Channels.Build_ServerNetworkData 1003 [1004; 1005; 1006]%N).

(** A server with one channel more than the client has defined. *)
Definition crowdedServerData : Channels.ServerDataPDU :=
  Channels.Build_ServerDataPDU
    (Channels.Build_ServerSecurityData 2)
    (Channels.Build_ServerNetworkData 1003 [1004; 1005; 1006; 1007]%N).

Definition client : Channels.MITMClient :=
  Channels.newClient false definitions.

Definition tlsClient : Channels.MITMClient :=
  Channels.newClient true definitions.

(** The clients after the server data has arrived. *)
Definition ready : Channels.MITMClient :=
  snd (Channels.onServerData serverData client).

Definition tlsReady : Channels.MITMClient :=
  snd (Channels.onServerData serverData tlsClient).

End Session.

(** * Properties *)

(** ** Path sanitization *)

Lemma lstrip_NUL (s : str) :
  PyStr.lstrip [NUL] s = SpecPath.dropLeadingNULs s.
Proof.
  induction s as [|c s IH]; [reflexivity|].
  destruct c as [|p]; simpl; [exact IH | reflexivity].
Qed.

Lemma strip_NUL (s : str) : PyStr.strip [NUL] s = SpecPath.trimNULs s.
Proof.
  unfold PyStr.strip, PyStr.rstrip, SpecPath.trimNULs, SpecPath.trimTrailingNULs.
  now rewrite !lstrip_NUL.
Qed.

Lemma replace_backslash (s : str) :
  PyStr.replace [BACKSLASH] [SLASH] s = SpecPath.slashes s.
Proof.
  unfold PyStr.replace.
  induction s as [|c s IH]; [reflexivity|].
  cbn [PyStr.replace_from PyStr.startswith SpecPath.slashes List.map length].
  rewrite andb_true_r, N.eqb_sym.
  fold (SpecPath.slashes s). rewrite <- IH.
  destruct (N.eqb c BACKSLASH); reflexivity.
Qed.

(** Passing over the one remaining dot of an occurrence. *)
Lemma replace_from_skip (old new : str) (c : N) (s : str) :
  PyStr.replace_from old new 1 (c :: s) = PyStr.replace_from old new 0 s.
Proof. reflexivity. Qed.

Lemma removeDotDot_other (c : N) (s : str) :
  c <> DOT -> SpecPath.removeDotDot (c :: s) = c :: SpecPath.removeDotDot s.
Proof.
  unfold DOT. intros Hne.
  destruct c as [|p]; [reflexivity|].
  do 6 (destruct p as [p|p|]; try reflexivity); congruence.
Qed.

Lemma removeDotDot_dot (d : N) (s : str) :
  d <> DOT ->
  SpecPath.removeDotDot (DOT :: d :: s) = DOT :: SpecPath.removeDotDot (d :: s).
Proof.
  unfold DOT. intros Hne.
  destruct d as [|p]; [reflexivity|].
  do 6 (destruct p as [p|p|]; try reflexivity); congruence.
Qed.

Lemma replace_from_cons (old new : str) (c : N) (s : str) :
  PyStr.replace_from old new 0 (c :: s)
  = if PyStr.startswith (c :: s) old
    then new ++ PyStr.replace_from old new (length old - 1) s
    else c :: PyStr.replace_from old new 0 s.
Proof. reflexivity. Qed.

Lemma startswith_dotdot (c : N) (s : str) :
  PyStr.startswith (c :: s) [DOT; DOT]
  = N.eqb DOT c && match s with d :: _ => N.eqb DOT d | [] => false end.
Proof.
  cbn [PyStr.startswith]. destruct s as [|d s]; [reflexivity|].
  cbn [PyStr.startswith]. now rewrite andb_true_r.
Qed.

Lemma replace_dotdot (s : str) :
  PyStr.replace [DOT; DOT] [] s = SpecPath.removeDotDot s.
Proof.
  unfold PyStr.replace.
  enough (Hboth : PyStr.replace_from [DOT; DOT] [] 0 s = SpecPath.removeDotDot s
                  /\ forall c, PyStr.replace_from [DOT; DOT] [] 0 (c :: s)
                               = SpecPath.removeDotDot (c :: s))
    by apply Hboth.
  induction s as [|d s [IH0 IH1]].
  - split; [reflexivity|]. intros c.
    rewrite replace_from_cons, startswith_dotdot, andb_false_r.
    destruct (N.eq_dec c DOT) as [->|Hc]; [reflexivity|].
    now rewrite removeDotDot_other.
  - split; [apply IH1|]. intros c.
    rewrite replace_from_cons, startswith_dotdot.
    destruct (N.eqb DOT c) eqn:Hc; cbn [andb].
    + apply N.eqb_eq in Hc. subst c.
      destruct (N.eqb DOT d) eqn:Hd.
      * apply N.eqb_eq in Hd. subst d.
        cbn [length Nat.sub app]. rewrite replace_from_skip. exact IH0.
      * rewrite IH1, (removeDotDot_dot d); [reflexivity|].
        intros ->. unfold DOT in Hd. discriminate.
    + rewrite IH1, (removeDotDot_other c); [reflexivity|].
      intros ->. unfold DOT in Hc. discriminate.
Qed.

(** Once [..] is removed, no [..] is left. *)
Lemma removeDotDot_noDotDot (s : str) :
  SpecPath.noDotDot (SpecPath.removeDotDot s) = true.
Proof.
  enough (Hboth : SpecPath.noDotDot (SpecPath.removeDotDot s) = true
                  /\ forall c, SpecPath.noDotDot (SpecPath.removeDotDot (c :: s))
                               = true)
    by apply Hboth.
  induction s as [|d s [IH0 IH1]].
  - split; [reflexivity|]. intros c.
    destruct (N.eq_dec c DOT) as [->|Hc]; [reflexivity|].
    rewrite removeDotDot_other by assumption.
    cbn. now rewrite andb_false_r.
  - split; [apply IH1|]. intros c.
    destruct (N.eq_dec c DOT) as [->|Hc].
    + destruct (N.eq_dec d DOT) as [->|Hd]; [exact IH0|].
      rewrite removeDotDot_dot by assumption.
      specialize (IH1 d). rewrite removeDotDot_other in * by assumption.
      cbn [SpecPath.noDotDot] in *. rewrite IH1.
      apply N.eqb_neq in Hd. now rewrite Hd.
    + rewrite (removeDotDot_other c) by assumption.
      cbn [SpecPath.noDotDot]. rewrite (IH1 d).
      apply N.eqb_neq in Hc. now rewrite Hc.
Qed.

Lemma goodPath_sanitize `{Externals} (path : str) :
  goodPath path = str_of_string "./saved_files/" ++ SpecPath.sanitize path.
Proof.
  unfold goodPath, SpecPath.sanitize.
  now rewrite replace_backslash, replace_dotdot.
Qed.

(** The stealer's path for a remote path is the decoded path with the NULs
    at both ends trimmed, sanitized, under [./saved_files/]; an error of
    the decoder is passed on. *)
Lemma savedPath_decoded `{Externals} (pathAsBytes : bytes) :
  savedPath pathAsBytes
  = result_map SpecPath.pathTrimmedBothEnds (decodeUTF16LE pathAsBytes).
Proof.
  unfold savedPath, bytesToPath, SpecPath.pathTrimmedBothEnds.
  destruct (decodeUTF16LE pathAsBytes) as [decoded|e]; [|reflexivity].
  cbn [result_map]. now rewrite goodPath_sanitize, strip_NUL.
Qed.

(** C8, amended: the path on disk is the path decoded from UTF-16LE with
    the NULs trimmed at both ends (not only the trailing ones), every
    backslash replaced by a slash, every [..] removed and [./saved_files/]
    prepended.  For a decoded path that does not begin with a NUL this is
    the path of the specification. *)
Theorem savedPath_sanitized `{Externals} (pathAsBytes : bytes) (decoded : str) :
  decodeUTF16LE pathAsBytes = Ok decoded ->
  savedPath pathAsBytes = Ok (SpecPath.pathTrimmedBothEnds decoded)
  /\ (hd_error decoded <> Some NUL ->
      savedPath pathAsBytes = Ok (SpecPath.path decoded)).
Proof.
  intros Hdecoded. rewrite savedPath_decoded, Hdecoded. cbn [result_map].
  split; [reflexivity|].
  intros Hhd. unfold SpecPath.pathTrimmedBothEnds, SpecPath.path, SpecPath.trimNULs.
  destruct decoded as [|c decoded]; [reflexivity|].
  destruct c as [|p]; [now elim Hhd | reflexivity].
Qed.

Lemma savedPath_sanitized_witness :
  savedPath (H := Reference.externals) [x5c; x00; "a"; x00; x00; x00]%byte
  = Ok (str_of_string "./saved_files//a").
Proof.
  destruct (savedPath_sanitized (H := Reference.externals)
              [x5c; x00; "a"; x00; x00; x00]%byte [92; 97; 0]%N eq_refl)
    as [_ Hpath].
  rewrite Hpath; [reflexivity | discriminate].
Defined.

(** C8 as stated fails on a remote path that begins with a NUL: the
    specification keeps the leading NUL, the stealer removes it. *)
Lemma savedPath_leading_NUL :
  let pathAsBytes := [x00; x00; "a"; x00]%byte in
  exists decoded,
    decodeUTF16LE (Externals := Reference.externals) pathAsBytes = Ok decoded
    /\ savedPath (H := Reference.externals) pathAsBytes
       = Ok (str_of_string "./saved_files/a")
    /\ savedPath (H := Reference.externals) pathAsBytes
       <> Ok (SpecPath.path decoded).
Proof.
  exists [0; 97]%N. repeat split. discriminate.
Qed.

(** ** The client side of the MITM *)

Section ClientProperties.
Context `{Client.Externals}.
Import Client.

(** With a security layer, the rewritten PDU is handed to it. *)
Lemma onClientInfoPDUReceived_calls (pdu : ClientInfoPDU) (c : MITMClient) :
  securityLayer c = true ->
  onClientInfoPDUReceived pdu c
  = (Ok tt,
     {| replacementUsername := replacementUsername c;
        replacementPassword := replacementPassword c;
        useTLS := useTLS c;
        self_channelDefinitions := self_channelDefinitions c;
        gccConnect_conferenceName := gccConnect_conferenceName c;
        securityLayer := true;
        client_log := client_log c ++ [(DEBUG, "Sending Client Info: %(arg1)s"%string)];
        recording := recording c;
        calls := calls c
          ++ [SecurityLayerSendClientInfo
                (rewriteClientInfo (replacementUsername c)
                   (replacementPassword c) pdu)] |}).
Proof.
  intros Hlayer.
  unfold onClientInfoPDUReceived, bind, gets, log, call, modify.
  cbn. now rewrite Hlayer.
Qed.

Lemma land_lnot_cleared (x f : Z) : flag_cleared f (Z.land x (Z.lnot f)).
Proof.
  unfold flag_cleared. rewrite <- Z.land_assoc, (Z.land_comm (Z.lnot f)).
  now rewrite Z.land_lnot_diag, Z.land_0_r.
Qed.

Lemma land_cleared (x y f : Z) : flag_cleared f x -> flag_cleared f (Z.land x y).
Proof.
  unfold flag_cleared. intros Hx.
  now rewrite <- Z.land_assoc, (Z.land_comm y), Z.land_assoc, Hx.
Qed.

Lemma land_lnot_set (x f g : Z) :
  Z.land f g = 0%Z -> flag_set f x -> flag_set f (Z.land x (Z.lnot g)).
Proof.
  unfold flag_set. intros Hdisjoint Hset.
  apply Z.bits_inj'. intros n Hn.
  apply (f_equal (fun z => Z.testbit z n)) in Hdisjoint, Hset.
  rewrite Z.land_spec, Z.bits_0 in Hdisjoint.
  rewrite Z.land_spec in Hset.
  rewrite !Z.land_spec, Z.lnot_spec by assumption.
  destruct (Z.testbit x n), (Z.testbit f n), (Z.testbit g n);
    simpl in *; congruence.
Qed.

Lemma lor_set (x f : Z) : flag_set f (Z.lor x f).
Proof.
  unfold flag_set. apply Z.bits_inj'. intros n Hn.
  rewrite Z.land_spec, Z.lor_spec.
  destruct (Z.testbit x n), (Z.testbit f n); reflexivity.
Qed.

Lemma rewriteClientInfo_flags (u p : option str) (pdu : ClientInfoPDU) :
  flags (rewriteClientInfo u p pdu)
  = Z.land
      (Z.land
         (match u, p with
          | Some _, Some _ => Z.lor (flags pdu) INFO_AUTOLOGON
          | _, _ => flags pdu
          end)
         (Z.lnot INFO_COMPRESSION))
      (Z.lnot INFO_CompressionTypeMask).
Proof. destruct u, p; reflexivity. Qed.

(** C2: for a client that has its security layer, the received PDU is
    handed to it, with the compression flag and the compression type mask
    cleared in every case; when a replacement username and a replacement
    password are both configured it carries them and has the autologon
    flag set.  The autologon flag is assumed to share no bit with the
    compression flag and mask. *)
Theorem clientInfo_replaced (pdu : ClientInfoPDU) (c : MITMClient) :
  securityLayer c = true ->
  Z.land INFO_AUTOLOGON INFO_COMPRESSION = 0%Z ->
  Z.land INFO_AUTOLOGON INFO_CompressionTypeMask = 0%Z ->
  exists c' forwardedPDU,
    onClientInfoPDUReceived pdu c = (Ok tt, c')
    /\ calls c' = calls c ++ [SecurityLayerSendClientInfo forwardedPDU]
    /\ flag_cleared INFO_COMPRESSION (flags forwardedPDU)
    /\ flag_cleared INFO_CompressionTypeMask (flags forwardedPDU)
    /\ forall u p,
         replacementUsername c = Some u ->
         replacementPassword c = Some p ->
         username forwardedPDU = u
         /\ password forwardedPDU = p
         /\ flag_set INFO_AUTOLOGON (flags forwardedPDU).
Proof.
  intros Hlayer Hcompression Hmask.
  eexists _, _. split; [now apply onClientInfoPDUReceived_calls|].
  split; [reflexivity|].
  rewrite rewriteClientInfo_flags.
  split; [apply land_cleared, land_lnot_cleared|].
  split; [apply land_lnot_cleared|].
  intros u p -> ->. repeat split.
  apply land_lnot_set; [assumption|].
  apply land_lnot_set; [assumption|].
  apply lor_set.
Qed.

(** C9: for a client that has its security layer and no replacement
    credentials, the PDU handed to the security layer has the fields of
    the received PDU; in its flags, a bit is set exactly when it is set in
    the received flags and belongs neither to the compression flag nor to
    the compression type mask. *)
Theorem clientInfo_untouched (pdu : ClientInfoPDU) (c : MITMClient) :
  securityLayer c = true ->
  replacementUsername c = None ->
  replacementPassword c = None ->
  exists c' forwardedPDU,
    onClientInfoPDUReceived pdu c = (Ok tt, c')
    /\ calls c' = calls c ++ [SecurityLayerSendClientInfo forwardedPDU]
    /\ codePage forwardedPDU = codePage pdu
    /\ domain forwardedPDU = domain pdu
    /\ username forwardedPDU = username pdu
    /\ password forwardedPDU = password pdu
    /\ alternateShell forwardedPDU = alternateShell pdu
    /\ workingDir forwardedPDU = workingDir pdu
    /\ extraInfo forwardedPDU = extraInfo pdu
    /\ forall n, (0 <= n)%Z ->
         Z.testbit (flags forwardedPDU) n
         = Z.testbit (flags pdu) n
           && negb (Z.testbit INFO_COMPRESSION n)
           && negb (Z.testbit INFO_CompressionTypeMask n).
Proof.
  intros Hlayer Hu Hp.
  eexists _, _. split; [now apply onClientInfoPDUReceived_calls|].
  rewrite Hu, Hp. repeat (split; [reflexivity|]).
  intros n Hn. cbn.
  now rewrite !Z.land_spec, !Z.lnot_spec by assumption.
Qed.

(** C6, amended: the [CLIENT_DATA] event is written before the bit is
    cleared, so that it holds the client data as received, with the
    [earlyCapabilityFlags] that the client sent; the client data handed
    to [rdpConnect.sendPDU] is the received one with the
    [RNS_UD_CS_WANT_32BPP_SESSION] bit cleared in [earlyCapabilityFlags]
    and nothing else changed. *)
Theorem connectInitial_recorded_as_received (now : N)
    (gccConferenceCreateRequest : GCCConferenceCreateRequestPDU)
    (clientData : ClientDataPDU) (c : MITMClient) :
  exists c' sentPDU,
    onConnectInitial now gccConferenceCreateRequest clientData c = (Ok tt, c')
    /\ recording c'
       = recording c
         ++ [{| header := CLIENT_DATA; timestamp := now;
                pm_payload := clientData |}]
    /\ calls c' = calls c ++ [RdpConnectSendPDU sentPDU]
    /\ flag_cleared RNS_UD_CS_WANT_32BPP_SESSION
         (earlyCapabilityFlags (coreData sentPDU))
    /\ (forall n, (0 <= n)%Z ->
          Z.testbit (earlyCapabilityFlags (coreData sentPDU)) n
          = Z.testbit (earlyCapabilityFlags (coreData clientData)) n
            && negb (Z.testbit RNS_UD_CS_WANT_32BPP_SESSION n))
    /\ clientName (coreData sentPDU) = clientName (coreData clientData)
    /\ desktopWidth (coreData sentPDU) = desktopWidth (coreData clientData)
    /\ desktopHeight (coreData sentPDU) = desktopHeight (coreData clientData)
    /\ securityData sentPDU = securityData clientData
    /\ networkData sentPDU = networkData clientData
    /\ clusterData sentPDU = clusterData clientData.
Proof.
  exists (snd (onConnectInitial now gccConferenceCreateRequest clientData c)),
         (clearWant32BPP clientData).
  split.
  { unfold onConnectInitial. cbn.
    destruct (networkData clientData); reflexivity. }
  split.
  { unfold onConnectInitial. cbn.
    destruct (networkData clientData); reflexivity. }
  split.
  { unfold onConnectInitial. cbn.
    destruct (networkData clientData); reflexivity. }
  split; [apply land_lnot_cleared|].
  split.
  { intros n Hn. cbn. now rewrite Z.land_spec, Z.lnot_spec by assumption. }
  repeat split.
Qed.

(** C7 on the code: when the negotiation response is a failure,
    [onConnectionConfirm] writes the error to the log and then goes on as
    for any other response, where the claim has it disconnect.  It starts
    TLS if the response says so and hands the confirm to the server side;
    it does not call [tcp.disconnect]. *)
Theorem connectionConfirm_failure_goes_on (pdu : X224ConnectionConfirmPDU)
    (response : NegotiationResponsePDU) (c : MITMClient) :
  parseNegotiationResponse (cc_payload pdu) = Ok response ->
  type response = TYPE_RDP_NEG_FAILURE ->
  exists c' newCalls,
    onConnectionConfirm pdu c = (Ok tt, c')
    /\ client_log c'
       = client_log c
         ++ [(DEBUG, "Connection Confirm received"%string);
             (ERROR, "Server returned a TYPE_RDP_NEG_FAILURE packet"%string)]
    /\ calls c' = calls c ++ newCalls
    /\ newCalls
       = (if tlsSelected response then [TcpStartTLS] else [])
         ++ [ServerOnConnectionConfirm pdu]
    /\ ~ In TcpDisconnect newCalls.
Proof.
  intros Hparse Htype.
  unfold onConnectionConfirm, bind, lift, log, call, set_useTLS, modify, ret.
  rewrite Hparse, Htype, N.eqb_refl.
  destruct (tlsSelected response); cbn;
    (eexists _, _; split; [reflexivity|]); cbn;
    rewrite <- ?app_assoc;
    (split; [reflexivity|]); (split; [reflexivity|]);
    (split; [reflexivity|]);
    cbn; intuition discriminate.
Qed.

End ClientProperties.

Lemma clientInfo_replaced_witness :
  let pdu := {| Client.codePage := 0; Client.flags := 0x80 + 0x200 + 0x1;
                Client.domain := []; Client.username := str_of_string "alice";
                Client.password := str_of_string "secret";
                Client.alternateShell := []; Client.workingDir := [];
                Client.extraInfo := [] |} in
  let c := Client.withSecurityLayer
             (Client.newClient (Some (str_of_string "admin"))
                               (Some (str_of_string "hunter2"))) in
  exists forwardedPDU,
    Client.calls (snd (Client.onClientInfoPDUReceived
                         (H := Client.referenceExternals) pdu c))
    = [Client.SecurityLayerSendClientInfo forwardedPDU]
    /\ Client.username forwardedPDU = str_of_string "admin"
    /\ Client.password forwardedPDU = str_of_string "hunter2"
    /\ Client.flags forwardedPDU = (0x8 + 0x1)%Z.
Proof.
  intros pdu c.
  destruct (clientInfo_replaced (H := Client.referenceExternals) pdu c
              eq_refl eq_refl eq_refl)
    as (c' & forwardedPDU & Hrun & Hcalls & _ & _ & Hreplaced).
  destruct (Hreplaced _ _ eq_refl eq_refl) as (Hu & Hp & _).
  exists forwardedPDU. rewrite Hrun. cbn [snd].
  split; [exact Hcalls|]. split; [exact Hu|]. split; [exact Hp|].
  rewrite onClientInfoPDUReceived_calls in Hrun by reflexivity.
  injection Hrun as Hc'. subst c'. cbn in Hcalls.
  injection Hcalls as <-. reflexivity.
Defined.

Lemma clientInfo_untouched_witness :
  let pdu := {| Client.codePage := 0; Client.flags := 0x80 + 0x200 + 0x1;
                Client.domain := []; Client.username := str_of_string "alice";
                Client.password := str_of_string "secret";
                Client.alternateShell := []; Client.workingDir := [];
                Client.extraInfo := [] |} in
  let c := Client.withSecurityLayer (Client.newClient None None) in
  exists forwardedPDU,
    Client.calls (snd (Client.onClientInfoPDUReceived
                         (H := Client.referenceExternals) pdu c))
    = [Client.SecurityLayerSendClientInfo forwardedPDU]
    /\ Client.username forwardedPDU = str_of_string "alice"
    /\ Client.password forwardedPDU = str_of_string "secret".
Proof.
  intros pdu c.
  destruct (clientInfo_untouched (H := Client.referenceExternals) pdu c
              eq_refl eq_refl eq_refl)
    as (c' & forwardedPDU & Hrun & Hcalls & _ & _ & Hu & Hp & _).
  exists forwardedPDU. rewrite Hrun. cbn [snd].
  split; [exact Hcalls|]. split; [exact Hu | exact Hp].
Defined.

(** C6 as stated fails when the client asks for a 32 bits-per-pixel
    session: the recorded event still has the bit set. *)
Lemma connectInitial_recorded_with_32BPP :
  let clientData :=
    {| Client.coreData :=
         {| Client.clientName := str_of_string "victim";
            Client.desktopWidth := 1920; Client.desktopHeight := 1080;
            Client.earlyCapabilityFlags := 0x0002 + 0x0001 |};
       Client.securityData := []; Client.networkData := None;
       Client.clusterData := [] |} in
  let c' := snd (Client.onConnectInitial (H := Client.referenceExternals)
                   0 {| Client.conferenceName := [] |} clientData
                   (Client.newClient None None)) in
  exists event,
    Client.recording c' = [event]
    /\ Client.header event = Client.CLIENT_DATA
    /\ Z.land (Client.earlyCapabilityFlags (Client.coreData (Client.pm_payload event)))
              (Client.RNS_UD_CS_WANT_32BPP_SESSION
                 (Externals := Client.referenceExternals))
       <> 0%Z.
Proof.
  intros clientData c'. eexists. split; [reflexivity|].
  split; [reflexivity | discriminate].
Qed.

(** The failing input of C7: a confirm whose negotiation response is a
    failure with code 5 (the server requires NLA). *)
Lemma connectionConfirm_failure_goes_on_witness :
  let pdu := {| Client.cc_payload := [x03; x00; x08; x00; x05; x00; x00; x00] |} in
  exists c',
    Client.onConnectionConfirm (H := Client.referenceExternals) pdu
      (Client.newClient None None) = (Ok tt, c')
    /\ Client.client_log c'
       = [(DEBUG, "Connection Confirm received"%string);
          (ERROR, "Server returned a TYPE_RDP_NEG_FAILURE packet"%string)]
    /\ Client.calls c' = [Client.ServerOnConnectionConfirm pdu].
Proof.
  intros pdu.
  destruct (connectionConfirm_failure_goes_on (H := Client.referenceExternals)
              pdu {| Client.type := 3; Client.tlsSelected := false |}
              (Client.newClient None None) eq_refl eq_refl)
    as (c' & newCalls & Hrun & Hlog & Hcalls & Hnew & _).
  exists c'. split; [exact Hrun|]. split; [exact Hlog|].
  rewrite Hcalls, Hnew. reflexivity.
Defined.

(** ** Streams *)

Lemma write_at_nil (b : bytes) (offset : nat) : BytesIO.write_at b offset [] = b.
Proof. reflexivity. Qed.

Lemma write_at_store (b : bytes) (offset : nat) (data : bytes) :
  data <> [] -> BytesIO.write_at b offset data = BytesIO.store b offset data.
Proof. destruct data; [congruence | reflexivity]. Qed.

Lemma buf_write_seek (data : bytes) (offset : nat) (s : BytesIO.t) :
  BytesIO.buf (BytesIO.write data (BytesIO.seek offset s))
  = BytesIO.write_at (BytesIO.buf s) offset data.
Proof. destruct data; reflexivity. Qed.

Lemma buf_written_stream (ws : list write) (s : BytesIO.t) :
  BytesIO.buf (written_stream ws s) = written ws (BytesIO.buf s).
Proof.
  revert s. induction ws as [|w ws IH]; intros s; [reflexivity|].
  cbn [written_stream written fold_left].
  fold (written_stream ws (BytesIO.write (snd w) (BytesIO.seek (fst w) s))).
  fold (written ws (BytesIO.write_at (BytesIO.buf s) (fst w) (snd w))).
  now rewrite IH, buf_write_seek.
Qed.

Lemma length_store (b : bytes) (p : nat) (data : bytes) :
  length (BytesIO.store b p data) = Nat.max (length b) (p + length data).
Proof.
  unfold BytesIO.store.
  rewrite !length_app, length_take, length_replicate, length_drop. lia.
Qed.

Lemma length_write_at (b : bytes) (offset : nat) (data : bytes) :
  length (BytesIO.write_at b offset data)
  = Nat.max (length b) (reach (offset, data)).
Proof.
  destruct data as [|x data]; [cbn; lia|].
  rewrite write_at_store by discriminate. apply length_store.
Qed.

Lemma byte_at_Some (w : write) (i : nat) (x : byte) :
  byte_at w i = Some x <-> fst w <= i /\ snd w !! (i - fst w) = Some x.
Proof.
  unfold byte_at. destruct (Nat.leb_spec (fst w) i); intuition (try lia; congruence).
Qed.

Lemma byte_at_None (w : write) (i : nat) :
  byte_at w i = None <-> i < fst w \/ fst w + length (snd w) <= i.
Proof.
  unfold byte_at. destruct (Nat.leb_spec (fst w) i).
  - rewrite lookup_ge_None. lia.
  - intuition.
Qed.

Lemma byte_of_store (b : bytes) (p : nat) (data : bytes) (i : nat) :
  byte_of (BytesIO.store b p data) i
  = match byte_at (p, data) i with
    | Some x => x
    | None => byte_of b i
    end.
Proof.
  unfold BytesIO.store, byte_of.
  destruct (byte_at (p, data) i) as [x|] eqn:Hat.
  - apply byte_at_Some in Hat. cbn [fst snd] in Hat. destruct Hat as [Hle Hx].
    assert (i - p < length data) by (eapply lookup_lt_Some; eassumption).
    rewrite app_assoc, lookup_app_r
      by (rewrite length_app, length_take, length_replicate; lia).
    rewrite length_app, length_take, length_replicate.
    replace (i - (p `min` length b + (p - length b))) with (i - p) by lia.
    rewrite lookup_app_l by assumption. now rewrite Hx.
  - apply byte_at_None in Hat. cbn [fst snd] in Hat.
    destruct (Nat.lt_ge_cases i p) as [Hlt|Hge].
    + destruct (Nat.lt_ge_cases i (length b)) as [Hin|Hout].
      * rewrite lookup_app_l by (rewrite length_take; lia).
        now rewrite lookup_take_lt.
      * rewrite lookup_app_r by (rewrite length_take; lia).
        rewrite length_take, lookup_app_l by (rewrite length_replicate; lia).
        rewrite lookup_replicate_2 by lia.
        now rewrite (lookup_ge_None_2 b i).
    + rewrite app_assoc, lookup_app_r
        by (rewrite length_app, length_take, length_replicate; lia).
      rewrite length_app, length_take, length_replicate.
      rewrite lookup_app_r by lia.
      rewrite lookup_drop. f_equal. f_equal. lia.
Qed.

Lemma byte_of_write_at (b : bytes) (offset : nat) (data : bytes) (i : nat) :
  byte_of (BytesIO.write_at b offset data) i
  = match byte_at (offset, data) i with
    | Some x => x
    | None => byte_of b i
    end.
Proof.
  destruct data as [|x data].
  - rewrite write_at_nil. unfold byte_at. cbn [fst snd].
    destruct (Nat.leb offset i); [|reflexivity].
    now rewrite lookup_nil.
  - rewrite write_at_store by discriminate. apply byte_of_store.
Qed.

Lemma bytes_eq (b1 b2 : bytes) :
  length b1 = length b2 -> (forall i, byte_of b1 i = byte_of b2 i) -> b1 = b2.
Proof.
  intros Hlen Hbytes. apply (nth_ext _ _ x00 x00 Hlen).
  intros i _. rewrite !nth_lookup. apply Hbytes.
Qed.

Lemma written_app (ws1 ws2 : list write) (b : bytes) :
  written (ws1 ++ ws2) b = written ws2 (written ws1 b).
Proof. apply fold_left_app. Qed.

Lemma extent_max (ws : list write) (n r : nat) :
  extent ws (Nat.max n r) = Nat.max (extent ws n) r.
Proof.
  induction ws as [|w ws IH]; [reflexivity|].
  cbn [extent fold_right]. fold (extent ws (Nat.max n r)). fold (extent ws n).
  rewrite IH. lia.
Qed.

Lemma length_written (ws : list write) (b : bytes) :
  length (written ws b) = extent ws (length b).
Proof.
  revert b. induction ws as [|[offset data] ws IH]; intros b; [reflexivity|].
  cbn [written fold_left fst snd].
  fold (written ws (BytesIO.write_at b offset data)).
  rewrite IH, length_write_at, extent_max. reflexivity.
Qed.

Lemma extent_Permutation (ws1 ws2 : list write) (n : nat) :
  Permutation ws1 ws2 -> extent ws1 n = extent ws2 n.
Proof.
  induction 1 as [|w ws1 ws2 _ IH|w1 w2 ws|ws1 ws2 ws3 _ IH1 _ IH2].
  - reflexivity.
  - cbn [extent fold_right]. fold (extent ws1 n). fold (extent ws2 n).
    now rewrite IH.
  - cbn [extent fold_right]. lia.
  - now rewrite IH1.
Qed.

(** A position that no write covers keeps its byte. *)
Lemma byte_of_written_uncovered (ws : list write) (b : bytes) (i : nat) :
  (forall w, In w ws -> byte_at w i = None) ->
  byte_of (written ws b) i = byte_of b i.
Proof.
  revert b. induction ws as [|[offset data] ws IH]; intros b Hnone; [reflexivity|].
  cbn [written fold_left fst snd].
  fold (written ws (BytesIO.write_at b offset data)).
  rewrite IH by (intros w Hw; apply Hnone; now right).
  rewrite byte_of_write_at, (Hnone (offset, data)) by now left.
  reflexivity.
Qed.

(** A position that a write covers holds the byte of that write, when the
    writes agree. *)
Lemma byte_of_written_covered (ws : list write) (b : bytes) (w : write)
    (i : nat) (x : byte) :
  consistentP ws -> In w ws -> byte_at w i = Some x ->
  byte_of (written ws b) i = x.
Proof.
  revert b w x. induction ws as [|w0 ws IH] using rev_ind;
    intros b w x Hconsistent Hin Hat; [contradiction|].
  rewrite written_app. cbn [written fold_left].
  rewrite byte_of_write_at.
  replace (fst w0, snd w0) with w0 by now destruct w0.
  destruct (byte_at w0 i) as [y|] eqn:Hat0.
  - symmetry. eapply Hconsistent; [exact Hin | | exact Hat | exact Hat0].
    apply in_or_app. right. now left.
  - apply in_app_or in Hin. destruct Hin as [Hin|[->|[]]]; [|congruence].
    fold (written ws b). eapply IH; [|exact Hin|exact Hat].
    intros w1 w2 H1 H2. apply Hconsistent; apply in_or_app; now left.
Qed.

Lemma agree_agreeP (w1 w2 : write) : agree w1 w2 = true -> agreeP w1 w2.
Proof.
  unfold agree, agreeP. intros Hagree i x y H1 H2.
  apply byte_at_Some in H1. destruct H1 as [Hle Hx].
  rewrite forallb_forall in Hagree.
  assert (Hlt : i - fst w1 < length (snd w1))
    by (eapply lookup_lt_Some; eassumption).
  specialize (Hagree (i - fst w1)).
  rewrite Hx in Hagree.
  replace (fst w1 + (i - fst w1)) with i in Hagree by lia.
  rewrite H2 in Hagree.
  apply Byte.byte_dec_bl, Hagree, in_seq. lia.
Qed.

Lemma consistent_consistentP (ws : list write) :
  consistent ws = true -> consistentP ws.
Proof.
  unfold consistent, consistentP. intros Hall w1 w2 H1 H2.
  rewrite forallb_forall in Hall. specialize (Hall w1 H1).
  rewrite forallb_forall in Hall. now apply agree_agreeP, Hall.
Qed.

Lemma consistentP_Permutation (ws1 ws2 : list write) :
  Permutation ws1 ws2 -> consistentP ws1 -> consistentP ws2.
Proof.
  intros Hperm Hconsistent w1 w2 H1 H2.
  apply Hconsistent; eapply Permutation_in; try eassumption;
    now apply Permutation_sym.
Qed.

(** Writes that agree can be made in any order. *)
Lemma written_Permutation (ws1 ws2 : list write) (b : bytes) :
  Permutation ws1 ws2 -> consistentP ws1 -> written ws1 b = written ws2 b.
Proof.
  intros Hperm Hconsistent. apply bytes_eq.
  - rewrite !length_written. now apply extent_Permutation.
  - intros i.
    destruct (find (fun w => bool_decide (is_Some (byte_at w i))) ws1)
      as [w|] eqn:Hfind.
    + apply find_some in Hfind. destruct Hfind as [Hin Hsome].
      apply bool_decide_eq_true in Hsome. destruct Hsome as [x Hx].
      rewrite (byte_of_written_covered ws1 b w i x) by assumption.
      symmetry. apply (byte_of_written_covered ws2 b w i x).
      * now apply (consistentP_Permutation ws1).
      * now apply (Permutation_in _ Hperm).
      * assumption.
    + assert (Hnone : forall w, In w ws1 -> byte_at w i = None).
      { intros w Hin. apply (find_none _ _ Hfind) in Hin.
        apply bool_decide_eq_false in Hin.
        destruct (byte_at w i); [|reflexivity]. elim Hin. eauto. }
      rewrite !byte_of_written_uncovered; [reflexivity| |exact Hnone].
      intros w Hin. apply Hnone. eapply Permutation_in; [|exact Hin].
      now apply Permutation_sym.
Qed.

(** Writes that tile a stream from its end on append their data. *)
Lemma written_tiles (ws : list write) (b : bytes) :
  tiles (length b) ws = true -> written ws b = b ++ concat (List.map snd ws).
Proof.
  revert b. induction ws as [|[offset data] ws IH]; intros b Htiles.
  - cbn. now rewrite app_nil_r.
  - cbn [tiles] in Htiles. apply andb_prop in Htiles.
    destruct Htiles as [Hoffset Htiles]. apply Nat.eqb_eq in Hoffset. subst offset.
    cbn [written fold_left fst snd List.map concat].
    fold (written ws (BytesIO.write_at b (length b) data)).
    assert (Hwrite : BytesIO.write_at b (length b) data = b ++ data).
    { destruct data as [|x data]; [now rewrite write_at_nil, app_nil_r|].
      rewrite write_at_store by discriminate. unfold BytesIO.store.
      rewrite take_ge, drop_ge, Nat.sub_diag by lia.
      cbn [replicate app]. now rewrite app_nil_r. }
    rewrite Hwrite, IH by (now rewrite length_app).
    now rewrite app_assoc.
Qed.


(** ** The passive file stealer, one PDU at a time *)

Ltac unfold_stealer :=
  unfold onPDUReceived, handleIORequest, handleIOResponse, handleReadResponse,
    handleCreateResponse, handleCloseResponse, writeToDisk, sendPDU, getitem,
    log, update, raise, lift, bind, gets, modify, ret, files, forwarded,
    truthy in *.

Ltac simpl_stealer :=
  cbn [stealer set_stealer set_disk peer set_pduToSend add_log add_sent
       set_completionIdInProgress set_openedFiles set_finalFiles
       completionIdInProgress openedFiles finalFiles pduToSend layer_sent
       mitm_log clientStealer serverStealer disk fst snd result_map] in *.

Ltac done_stealer :=
  eexists; split; [reflexivity|]; simpl_stealer; repeat split.

Section StealerProperties.
Context `{Externals}.

(** A request is registered with the peer and handed on as it is. *)
Lemma onPDUReceived_request (self : Side) (pdu : DeviceIORequestPDU) (m : MITM) :
  loggable self pdu m ->
  exists m',
    onPDUReceived self (IORequest pdu) m = (Ok tt, m')
    /\ files self m' = files self m
    /\ files (peer self) m'
       = (<[req_completionId pdu := pdu]>
            (completionIdInProgress (stealer (peer self) m)),
          openedFiles (stealer (peer self) m),
          finalFiles (stealer (peer self) m))
    /\ disk m' = disk m.
Proof.
  unfold loggable. intros Hlog. unfold_stealer.
  destruct self; simpl_stealer;
    destruct (kind pdu) as [len off|da co path| |]; simpl_stealer.
  1, 5: destruct Hlog as [pb ->]; done_stealer.
  1, 4: destruct (N.eqb_spec (N.land da (N.lor GENERIC_READ FILE_READ_DATA)) 0)
          as [Hz|Hnz]; cbn [negb];
        [done_stealer
        |specialize (Hlog Hnz); destruct (bytesToPath path);
         [done_stealer | discriminate]].
  all: destruct (MajorFunction (majorFunction pdu)); [done_stealer | discriminate].
Qed.

(** The response to a create request with read intent for a file that is
    not a directory opens the file. *)
Lemma onPDUReceived_create_response (self : Side) (pdu : DeviceIOResponsePDU)
    (requestPDU : DeviceIORequestPDU) (desiredAccess createOptions : N)
    (path : bytes) (r : DeviceCreateResponsePDU) (m : MITM) :
  completionIdInProgress (stealer self m) !! completionId pdu = Some requestPDU ->
  kind requestPDU = DeviceCreateRequestPDU desiredAccess createOptions path ->
  N.land desiredAccess (N.lor GENERIC_READ FILE_READ_DATA) <> 0%N ->
  N.land createOptions FILE_NON_DIRECTORY_FILE <> 0%N ->
  parseDeviceCreateResponse pdu = Ok r ->
  is_Ok (decodeUTF16LE path) = true ->
  exists m',
    onPDUReceived self (IOResponse pdu) m = (Ok tt, m')
    /\ files self m'
       = (delete (completionId pdu) (completionIdInProgress (stealer self m)),
          <[cr_fileId r := path]> (openedFiles (stealer self m)),
          finalFiles (stealer self m))
    /\ files (peer self) m' = files (peer self) m
    /\ disk m' = disk m.
Proof.
  intros Hprogress Hkind Hread Hfile Hparse Hdecode. unfold_stealer.
  apply N.eqb_neq in Hread, Hfile.
  destruct self; simpl_stealer;
    rewrite Hprogress, Hkind, Hparse, Hread, Hfile; cbn [negb andb];
    destruct (decodeUTF16LE path); try discriminate;
    destruct (N.eqb (N.shiftr (ioStatus pdu) 30) STATUS_SEVERITY_ERROR);
    done_stealer.
Qed.

(** The response to a read request for an opened file is written into
    the stream of the file at the offset of the request. *)
Lemma onPDUReceived_read_response (self : Side) (pdu : DeviceIOResponsePDU)
    (requestPDU : DeviceIORequestPDU) (length offset : nat)
    (r : DeviceReadResponsePDU) (pathAsBytes : bytes) (fileName : str)
    (m : MITM) :
  completionIdInProgress (stealer self m) !! completionId pdu = Some requestPDU ->
  kind requestPDU = DeviceReadRequestPDU length offset ->
  parseReadResponse pdu = Ok r ->
  openedFiles (stealer self m) !! fileId requestPDU = Some pathAsBytes ->
  bytesToPath pathAsBytes = Ok fileName ->
  exists m',
    onPDUReceived self (IOResponse pdu) m = (Ok tt, m')
    /\ files self m'
       = (delete (completionId pdu) (completionIdInProgress (stealer self m)),
          openedFiles (stealer self m),
          <[fileName :=
              BytesIO.write (readData r)
                (BytesIO.seek offset
                   (default BytesIO.empty
                      (finalFiles (stealer self m) !! fileName)))]>
            (finalFiles (stealer self m)))
    /\ files (peer self) m' = files (peer self) m
    /\ disk m' = disk m.
Proof.
  intros Hprogress Hkind Hparse Hopened Hpath. unfold_stealer.
  destruct self; simpl_stealer;
    rewrite Hprogress, Hkind, Hparse;
    destruct (N.eqb (N.shiftr (ioStatus pdu) 30) STATUS_SEVERITY_ERROR);
    simpl_stealer; rewrite Hopened, Hpath; done_stealer.
Qed.

(** The response to a close request for an opened file writes the stream
    of the file, if there is one, to the disk and closes the file. *)
Lemma onPDUReceived_close_response (self : Side) (pdu : DeviceIOResponsePDU)
    (requestPDU : DeviceIORequestPDU) (pathAsBytes : bytes) (path : str)
    (m : MITM) :
  completionIdInProgress (stealer self m) !! completionId pdu = Some requestPDU ->
  kind requestPDU = DeviceCloseRequestPDU ->
  openedFiles (stealer self m) !! fileId requestPDU = Some pathAsBytes ->
  bytesToPath pathAsBytes = Ok path ->
  exists m',
    onPDUReceived self (IOResponse pdu) m = (Ok tt, m')
    /\ files self m'
       = (delete (completionId pdu) (completionIdInProgress (stealer self m)),
          delete (fileId requestPDU) (openedFiles (stealer self m)),
          finalFiles (stealer self m))
    /\ files (peer self) m' = files (peer self) m
    /\ disk m'
       = match finalFiles (stealer self m) !! path with
         | Some stream => <[goodPath path := BytesIO.getvalue stream]> (disk m)
         | None => disk m
         end.
Proof.
  intros Hprogress Hkind Hopened Hpath.
  destruct (finalFiles (stealer self m) !! path) as [stream|] eqn:Hfinal;
    unfold_stealer;
    destruct self; simpl_stealer;
    rewrite Hprogress, Hkind;
    destruct (N.eqb (N.shiftr (ioStatus pdu) 30) STATUS_SEVERITY_ERROR);
    simpl_stealer; rewrite Hopened, Hpath; simpl_stealer; rewrite Hfinal;
    done_stealer.
Qed.

(** ** Traces *)

Lemma run_app (t1 t2 : list (Side * DeviceRedirectionPDU)) (m : MITM) :
  run (t1 ++ t2) m
  = match run t1 m with
    | (Ok _, m') => run t2 m'
    | (Raise e, m') => (Raise e, m')
    end.
Proof.
  revert m. induction t1 as [|[self pdu] t1 IH]; intros m; [reflexivity|].
  cbn [app run]. unfold bind.
  destruct (onPDUReceived self pdu m) as [[[]|e] m']; [apply IH | reflexivity].
Qed.

Lemma run_cons (self : Side) (pdu : DeviceRedirectionPDU)
    (t : list (Side * DeviceRedirectionPDU)) (m m' : MITM) :
  onPDUReceived self pdu m = (Ok tt, m') ->
  run ((self, pdu) :: t) m = run t m'.
Proof. intros Hstep. cbn [run]. unfold bind. now rewrite Hstep. Qed.

Lemma peer_peer (s : Side) : peer (peer s) = s.
Proof. now destruct s. Qed.

Lemma stored_cons (fileName : str) (w : write) (ws : list write)
    (final : gmap str BytesIO.t) :
  stored fileName (w :: ws) final
  = stored fileName ws
      (<[fileName := BytesIO.write (snd w)
                       (BytesIO.seek (fst w)
                          (default BytesIO.empty (final !! fileName)))]>
         final).
Proof.
  destruct ws as [|w' ws]; [reflexivity|].
  unfold stored. now rewrite lookup_insert_eq, insert_insert_eq.
Qed.

(** The reads of a transfer: every request is registered, every response
    is written into the stream of the file, and nothing else changes. *)
Lemma run_reads (requestSide : Side) (file : N) (pathAsBytes : bytes)
    (fileName : str) (pdus : list DeviceRedirectionPDU) :
  bytesToPath pathAsBytes = Ok fileName ->
  forall (ws : list write) (m : MITM),
    reads file (completionIdInProgress (stealer (peer requestSide) m)) pdus
    = Some ws ->
    (forall id rq,
        completionIdInProgress (stealer (peer requestSide) m) !! id = Some rq ->
        fileId rq = file) ->
    openedFiles (stealer (peer requestSide) m) !! file = Some pathAsBytes ->
    exists m',
      run (List.map (arrival requestSide) pdus) m = (Ok tt, m')
      /\ files requestSide m' = files requestSide m
      /\ openedFiles (stealer (peer requestSide) m')
         = openedFiles (stealer (peer requestSide) m)
      /\ finalFiles (stealer (peer requestSide) m')
         = stored fileName ws (finalFiles (stealer (peer requestSide) m))
      /\ disk m' = disk m.
Proof.
  intros Hpath.
  induction pdus as [|pdu pdus IH]; intros ws m Hreads Hfile Hopened.
  - injection Hreads as <-. exists m. repeat split.
  - cbn [reads] in Hreads. cbn [List.map].
    destruct pdu as [rq|rs| | | |]; try discriminate.
    + destruct (kind rq) as [len off| | |] eqn:Hkind; try discriminate.
      destruct (completionIdInProgress (stealer (peer requestSide) m)
                  !! req_completionId rq) eqn:Hfree; [discriminate|].
      destruct (N.eqb_spec (fileId rq) file) as [Hrq|]; [|discriminate].
      destruct (onPDUReceived_request requestSide rq m)
        as (m1 & Hstep & Hsame & Hpeer & Hdisk).
      { unfold loggable. rewrite Hkind, Hrq, Hopened. eauto. }
      unfold files in Hpeer. injection Hpeer as Hprogress1 Hopened1 Hfinal1.
      destruct (IH ws m1) as (m' & Hrun & Hsame' & Hopened' & Hfinal' & Hdisk').
      { now rewrite Hprogress1. }
      { intros id rq'. rewrite Hprogress1, lookup_insert_Some.
        intros [[_ <-]|[_ Hold]]; [assumption | eauto]. }
      { now rewrite Hopened1. }
      exists m'. cbn [arrival].
      rewrite (run_cons _ _ _ _ _ Hstep).
      split; [exact Hrun|]. split; [congruence|].
      split; [congruence|]. split; congruence.
    + destruct (completionIdInProgress (stealer (peer requestSide) m)
                  !! completionId rs) as [rq|] eqn:Hprogress; [|discriminate].
      destruct (kind rq) as [len off| | |] eqn:Hkind; try discriminate.
      destruct (parseReadResponse rs) as [r|] eqn:Hparse; [|discriminate].
      destruct (reads file
                  (delete (completionId rs)
                     (completionIdInProgress (stealer (peer requestSide) m)))
                  pdus) as [ws'|] eqn:Hrest; [|discriminate].
      injection Hreads as <-.
      destruct (onPDUReceived_read_response (peer requestSide) rs rq len off r
                  pathAsBytes fileName m)
        as (m1 & Hstep & Hself & Hother & Hdisk); try assumption.
      { now rewrite (Hfile _ _ Hprogress). }
      rewrite peer_peer in Hother.
      unfold files in Hself. injection Hself as Hprogress1 Hopened1 Hfinal1.
      destruct (IH ws' m1) as (m' & Hrun & Hsame' & Hopened' & Hfinal' & Hdisk').
      { now rewrite Hprogress1. }
      { intros id rq'. rewrite Hprogress1, lookup_delete_Some.
        intros [_ Hold]. eauto. }
      { now rewrite Hopened1. }
      exists m'. cbn [arrival].
      rewrite (run_cons _ _ _ _ _ Hstep).
      split; [exact Hrun|]. split; [congruence|].
      split; [congruence|]. split; [|congruence].
      now rewrite Hfinal', Hfinal1, stored_cons.
Qed.

Lemma files_newMITM (s : Side) : files s newMITM = (∅, ∅, ∅).
Proof. now destruct s. Qed.

Lemma bytesToPath_decodes (pathAsBytes : bytes) (fileName : str) :
  bytesToPath pathAsBytes = Ok fileName ->
  is_Ok (decodeUTF16LE pathAsBytes) = true.
Proof.
  unfold bytesToPath. now destruct (decodeUTF16LE pathAsBytes).
Qed.

(** A whole transfer, from the state in which the stealers are made: the
    file is closed again at the end, and the disk holds the stream of the
    file if a response to a read has arrived. *)
Lemma run_transfer (requestSide : Side)
    (createRequest : DeviceIORequestPDU) (createResponse : DeviceIOResponsePDU)
    (readPDUs : list DeviceRedirectionPDU)
    (closeRequest : DeviceIORequestPDU) (closeResponse : DeviceIOResponsePDU)
    (file : N) (remotePath : bytes) (fileName : str) (ws : list write) :
  opens createRequest createResponse file remotePath ->
  bytesToPath remotePath = Ok fileName ->
  reads file ∅ readPDUs = Some ws ->
  closes closeRequest closeResponse file ->
  exists m',
    run (transfer requestSide createRequest createResponse readPDUs
           closeRequest closeResponse) newMITM = (Ok tt, m')
    /\ openedFiles (clientStealer m') = ∅
    /\ openedFiles (serverStealer m') = ∅
    /\ disk m'
       = match ws with
         | [] => ∅
         | _ :: _ => {[ goodPath fileName := written ws [] ]}
         end.
Proof.
  intros [(da & co & Hkind & Hread & Hfile) Hid (r & Hparse & Hr)] Hpath
         Hreads [Hckind Hmajor Hcfile Hcid].
  (* the create request *)
  destruct (onPDUReceived_request requestSide createRequest newMITM)
    as (m1 & Hstep1 & Hsame1 & Hpeer1 & Hdisk1).
  { unfold loggable. rewrite Hkind. intros _. now rewrite Hpath. }
  rewrite files_newMITM in Hsame1.
  pose proof (files_newMITM (peer requestSide)) as Hnew.
  unfold files in Hnew. injection Hnew as Hnew1 Hnew2 Hnew3.
  rewrite Hnew1, Hnew2, Hnew3 in Hpeer1. clear Hnew1 Hnew2 Hnew3.
  unfold files in Hpeer1. injection Hpeer1 as Hprogress1 Hopened1 Hfinal1.
  (* its response *)
  destruct (onPDUReceived_create_response (peer requestSide) createResponse
              createRequest da co remotePath r m1)
    as (m2 & Hstep2 & Hself2 & Hother2 & Hdisk2); try assumption.
  { now rewrite Hprogress1, Hid, lookup_insert_eq. }
  { eapply bytesToPath_decodes; eassumption. }
  rewrite peer_peer, Hsame1 in Hother2.
  rewrite Hprogress1, Hopened1, Hfinal1, Hid, delete_insert_eq, delete_empty,
    Hr in Hself2.
  unfold files in Hself2. injection Hself2 as Hprogress2 Hopened2 Hfinal2.
  (* the reads *)
  destruct (run_reads requestSide file remotePath fileName readPDUs Hpath ws m2)
    as (m3 & Hrun3 & Hsame3 & Hopened3 & Hfinal3 & Hdisk3).
  { now rewrite Hprogress2. }
  { intros id rq. now rewrite Hprogress2, lookup_empty. }
  { now rewrite Hopened2, lookup_insert_eq. }
  rewrite Hother2 in Hsame3. rewrite Hopened2 in Hopened3.
  rewrite Hfinal2 in Hfinal3.
  (* the close request *)
  destruct (onPDUReceived_request requestSide closeRequest m3)
    as (m4 & Hstep4 & Hsame4 & Hpeer4 & Hdisk4).
  { unfold loggable. now rewrite Hckind. }
  rewrite Hsame3 in Hsame4. rewrite Hopened3, Hfinal3 in Hpeer4.
  unfold files in Hpeer4. injection Hpeer4 as Hprogress4 Hopened4 Hfinal4.
  (* its response *)
  destruct (onPDUReceived_close_response (peer requestSide) closeResponse
              closeRequest remotePath fileName m4)
    as (m5 & Hstep5 & Hself5 & Hother5 & Hdisk5); try assumption.
  { now rewrite Hprogress4, Hcid, lookup_insert_eq. }
  { now rewrite Hopened4, Hcfile, lookup_insert_eq. }
  rewrite peer_peer, Hsame4 in Hother5.
  rewrite Hopened4, Hcfile, delete_insert_eq, delete_empty in Hself5.
  rewrite Hfinal4, Hdisk4, Hdisk3, Hdisk2, Hdisk1 in Hdisk5.
  unfold files in Hself5, Hother5.
  injection Hself5 as _ Hopened5 _. injection Hother5 as _ Hopened5' _.
  exists m5. split.
  { unfold transfer. cbn [app arrival].
    rewrite (run_cons _ _ _ _ _ Hstep1), (run_cons _ _ _ _ _ Hstep2).
    rewrite run_app, Hrun3. cbn [arrival].
    rewrite (run_cons _ _ _ _ _ Hstep4), (run_cons _ _ _ _ _ Hstep5).
    reflexivity. }
  split; [destruct requestSide; assumption|].
  split; [destruct requestSide; assumption|].
  rewrite Hdisk5. destruct ws as [|w ws]; [reflexivity|].
  unfold stored. rewrite lookup_insert_eq, lookup_empty. cbn [default].
  unfold BytesIO.getvalue. rewrite buf_written_stream. reflexivity.
Qed.


(** C5: two traces with the same create and close PDUs, whose reads lead
    to the same writes in a different order of arrival, leave the same
    files on disk when the writes do not overlap inconsistently. *)
Theorem transfer_order_irrelevant (requestSide : Side)
    (createRequest : DeviceIORequestPDU) (createResponse : DeviceIOResponsePDU)
    (readPDUs1 readPDUs2 : list DeviceRedirectionPDU)
    (closeRequest : DeviceIORequestPDU) (closeResponse : DeviceIOResponsePDU)
    (file : N) (remotePath : bytes) (onDisk : str) (ws1 ws2 : list write) :
  opens createRequest createResponse file remotePath ->
  savedPath remotePath = Ok onDisk ->
  reads file ∅ readPDUs1 = Some ws1 ->
  reads file ∅ readPDUs2 = Some ws2 ->
  Permutation ws1 ws2 ->
  consistent ws1 = true ->
  closes closeRequest closeResponse file ->
  exists m1 m2,
    run (transfer requestSide createRequest createResponse readPDUs1
           closeRequest closeResponse) newMITM = (Ok tt, m1)
    /\ run (transfer requestSide createRequest createResponse readPDUs2
              closeRequest closeResponse) newMITM = (Ok tt, m2)
    /\ disk m1 = disk m2
    /\ (ws1 <> [] -> disk m1 = {[ onDisk := contents ws1 ]}).
Proof.
  intros Hopens Hsaved Hreads1 Hreads2 Hperm Hconsistent Hcloses.
  unfold savedPath in Hsaved.
  destruct (bytesToPath remotePath) as [fileName|] eqn:Hpath; [|discriminate].
  destruct (run_transfer requestSide createRequest createResponse readPDUs1
              closeRequest closeResponse file remotePath fileName ws1)
    as (m1 & Hrun1 & _ & _ & Hdisk1); try assumption.
  destruct (run_transfer requestSide createRequest createResponse readPDUs2
              closeRequest closeResponse file remotePath fileName ws2)
    as (m2 & Hrun2 & _ & _ & Hdisk2); try assumption.
  injection Hsaved as <-.
  exists m1, m2. split; [assumption|]. split; [assumption|]. split.
  - rewrite Hdisk1, Hdisk2.
    rewrite (written_Permutation ws1 ws2 [] Hperm)
      by now apply consistent_consistentP.
    destruct ws1 as [|w1 ws1], ws2 as [|w2 ws2]; try reflexivity.
    + apply Permutation_nil in Hperm. discriminate.
    + apply Permutation_sym, Permutation_nil in Hperm. discriminate.
  - intros Hsome. rewrite Hdisk1. destruct ws1; [congruence | reflexivity].
Qed.

(** ** Responses that match no request, and what is handed on *)

(** C10: a response whose completion identifier is not in progress
    changes none of the dictionaries of the two stealers nor the disk, and
    is handed to the peer as it is. *)
Theorem unknown_completionId_ignored (self : Side)
    (pdu : DeviceIOResponsePDU) (m : MITM) :
  completionIdInProgress (stealer self m) !! completionId pdu = None ->
  exists m',
    onPDUReceived self (IOResponse pdu) m = (Ok tt, m')
    /\ completionIdInProgress (stealer self m')
       = completionIdInProgress (stealer self m)
    /\ openedFiles (stealer self m') = openedFiles (stealer self m)
    /\ finalFiles (stealer self m') = finalFiles (stealer self m)
    /\ files (peer self) m' = files (peer self) m
    /\ disk m' = disk m
    /\ layer_sent (stealer (peer self) m')
       = layer_sent (stealer (peer self) m) ++ [Received (IOResponse pdu)].
Proof.
  intros Hnone. unfold_stealer.
  destruct self; simpl_stealer; rewrite Hnone; done_stealer.
Qed.

Lemma handleDeviceListAnnounceRequest_logs (self : Side)
    (deviceList : list DeviceAnnounce) (m : MITM) :
  exists m',
    handleDeviceListAnnounceRequest self deviceList m = (Ok tt, m')
    /\ pduToSend (stealer self m') = pduToSend (stealer self m)
    /\ layer_sent (stealer self m') = layer_sent (stealer self m)
    /\ layer_sent (stealer (peer self) m')
       = layer_sent (stealer (peer self) m).
Proof.
  revert m. induction deviceList as [|device deviceList IH]; intros m.
  - exists m. repeat split.
  - cbn [handleDeviceListAnnounceRequest]. unfold bind, log, update, modify.
    destruct (IH (set_stealer self
                    (add_log INFO "%(deviceName)s mapped with ID %(deviceId)d: %(deviceData)s"
                       (stealer self m)) m))
      as (m' & Hrun & Hsend & Hself & Hpeer).
    exists m'. split; [exact Hrun|].
    rewrite Hsend, Hself, Hpeer. destruct self; repeat split.
Qed.

Ltac cases_stealer :=
  repeat (simpl_stealer;
          match goal with
          | H : (_, _) = (_, _) |- _ => inversion H; subst; clear H
          | H : Some _ = Some _ |- _ => inversion H; subst; clear H
          | H : context [match ?x with _ => _ end] |- _ => destruct x eqn:?
          | |- context [match ?x with _ => _ end] => destruct x eqn:?
          end);
  simpl_stealer; try discriminate.

(** C4, amended: when [onPDUReceived] returns, it has handed exactly one
    PDU to the layer of the peer.  That PDU is the received one, except
    for a response to a read request or to a create request in progress:
    there it is the PDU that the parser has made of the response. *)
Theorem onPDUReceived_forwards (self : Side) (pdu : DeviceRedirectionPDU)
    (m m' : MITM) :
  onPDUReceived self pdu m = (Ok tt, m') ->
  exists out,
    forwarded self pdu m = Ok out
    /\ layer_sent (stealer (peer self) m')
       = layer_sent (stealer (peer self) m) ++ [out]
    /\ layer_sent (stealer self m') = layer_sent (stealer self m).
Proof.
  intros Hrun. destruct pdu as [r|r|deviceList| | |packetId].
  - unfold_stealer. destruct self; cases_stealer;
      (eexists; split; [reflexivity|]; split; reflexivity).
  - unfold_stealer. destruct self; cases_stealer;
      (eexists; split; [reflexivity|]; split; reflexivity).
  - unfold onPDUReceived, sendPDU, bind, update, modify, gets in Hrun.
    destruct (handleDeviceListAnnounceRequest_logs self deviceList
                (set_stealer self
                   (set_pduToSend
                      (Some (Received (DeviceListAnnounceRequest deviceList)))
                      (stealer self m)) m))
      as (m1 & Hlogs & Hsend & Hself & Hpeer).
    rewrite Hlogs, Hsend in Hrun.
    exists (Received (DeviceListAnnounceRequest deviceList)).
    split; [reflexivity|].
    destruct self; cases_stealer; rewrite ?Hself, ?Hpeer; split; reflexivity.
  - unfold_stealer. destruct self; cases_stealer;
      (eexists; split; [reflexivity|]; split; reflexivity).
  - unfold_stealer. destruct self; cases_stealer;
      (eexists; split; [reflexivity|]; split; reflexivity).
  - unfold_stealer. destruct self; cases_stealer;
      (eexists; split; [reflexivity|]; split; reflexivity).
Qed.

(** A read request for a file that the peer has not opened raises a
    [KeyError]; the request is registered all the same and nothing is
    handed on. *)
Lemma read_request_unopened (self : Side) (pdu : DeviceIORequestPDU)
    (length offset : nat) (m : MITM) :
  kind pdu = DeviceReadRequestPDU length offset ->
  openedFiles (stealer (peer self) m) !! fileId pdu = None ->
  exists m',
    onPDUReceived self (IORequest pdu) m = (Raise KeyError, m')
    /\ completionIdInProgress (stealer (peer self) m')
       = <[req_completionId pdu := pdu]>
           (completionIdInProgress (stealer (peer self) m))
    /\ layer_sent (stealer (peer self) m')
       = layer_sent (stealer (peer self) m).
Proof.
  intros Hkind Hnone. unfold_stealer.
  destruct self; simpl_stealer; rewrite Hkind; simpl_stealer;
    rewrite Hnone; eexists; (split; [reflexivity|]); split; reflexivity.
Qed.

(** The response to a read request for a file that is not opened raises
    a [KeyError]; nothing is handed on. *)
Lemma read_response_unopened (self : Side) (pdu : DeviceIOResponsePDU)
    (requestPDU : DeviceIORequestPDU) (length offset : nat)
    (r : DeviceReadResponsePDU) (m : MITM) :
  completionIdInProgress (stealer self m) !! completionId pdu = Some requestPDU ->
  kind requestPDU = DeviceReadRequestPDU length offset ->
  parseReadResponse pdu = Ok r ->
  openedFiles (stealer self m) !! fileId requestPDU = None ->
  exists m',
    onPDUReceived self (IOResponse pdu) m = (Raise KeyError, m')
    /\ layer_sent (stealer (peer self) m')
       = layer_sent (stealer (peer self) m).
Proof.
  intros Hprogress Hkind Hparse Hnone. unfold_stealer.
  destruct self; simpl_stealer; rewrite Hprogress, Hkind, Hparse;
    destruct (N.eqb (N.shiftr (ioStatus pdu) 30) STATUS_SEVERITY_ERROR);
    simpl_stealer; rewrite Hnone; eexists; (split; [reflexivity|]);
    reflexivity.
Qed.

End StealerProperties.

(** ** The properties on the concrete transfer *)

Lemma Scenario_opens :
  opens (H := Reference.externals) Scenario.createRequest Scenario.createResponse
    7 Scenario.remotePath.
Proof.
  split.
  - exists 0x80000000%N, 0x40%N. repeat split; discriminate.
  - reflexivity.
  - eexists. split; reflexivity.
Defined.

Lemma Scenario_closes :
  closes (H := Reference.externals) Scenario.closeRequest Scenario.closeResponse 7.
Proof. split; reflexivity. Defined.

(** The transfer of a file of 5000 bytes in three reads. *)
Example transfer_of_5000_bytes :
  exists m',
    run (H := Reference.externals)
      (transfer ClientSide Scenario.createRequest Scenario.createResponse
         Scenario.largeReads Scenario.closeRequest Scenario.closeResponse)
      newMITM = (Ok tt, m')
    /\ disk m'
       = {[ Scenario.onDisk :=
              replicate 2048 "a"%byte ++ replicate 2048 "b"%byte
                ++ replicate 904 "c"%byte ]}
    /\ openedFiles (clientStealer m') = ∅
    /\ openedFiles (serverStealer m') = ∅.
Proof.
  eexists. split; [vm_compute; reflexivity|].
  repeat split; vm_compute; reflexivity.
Qed.

Lemma transfer_order_irrelevant_witness :
  exists m1 m2,
    run (H := Reference.externals)
      (transfer ClientSide Scenario.createRequest Scenario.createResponse
         Scenario.overlappingReads Scenario.closeRequest Scenario.closeResponse)
      newMITM = (Ok tt, m1)
    /\ run (H := Reference.externals)
         (transfer ClientSide Scenario.createRequest Scenario.createResponse
            Scenario.overlappingReadsReordered
            Scenario.closeRequest Scenario.closeResponse)
         newMITM = (Ok tt, m2)
    /\ disk m1 = disk m2
    /\ disk m1 = {[ Scenario.onDisk := Scenario.data "hello world" ]}.
Proof.
  destruct (transfer_order_irrelevant (H := Reference.externals) ClientSide
              Scenario.createRequest Scenario.createResponse
              Scenario.overlappingReads Scenario.overlappingReadsReordered
              Scenario.closeRequest Scenario.closeResponse
              7 Scenario.remotePath Scenario.onDisk
              [(0, Scenario.data "hello "); (4, Scenario.data "o wor");
               (8, Scenario.data "rld")]
              [(8, Scenario.data "rld"); (0, Scenario.data "hello ");
               (4, Scenario.data "o wor")])
    as (m1 & m2 & Hrun1 & Hrun2 & Hsame & Hdisk).
  - exact Scenario_opens.
  - reflexivity.
  - reflexivity.
  - reflexivity.
  - apply (Permutation_app_comm
             [(0, Scenario.data "hello "); (4, Scenario.data "o wor")]
             [(8, Scenario.data "rld")]).
  - reflexivity.
  - exact Scenario_closes.
  - exists m1, m2. repeat split; try assumption.
    apply Hdisk. discriminate.
Defined.

Lemma unknown_completionId_ignored_witness :
  let pdu := Scenario.readResponse 9 x03 "rld" in
  exists m',
    onPDUReceived (H := Reference.externals) ServerSide (IOResponse pdu) newMITM
    = (Ok tt, m')
    /\ files ServerSide m' = (∅, ∅, ∅)
    /\ files ClientSide m' = (∅, ∅, ∅)
    /\ disk m' = ∅
    /\ layer_sent (clientStealer m') = [Received (IOResponse pdu)].
Proof.
  intros pdu.
  destruct (unknown_completionId_ignored (H := Reference.externals)
              ServerSide pdu newMITM eq_refl)
    as (m' & Hrun & Hprogress & Hopened & Hfinal & Hpeer & Hdisk & Hsent).
  exists m'. unfold files. cbn [stealer] in *.
  rewrite Hprogress, Hopened, Hfinal.
  repeat split; assumption.
Defined.

(** C4 as stated fails on the response to a read request in progress: what
    reaches the layer of the peer is the read response that the parser has
    built, not the received PDU. *)
Lemma read_response_not_forwarded_unchanged :
  let pdu := IOResponse (Scenario.readResponse 2 x04 "hell") in
  exists m m',
    run (H := Reference.externals)
      [(ClientSide, IORequest Scenario.createRequest);
       (ServerSide, IOResponse Scenario.createResponse);
       (ClientSide, IORequest (Scenario.readRequest 2 0 4))]
      newMITM = (Ok tt, m)
    /\ onPDUReceived (H := Reference.externals) ServerSide pdu m = (Ok tt, m')
    /\ last (layer_sent (clientStealer m'))
       = Some (ReadResponse {| rr_deviceId := 1; rr_completionId := 2;
                               rr_ioStatus := 0;
                               readData := Scenario.data "hell" |})
    /\ last (layer_sent (clientStealer m')) <> Some (Received pdu).
Proof.
  intros pdu. eexists _, _.
  split; [vm_compute; reflexivity|]. split; [vm_compute; reflexivity|].
  split; [vm_compute; reflexivity | vm_compute; discriminate].
Qed.

Lemma onPDUReceived_forwards_witness :
  exists m m',
    run (H := Reference.externals)
      [(ClientSide, IORequest Scenario.createRequest);
       (ServerSide, IOResponse Scenario.createResponse);
       (ClientSide, IORequest (Scenario.readRequest 2 0 4))]
      newMITM = (Ok tt, m)
    /\ onPDUReceived (H := Reference.externals) ServerSide
         (IOResponse (Scenario.readResponse 2 x04 "hell")) m = (Ok tt, m')
    /\ exists out,
         forwarded (H := Reference.externals) ServerSide
           (IOResponse (Scenario.readResponse 2 x04 "hell")) m = Ok out
         /\ layer_sent (clientStealer m') = layer_sent (clientStealer m) ++ [out].
Proof.
  eexists _, _.
  split; [vm_compute; reflexivity|].
  match goal with
  | |- ?step /\ _ => assert (Hstep : step) by (vm_compute; reflexivity)
  end.
  split; [exact Hstep|].
  destruct (onPDUReceived_forwards (H := Reference.externals) _ _ _ _ Hstep)
    as (out & Hout & Hsent & _).
  exists out. split; [exact Hout | exact Hsent].
Defined.

(** C3 on a failing input.  A file is created with read access and with
    options that do not include [FILE_NON_DIRECTORY_FILE]: the response
    opens no file in [openedFiles].  The read request for the returned
    [fileId] then raises a [KeyError] that leaves [onPDUReceived], and so
    does the response to it, if it still arrives; neither is handed on. *)
Theorem read_of_unopened_file_raises :
  let request := Scenario.readRequest 2 0 4 in
  let response := Scenario.readResponse 2 x04 "hell" in
  exists m0 m1 m2,
    run (H := Reference.externals)
      [(ClientSide, IORequest Scenario.createRequestAnyKind);
       (ServerSide, IOResponse Scenario.createResponse)]
      newMITM = (Ok tt, m0)
    /\ openedFiles (serverStealer m0) = ∅
    /\ onPDUReceived (H := Reference.externals) ClientSide (IORequest request)
         m0 = (Raise KeyError, m1)
    /\ onPDUReceived (H := Reference.externals) ServerSide (IOResponse response)
         m1 = (Raise KeyError, m2)
    /\ layer_sent (serverStealer m2)
       = [Received (IORequest Scenario.createRequestAnyKind)]
    /\ layer_sent (clientStealer m2)
       = [CreateResponse {| cr_deviceId := 1; cr_completionId := 1;
                            cr_ioStatus := 0; cr_fileId := 7;
                            information := [x01] |}].
Proof.
  eexists _, _, _.
  split; [vm_compute; reflexivity|]. split; [vm_compute; reflexivity|].
  split; [vm_compute; reflexivity|]. split; [vm_compute; reflexivity|].
  split; vm_compute; reflexivity.
Qed.

(** ** A transfer whose reads tile the file *)

(** Every write of a tiling begins at or after the start of the tiling. *)
Lemma tiles_from (start : nat) (ws : list write) (w : write) :
  tiles start ws = true -> In w ws -> start <= fst w.
Proof.
  revert start. induction ws as [|[offset data] ws IH]; intros start Htiles Hin.
  - destruct Hin.
  - cbn [tiles] in Htiles. apply andb_prop in Htiles.
    destruct Htiles as [Hoffset Htiles]. apply Nat.eqb_eq in Hoffset.
    destruct Hin as [<- | Hin]; [cbn; lia|].
    specialize (IH _ Htiles Hin). lia.
Qed.

(** The writes of a tiling cover disjoint ranges, so that any two of them
    agree. *)
Lemma tiles_consistentP (start : nat) (ws : list write) :
  tiles start ws = true -> consistentP ws.
Proof.
  revert start. induction ws as [|[offset data] ws IH]; intros start Htiles.
  - intros w1 w2 [].
  - cbn [tiles] in Htiles. apply andb_prop in Htiles.
    destruct Htiles as [Hoffset Htiles]. apply Nat.eqb_eq in Hoffset.
    intros w1 w2 [<- | H1] [<- | H2] i x y Hx Hy.
    + congruence.
    + apply byte_at_Some in Hx, Hy. cbn [fst snd] in Hx.
      destruct Hx as [_ Hx], Hy as [Hy _].
      apply lookup_lt_Some in Hx.
      pose proof (tiles_from _ _ _ Htiles H2). lia.
    + apply byte_at_Some in Hx, Hy. cbn [fst snd] in Hy.
      destruct Hx as [Hx _], Hy as [_ Hy].
      apply lookup_lt_Some in Hy.
      pose proof (tiles_from _ _ _ Htiles H1). lia.
    + exact (IH _ Htiles w1 w2 H1 H2 i x y Hx Hy).
Qed.

(** Writes that arrive in any order and tile the file, taken in the order
    of their offsets, leave the concatenated data in an empty stream. *)
Lemma contents_tiling (ws tiling : list write) :
  Permutation ws tiling ->
  tiles 0 tiling = true ->
  contents ws = concat (List.map snd tiling).
Proof.
  intros Hperm Htiles. unfold contents.
  rewrite (written_Permutation ws tiling [] Hperm).
  - now rewrite (written_tiles tiling []).
  - apply (consistentP_Permutation tiling ws); [now apply Permutation_sym|].
    now apply (tiles_consistentP 0).
Qed.

Section TransferInAnyState.
Context `{Externals}.

(** The reads of a transfer in a state that may have other requests in
    progress: every response is written into the stream of the file, and
    neither the opened files nor the disk change. *)
Lemma run_reads_among (requestSide : Side) (file : N) (pathAsBytes : bytes)
    (fileName : str) (pdus : list DeviceRedirectionPDU) :
  bytesToPath pathAsBytes = Ok fileName ->
  forall (ws : list write) (pending : gmap N DeviceIORequestPDU) (m : MITM),
    reads file pending pdus = Some ws ->
    (forall id rq,
        pending !! id = Some rq ->
        completionIdInProgress (stealer (peer requestSide) m) !! id = Some rq
        /\ fileId rq = file) ->
    openedFiles (stealer (peer requestSide) m) !! file = Some pathAsBytes ->
    exists m',
      run (List.map (arrival requestSide) pdus) m = (Ok tt, m')
      /\ openedFiles (stealer requestSide m')
         = openedFiles (stealer requestSide m)
      /\ openedFiles (stealer (peer requestSide) m')
         = openedFiles (stealer (peer requestSide) m)
      /\ finalFiles (stealer (peer requestSide) m')
         = stored fileName ws (finalFiles (stealer (peer requestSide) m))
      /\ disk m' = disk m.
Proof.
  intros Hpath.
  induction pdus as [|pdu pdus IH]; intros ws pending m Hreads Hamong Hopened.
  - injection Hreads as <-. exists m. repeat split.
  - cbn [reads] in Hreads. cbn [List.map].
    destruct pdu as [rq|rs| | | |]; try discriminate.
    + destruct (kind rq) as [len off| | |] eqn:Hkind; try discriminate.
      destruct (pending !! req_completionId rq) eqn:Hfree; [discriminate|].
      destruct (N.eqb_spec (fileId rq) file) as [Hrq|]; [|discriminate].
      destruct (onPDUReceived_request requestSide rq m)
        as (m1 & Hstep & Hsame & Hpeer & Hdisk).
      { unfold loggable. rewrite Hkind, Hrq, Hopened. eauto. }
      unfold files in Hsame, Hpeer.
      injection Hsame as _ Hsame _.
      injection Hpeer as Hprogress1 Hopened1 Hfinal1.
      destruct (IH ws (<[req_completionId rq := rq]> pending) m1)
        as (m' & Hrun & Hsame' & Hopened' & Hfinal' & Hdisk').
      { exact Hreads. }
      { intros id rq'. rewrite Hprogress1, !lookup_insert_Some.
        intros [[<- <-]|[Hne Hold]]; [split; [now left | assumption]|].
        destruct (Hamong _ _ Hold) as [Hin Hfile]. split; [now right | exact Hfile]. }
      { now rewrite Hopened1. }
      exists m'. cbn [arrival].
      rewrite (run_cons _ _ _ _ _ Hstep).
      split; [exact Hrun|]. split; [congruence|].
      split; [congruence|]. split; congruence.
    + destruct (pending !! completionId rs) as [rq|] eqn:Hpending;
        [|discriminate].
      destruct (kind rq) as [len off| | |] eqn:Hkind; try discriminate.
      destruct (parseReadResponse rs) as [r|] eqn:Hparse; [|discriminate].
      destruct (reads file (delete (completionId rs) pending) pdus)
        as [ws'|] eqn:Hrest; [|discriminate].
      injection Hreads as <-.
      destruct (Hamong _ _ Hpending) as [Hprogress Hfile].
      destruct (onPDUReceived_read_response (peer requestSide) rs rq len off r
                  pathAsBytes fileName m)
        as (m1 & Hstep & Hself & Hother & Hdisk); try assumption.
      { now rewrite Hfile. }
      rewrite peer_peer in Hother.
      unfold files in Hself, Hother.
      injection Hself as Hprogress1 Hopened1 Hfinal1.
      injection Hother as _ Hother _.
      destruct (IH ws' (delete (completionId rs) pending) m1)
        as (m' & Hrun & Hsame' & Hopened' & Hfinal' & Hdisk').
      { exact Hrest. }
      { intros id rq'. rewrite Hprogress1, !lookup_delete_Some.
        intros [Hne Hold]. destruct (Hamong _ _ Hold) as [Hin Hfile'].
        split; [split; assumption | exact Hfile']. }
      { now rewrite Hopened1. }
      exists m'. cbn [arrival].
      rewrite (run_cons _ _ _ _ _ Hstep).
      split; [exact Hrun|]. split; [congruence|].
      split; [congruence|]. split; [|congruence].
      now rewrite Hfinal', Hfinal1, stored_cons.
Qed.

(** A whole transfer, whatever the state it starts in. *)
Lemma run_transfer_any (requestSide : Side)
    (createRequest : DeviceIORequestPDU) (createResponse : DeviceIOResponsePDU)
    (readPDUs : list DeviceRedirectionPDU)
    (closeRequest : DeviceIORequestPDU) (closeResponse : DeviceIOResponsePDU)
    (file : N) (remotePath : bytes) (fileName : str) (ws : list write)
    (m : MITM) :
  opens createRequest createResponse file remotePath ->
  bytesToPath remotePath = Ok fileName ->
  reads file ∅ readPDUs = Some ws ->
  closes closeRequest closeResponse file ->
  exists m',
    run (transfer requestSide createRequest createResponse readPDUs
           closeRequest closeResponse) m = (Ok tt, m')
    /\ openedFiles (stealer requestSide m')
       = openedFiles (stealer requestSide m)
    /\ openedFiles (stealer (peer requestSide) m')
       = delete file (openedFiles (stealer (peer requestSide) m))
    /\ finalFiles (stealer (peer requestSide) m')
       = stored fileName ws (finalFiles (stealer (peer requestSide) m))
    /\ disk m'
       = match stored fileName ws (finalFiles (stealer (peer requestSide) m))
               !! fileName with
         | Some stream => <[goodPath fileName := BytesIO.getvalue stream]> (disk m)
         | None => disk m
         end.
Proof.
  intros [(da & co & Hkind & Hread & Hfile) Hid (r & Hparse & Hr)] Hpath
         Hreads [Hckind Hmajor Hcfile Hcid].
  (* the create request *)
  destruct (onPDUReceived_request requestSide createRequest m)
    as (m1 & Hstep1 & Hsame1 & Hpeer1 & Hdisk1).
  { unfold loggable. rewrite Hkind. intros _. now rewrite Hpath. }
  unfold files in Hsame1, Hpeer1.
  injection Hsame1 as _ Hsame1 _.
  injection Hpeer1 as Hprogress1 Hopened1 Hfinal1.
  (* its response *)
  destruct (onPDUReceived_create_response (peer requestSide) createResponse
              createRequest da co remotePath r m1)
    as (m2 & Hstep2 & Hself2 & Hother2 & Hdisk2); try assumption.
  { now rewrite Hprogress1, Hid, lookup_insert_eq. }
  { eapply bytesToPath_decodes; eassumption. }
  rewrite peer_peer in Hother2.
  unfold files in Hself2, Hother2.
  injection Hself2 as _ Hopened2 Hfinal2.
  injection Hother2 as _ Hother2 _.
  rewrite Hr in Hopened2.
  (* the reads *)
  destruct (run_reads_among requestSide file remotePath fileName readPDUs
              Hpath ws ∅ m2)
    as (m3 & Hrun3 & Hsame3 & Hopened3 & Hfinal3 & Hdisk3).
  { exact Hreads. }
  { intros id rq. now rewrite lookup_empty. }
  { now rewrite Hopened2, lookup_insert_eq. }
  (* the close request *)
  destruct (onPDUReceived_request requestSide closeRequest m3)
    as (m4 & Hstep4 & Hsame4 & Hpeer4 & Hdisk4).
  { unfold loggable. now rewrite Hckind. }
  unfold files in Hsame4, Hpeer4.
  injection Hsame4 as _ Hsame4 _.
  injection Hpeer4 as Hprogress4 Hopened4 Hfinal4.
  (* its response *)
  destruct (onPDUReceived_close_response (peer requestSide) closeResponse
              closeRequest remotePath fileName m4)
    as (m5 & Hstep5 & Hself5 & Hother5 & Hdisk5); try assumption.
  { now rewrite Hprogress4, Hcid, lookup_insert_eq. }
  { now rewrite Hopened4, Hopened3, Hopened2, Hcfile, lookup_insert_eq. }
  rewrite peer_peer in Hother5.
  unfold files in Hself5, Hother5.
  injection Hself5 as _ Hopened5 Hfinal5.
  injection Hother5 as _ Hother5 _.
  exists m5. split.
  { unfold transfer. cbn [app arrival].
    rewrite (run_cons _ _ _ _ _ Hstep1), (run_cons _ _ _ _ _ Hstep2).
    rewrite run_app, Hrun3. cbn [arrival].
    rewrite (run_cons _ _ _ _ _ Hstep4), (run_cons _ _ _ _ _ Hstep5).
    reflexivity. }
  split; [congruence|].
  split.
  { rewrite Hopened5, Hopened4, Hopened3, Hopened2, Hopened1, Hcfile.
    apply delete_insert_eq. }
  split.
  { now rewrite Hfinal5, Hfinal4, Hfinal3, Hfinal2, Hfinal1. }
  rewrite Hdisk5, Hfinal4, Hfinal3, Hfinal2, Hfinal1.
  now rewrite Hdisk4, Hdisk3, Hdisk2, Hdisk1.
Qed.

(** C1: a trace made of a create request with read intent for a file that
    is not a directory and of its response, of read requests for the
    returned [fileId] and of their responses, and of a close request for
    that [fileId] and of its response.  The offsets of the requests and
    the data of the responses tile the file: the writes, put in the order
    of their offsets, begin at 0 and each where the one before it ends.
    The responses may arrive in any order, and a request may be sent
    before earlier ones are answered.  If at least one response to a read
    arrives, then the stealers, in any state in which the one that gets
    the responses has no stream yet for the file, and so the stealers
    just made, write the data, concatenated in the order of the offsets,
    to the sanitized path under [./saved_files/] and take the file out of
    [openedFiles] again, which leaves [openedFiles] empty on both sides
    when it was empty before. *)
Theorem transfer_saves_file (requestSide : Side)
    (createRequest : DeviceIORequestPDU) (createResponse : DeviceIOResponsePDU)
    (readPDUs : list DeviceRedirectionPDU)
    (closeRequest : DeviceIORequestPDU) (closeResponse : DeviceIOResponsePDU)
    (file : N) (remotePath : bytes) (onDisk : str)
    (ws tiling : list write) (m : MITM) :
  opens createRequest createResponse file remotePath ->
  savedPath remotePath = Ok onDisk ->
  reads file ∅ readPDUs = Some ws ->
  ws <> [] ->
  Permutation ws tiling ->
  tiles 0 tiling = true ->
  closes closeRequest closeResponse file ->
  (forall fileName,
      bytesToPath remotePath = Ok fileName ->
      finalFiles (stealer (peer requestSide) m) !! fileName = None) ->
  exists m',
    run (transfer requestSide createRequest createResponse readPDUs
           closeRequest closeResponse) m = (Ok tt, m')
    /\ disk m' = <[onDisk := concat (List.map snd tiling)]> (disk m)
    /\ openedFiles (stealer (peer requestSide) m')
       = delete file (openedFiles (stealer (peer requestSide) m))
    /\ openedFiles (stealer requestSide m')
       = openedFiles (stealer requestSide m)
    /\ (openedFiles (clientStealer m) = ∅ ->
        openedFiles (serverStealer m) = ∅ ->
        openedFiles (clientStealer m') = ∅
        /\ openedFiles (serverStealer m') = ∅).
Proof.
  intros Hopens Hsaved Hreads Hsome Hperm Htiles Hcloses Hfresh.
  unfold savedPath in Hsaved.
  destruct (bytesToPath remotePath) as [fileName|] eqn:Hpath; [|discriminate].
  injection Hsaved as <-.
  specialize (Hfresh fileName eq_refl).
  destruct (run_transfer_any requestSide createRequest createResponse readPDUs
              closeRequest closeResponse file remotePath fileName ws m)
    as (m' & Hrun & Hself & Hpeer & _ & Hdisk); try assumption.
  exists m'. split; [exact Hrun|]. split.
  { rewrite Hdisk. destruct ws as [|w ws]; [congruence|].
    unfold stored. rewrite lookup_insert_eq, Hfresh. cbn [default].
    unfold BytesIO.getvalue. rewrite buf_written_stream.
    change (written (w :: ws) (BytesIO.buf BytesIO.empty))
      with (contents (w :: ws)).
    now rewrite (contents_tiling _ tiling Hperm Htiles). }
  split; [exact Hpeer|]. split; [exact Hself|].
  intros Hclient Hserver.
  destruct requestSide; cbn [stealer peer] in Hself, Hpeer;
    rewrite Hself, Hpeer, Hclient, Hserver, delete_empty; now split.
Qed.

End TransferInAnyState.

(** The transfer of [hello world] in three reads that are answered out of
    order. *)
Lemma transfer_saves_file_witness :
  exists m',
    run (H := Reference.externals)
      (transfer ClientSide Scenario.createRequest Scenario.createResponse
         Cases.tilingReadsReordered Scenario.closeRequest Scenario.closeResponse)
      newMITM = (Ok tt, m')
    /\ disk m' = {[ Scenario.onDisk := Scenario.data "hello world" ]}
    /\ openedFiles (clientStealer m') = ∅
    /\ openedFiles (serverStealer m') = ∅.
Proof.
  destruct (transfer_saves_file (H := Reference.externals) ClientSide
              Scenario.createRequest Scenario.createResponse
              Cases.tilingReadsReordered
              Scenario.closeRequest Scenario.closeResponse
              7 Scenario.remotePath Scenario.onDisk
              [(4, Scenario.data "o wo"); (8, Scenario.data "rld");
               (0, Scenario.data "hell")]
              [(0, Scenario.data "hell"); (4, Scenario.data "o wo");
               (8, Scenario.data "rld")]
              newMITM)
    as (m' & Hrun & Hdisk & _ & _ & Hempty).
  - exact Scenario_opens.
  - reflexivity.
  - reflexivity.
  - discriminate.
  - apply Permutation_sym.
    apply (Permutation_cons_append
             [(4, Scenario.data "o wo"); (8, Scenario.data "rld")]
             (0, Scenario.data "hell")).
  - reflexivity.
  - exact Scenario_closes.
  - intros fileName _. apply lookup_empty.
  - exists m'. split; [exact Hrun|]. split; [exact Hdisk|].
    apply Hempty; reflexivity.
Defined.

(** * Further properties of the stealer *)

Ltac split_stealer :=
  repeat (simpl_stealer;
          match goal with
          | H : (_, _) = (_, _) |- _ => inversion H; subst; clear H
          | H : Some _ = Some _ |- _ => inversion H; subst; clear H
          | H : context [match ?x with _ => _ end] |- _ => destruct x eqn:?
          | |- context [match ?x with _ => _ end] => destruct x eqn:?
          end);
  simpl_stealer; try discriminate.



Section StealerExtras.
Context `{Externals}.

(** X1: The response to a create request without read intent, or without the
    option that says that the file is not a directory, opens no file: the
    request is taken out of the requests in progress, the parsed response
    is handed on, and nothing else changes. *)
Theorem create_response_not_for_reading (self : Side)
    (pdu : DeviceIOResponsePDU) (requestPDU : DeviceIORequestPDU)
    (desiredAccess createOptions : N) (path : bytes)
    (r : DeviceCreateResponsePDU) (m : MITM) :
  completionIdInProgress (stealer self m) !! completionId pdu = Some requestPDU ->
  kind requestPDU = DeviceCreateRequestPDU desiredAccess createOptions path ->
  N.land desiredAccess (N.lor GENERIC_READ FILE_READ_DATA) = 0%N
  \/ N.land createOptions FILE_NON_DIRECTORY_FILE = 0%N ->
  parseDeviceCreateResponse pdu = Ok r ->
  exists m',
    onPDUReceived self (IOResponse pdu) m = (Ok tt, m')
    /\ files self m'
       = (delete (completionId pdu) (completionIdInProgress (stealer self m)),
          openedFiles (stealer self m),
          finalFiles (stealer self m))
    /\ files (peer self) m' = files (peer self) m
    /\ disk m' = disk m
    /\ layer_sent (stealer (peer self) m')
       = layer_sent (stealer (peer self) m) ++ [CreateResponse r].
Proof.
  intros Hprogress Hkind Hnot Hparse.
  assert (Hcond : truthy (N.land desiredAccess (N.lor GENERIC_READ FILE_READ_DATA))
                  && negb (N.eqb (N.land createOptions FILE_NON_DIRECTORY_FILE) 0)
                  = false).
  { unfold truthy. destruct Hnot as [-> | ->]; [reflexivity|].
    now rewrite andb_false_r. }
  unfold_stealer. fold (truthy (N.land desiredAccess (N.lor GENERIC_READ FILE_READ_DATA))).
  destruct self; simpl_stealer;
    rewrite Hprogress, Hkind, Hparse;
    destruct (N.eqb (N.shiftr (ioStatus pdu) 30) STATUS_SEVERITY_ERROR);
    simpl_stealer; unfold truthy in Hcond; rewrite Hcond; done_stealer.
Qed.

(** X2: The response to a close request for a file that is not opened writes
    nothing: the request is taken out of the requests in progress, the
    received PDU is handed on, and nothing else changes. *)
Theorem close_response_unopened (self : Side) (pdu : DeviceIOResponsePDU)
    (requestPDU : DeviceIORequestPDU) (m : MITM) :
  completionIdInProgress (stealer self m) !! completionId pdu = Some requestPDU ->
  kind requestPDU = DeviceCloseRequestPDU ->
  openedFiles (stealer self m) !! fileId requestPDU = None ->
  exists m',
    onPDUReceived self (IOResponse pdu) m = (Ok tt, m')
    /\ files self m'
       = (delete (completionId pdu) (completionIdInProgress (stealer self m)),
          openedFiles (stealer self m),
          finalFiles (stealer self m))
    /\ files (peer self) m' = files (peer self) m
    /\ disk m' = disk m
    /\ layer_sent (stealer (peer self) m')
       = layer_sent (stealer (peer self) m) ++ [Received (IOResponse pdu)].
Proof.
  intros Hprogress Hkind Hclosed. unfold_stealer.
  destruct self; simpl_stealer;
    rewrite Hprogress, Hkind;
    destruct (N.eqb (N.shiftr (ioStatus pdu) 30) STATUS_SEVERITY_ERROR);
    simpl_stealer; rewrite Hclosed; done_stealer.
Qed.

(** The device list is only written to the log. *)
Lemma handleDeviceListAnnounceRequest_frame (self : Side)
    (deviceList : list DeviceAnnounce) (m : MITM) :
  exists m',
    handleDeviceListAnnounceRequest self deviceList m = (Ok tt, m')
    /\ files self m' = files self m
    /\ files (peer self) m' = files (peer self) m
    /\ disk m' = disk m
    /\ pduToSend (stealer self m') = pduToSend (stealer self m)
    /\ layer_sent (stealer self m') = layer_sent (stealer self m)
    /\ layer_sent (stealer (peer self) m')
       = layer_sent (stealer (peer self) m).
Proof.
  revert m. induction deviceList as [|device deviceList IH]; intros m.
  - exists m. repeat split.
  - cbn [handleDeviceListAnnounceRequest]. unfold bind, log, update, modify.
    destruct (IH (set_stealer self
                    (add_log INFO "%(deviceName)s mapped with ID %(deviceId)d: %(deviceData)s"
                       (stealer self m)) m))
      as (m' & Hrun & Hfiles & Hpeer & Hdisk & Hsend & Hsent & Hsent').
    exists m'. split; [exact Hrun|].
    rewrite Hfiles, Hpeer, Hdisk, Hsend, Hsent, Hsent'.
    destruct self; repeat split.
Qed.

(** The state after a device list is the state after its log records, in
    which the received PDU is handed on. *)
Lemma onPDUReceived_deviceList (self : Side)
    (deviceList : list DeviceAnnounce) (m : MITM) :
  exists m',
    onPDUReceived self (DeviceListAnnounceRequest deviceList) m = (Ok tt, m')
    /\ files self m' = files self m
    /\ files (peer self) m' = files (peer self) m
    /\ disk m' = disk m
    /\ layer_sent (stealer self m') = layer_sent (stealer self m).
Proof.
  unfold onPDUReceived, sendPDU, bind, update, modify, gets.
  destruct (handleDeviceListAnnounceRequest_frame self deviceList
              (set_stealer self
                 (set_pduToSend
                    (Some (Received (DeviceListAnnounceRequest deviceList)))
                    (stealer self m)) m))
    as (m1 & Hlogs & Hfiles & Hpeer & Hdisk & Hsend & Hsent & _).
  rewrite Hlogs, Hsend.
  destruct self; simpl_stealer; eexists; (split; [reflexivity|]);
    unfold files in *; simpl_stealer;
    rewrite Hfiles, Hpeer, Hdisk, Hsent; repeat split.
Qed.

(** X4: The disk changes only when a response to a close request in progress
    is handled: for every other PDU it is the same afterwards, whether
    [onPDUReceived] returns or raises. *)
Theorem disk_written_only_on_close (self : Side)
    (pdu : DeviceRedirectionPDU) (m : MITM) :
  answersClose self pdu m = false ->
  disk (snd (onPDUReceived self pdu m)) = disk m.
Proof.
  intros Hother.
  destruct (onPDUReceived self pdu m) as [r m'] eqn:Hrun. cbn [snd].
  destruct pdu as [rq|rs|deviceList| | |packetId].
  3: { destruct (onPDUReceived_deviceList self deviceList m)
         as (m1 & Hrun1 & _ & _ & Hdisk & _).
       rewrite Hrun1 in Hrun. now inversion Hrun; subst. }
  all: unfold answersClose in Hother; unfold_stealer;
    destruct self; split_stealer; reflexivity.
Qed.

(** X5: [onPDUReceived] never touches the opened files and the streams of
    the peer, and it touches the requests in progress of the peer only to
    put a received request under its completion identifier, which it does
    even when it raises afterwards. *)
Theorem peer_dictionaries (self : Side) (pdu : DeviceRedirectionPDU) (m : MITM) :
  files (peer self) (snd (onPDUReceived self pdu m))
  = (match pdu with
     | IORequest r =>
         <[req_completionId r := r]>
           (completionIdInProgress (stealer (peer self) m))
     | _ => completionIdInProgress (stealer (peer self) m)
     end,
     openedFiles (stealer (peer self) m),
     finalFiles (stealer (peer self) m)).
Proof.
  destruct (onPDUReceived self pdu m) as [r m'] eqn:Hrun. cbn [snd].
  destruct pdu as [rq|rs|deviceList| | |packetId].
  3: { destruct (onPDUReceived_deviceList self deviceList m)
         as (m1 & Hrun1 & _ & Hpeer & _).
       rewrite Hrun1 in Hrun. now inversion Hrun; subst. }
  all: unfold_stealer; destruct self; split_stealer; reflexivity.
Qed.

(** X6: A stream, once made, is never removed, not even when its file is
    closed and written to the disk. *)
Theorem streams_never_removed (self : Side) (pdu : DeviceRedirectionPDU)
    (m : MITM) (fileName : str) :
  is_Some (finalFiles (stealer self m) !! fileName) ->
  is_Some (finalFiles (stealer self (snd (onPDUReceived self pdu m)))
             !! fileName).
Proof.
  intros Hstream.
  destruct (onPDUReceived self pdu m) as [r m'] eqn:Hrun. cbn [snd].
  destruct pdu as [rq|rs|deviceList| | |packetId].
  3: { destruct (onPDUReceived_deviceList self deviceList m)
         as (m1 & Hrun1 & Hfiles & _).
       rewrite Hrun1 in Hrun. inversion Hrun; subst.
       unfold files in Hfiles. injection Hfiles as _ _ ->. exact Hstream. }
  all: unfold_stealer; destruct self; split_stealer;
    try exact Hstream;
    apply lookup_insert_is_Some'; right; exact Hstream.
Qed.

(** X8: A response is handled once: when [onPDUReceived] has returned for a
    response, its completion identifier is not in progress, so that the
    same response, arriving again, is only written to the log and handed
    on as received. *)
Theorem response_consumed (self : Side) (pdu : DeviceIOResponsePDU)
    (m m1 : MITM) :
  onPDUReceived self (IOResponse pdu) m = (Ok tt, m1) ->
  exists m2,
    onPDUReceived self (IOResponse pdu) m1 = (Ok tt, m2)
    /\ files self m2 = files self m1
    /\ files (peer self) m2 = files (peer self) m1
    /\ disk m2 = disk m1
    /\ layer_sent (stealer (peer self) m2)
       = layer_sent (stealer (peer self) m1) ++ [Received (IOResponse pdu)].
Proof.
  intros Hrun.
  assert (Hgone : completionIdInProgress (stealer self m1) !! completionId pdu
                  = None).
  { unfold_stealer; destruct self; split_stealer;
      solve [apply lookup_delete_eq | assumption]. }
  clear Hrun. unfold_stealer.
  destruct self; simpl_stealer; rewrite Hgone; done_stealer.
Qed.


(** ** One transfer after another *)






End StealerExtras.

(** ** The saved path and the saved bytes *)

Lemma slashes_noBackslash (s : str) : noBackslash (SpecPath.slashes s) = true.
Proof.
  induction s as [|c s IH]; [reflexivity|].
  cbn [SpecPath.slashes List.map noBackslash forallb].
  fold (SpecPath.slashes s). fold (noBackslash (SpecPath.slashes s)).
  rewrite IH, andb_true_r.
  destruct (N.eqb c BACKSLASH) eqn:Hc; [reflexivity | now rewrite Hc].
Qed.

Lemma removeDotDot_noBackslash (s : str) :
  noBackslash s = true -> noBackslash (SpecPath.removeDotDot s) = true.
Proof.
  enough (Hboth : (noBackslash s = true ->
                   noBackslash (SpecPath.removeDotDot s) = true)
                  /\ forall c, noBackslash (c :: s) = true ->
                               noBackslash (SpecPath.removeDotDot (c :: s)) = true)
    by apply Hboth.
  induction s as [|d s [IH0 IH1]].
  - split; [reflexivity|]. intros c Hc.
    destruct (N.eq_dec c DOT) as [->|Hne]; [reflexivity|].
    now rewrite removeDotDot_other.
  - split; [apply IH1|]. intros c Hc.
    cbn [noBackslash forallb] in Hc. apply andb_prop in Hc. destruct Hc as [Hc Hrest].
    fold (noBackslash (d :: s)) in Hrest.
    destruct (N.eq_dec c DOT) as [->|Hne].
    + destruct (N.eq_dec d DOT) as [->|Hd].
      * apply IH0. cbn [noBackslash forallb] in Hrest.
        now apply andb_prop in Hrest.
      * rewrite removeDotDot_dot by assumption.
        cbn [noBackslash forallb].
        fold (noBackslash (SpecPath.removeDotDot (d :: s))).
        now rewrite (IH1 d Hrest).
    + rewrite (removeDotDot_other c) by assumption.
      cbn [noBackslash forallb].
      fold (noBackslash (SpecPath.removeDotDot (d :: s))).
      now rewrite Hc, (IH1 d Hrest).
Qed.

(** X11: Whatever the path, the path that [writeToDisk] opens is
    [./saved_files/] followed by a string without backslash and without two
    dots in a row. *)
Theorem goodPath_safe `{Externals} (path : str) :
  exists rest,
    goodPath path = str_of_string "./saved_files/" ++ rest
    /\ SpecPath.noDotDot rest = true
    /\ noBackslash rest = true.
Proof.
  exists (SpecPath.sanitize path).
  split; [apply goodPath_sanitize|]. unfold SpecPath.sanitize.
  split; [apply removeDotDot_noDotDot|].
  apply removeDotDot_noBackslash, slashes_noBackslash.
Qed.


(** ** The further properties on concrete traces *)

Lemma create_response_not_for_reading_witness :
  exists m',
    onPDUReceived (H := Reference.externals) ServerSide
      (IOResponse Scenario.createResponse) Cases.creatingAnyKind = (Ok tt, m')
    /\ openedFiles (serverStealer m') = ∅
    /\ completionIdInProgress (serverStealer m') = ∅.
Proof.
  destruct (create_response_not_for_reading (H := Reference.externals) ServerSide
              Scenario.createResponse Scenario.createRequestAnyKind
              0x80000000 0x20 Scenario.remotePath
              {| cr_deviceId := 1; cr_completionId := 1; cr_ioStatus := 0;
                 cr_fileId := 7; information := [x01] |}
              Cases.creatingAnyKind)
    as (m' & Hrun & Hfiles & _); try (vm_compute; reflexivity).
  { right. reflexivity. }
  exists m'. split; [exact Hrun|].
  unfold files in Hfiles. cbn [stealer] in Hfiles.
  injection Hfiles as Hprogress Hopened _.
  split; [rewrite Hopened | rewrite Hprogress]; vm_compute; reflexivity.
Defined.

Lemma close_response_unopened_witness :
  exists m',
    onPDUReceived (H := Reference.externals) ServerSide
      (IOResponse Scenario.closeResponse) Cases.closingUnopened = (Ok tt, m')
    /\ disk m' = ∅.
Proof.
  destruct (close_response_unopened (H := Reference.externals) ServerSide
              Scenario.closeResponse Scenario.closeRequest Cases.closingUnopened)
    as (m' & Hrun & _ & _ & Hdisk & _); try (vm_compute; reflexivity).
  exists m'. split; [exact Hrun|]. rewrite Hdisk. vm_compute. reflexivity.
Defined.


Lemma disk_written_only_on_close_witness :
  disk (snd (onPDUReceived (H := Reference.externals) ServerSide
               (IOResponse (Scenario.readResponse 2 x04 "hell"))
               Cases.transferred))
  = disk Cases.transferred.
Proof.
  apply (disk_written_only_on_close (H := Reference.externals)).
  vm_compute. reflexivity.
Defined.

Lemma streams_never_removed_witness :
  is_Some (finalFiles
             (serverStealer
                (snd (onPDUReceived (H := Reference.externals) ServerSide
                        (IOResponse Scenario.closeResponse) Cases.transferred)))
             !! Cases.fileName).
Proof.
  apply (streams_never_removed (H := Reference.externals) ServerSide
           (IOResponse Scenario.closeResponse) Cases.transferred Cases.fileName).
  eexists. vm_compute. reflexivity.
Defined.

Lemma response_consumed_witness :
  exists m1 m2,
    onPDUReceived (H := Reference.externals) ServerSide
      (IOResponse Scenario.createResponse) Cases.creatingAnyKind = (Ok tt, m1)
    /\ onPDUReceived (H := Reference.externals) ServerSide
         (IOResponse Scenario.createResponse) m1 = (Ok tt, m2)
    /\ files ServerSide m2 = files ServerSide m1.
Proof.
  eexists.
  match goal with
  | |- exists m2, ?step /\ _ =>
      assert (Hstep : step) by (vm_compute; reflexivity)
  end.
  destruct (response_consumed (H := Reference.externals) _ _ _ _ Hstep)
    as (m2 & Hagain & Hfiles & _).
  exists m2. split; [exact Hstep|]. split; [exact Hagain | exact Hfiles].
Defined.



(** ** Further properties of the client side *)

Section ClientExtras.
Context `{Client.Externals}.
Import Client.

(** X12: When the negotiation response cannot be parsed,
    [onConnectionConfirm] raises what the parser raises: TLS is not
    started, the server side does not get the confirm, and the log has
    the one record that precedes the parsing. *)
Theorem connectionConfirm_parse_error (pdu : X224ConnectionConfirmPDU)
    (e : exn) (c : MITMClient) :
  parseNegotiationResponse (cc_payload pdu) = Raise e ->
  exists c',
    onConnectionConfirm pdu c = (Raise e, c')
    /\ useTLS c' = useTLS c
    /\ calls c' = calls c
    /\ client_log c'
       = client_log c ++ [(DEBUG, "Connection Confirm received"%string)].
Proof.
  intros Hparse.
  unfold onConnectionConfirm, bind, lift, log, call, set_useTLS, modify, ret.
  rewrite Hparse. cbn. eexists. repeat split.
Qed.

(** X13: For every negotiation response that parses,
    [onConnectionConfirm] returns and hands the confirm to the server
    side last.  It starts TLS exactly when the response has selected it,
    and [useTLS] is then set; a response that has not selected TLS
    leaves [useTLS] as it was, so that it is never reset. *)
Theorem connectionConfirm_tls (pdu : X224ConnectionConfirmPDU)
    (response : NegotiationResponsePDU) (c : MITMClient) :
  parseNegotiationResponse (cc_payload pdu) = Ok response ->
  exists c' newCalls,
    onConnectionConfirm pdu c = (Ok tt, c')
    /\ useTLS c' = tlsSelected response || useTLS c
    /\ calls c' = calls c ++ newCalls
    /\ (In TcpStartTLS newCalls <-> tlsSelected response = true)
    /\ last newCalls = Some (ServerOnConnectionConfirm pdu)
    /\ self_channelDefinitions c' = self_channelDefinitions c.
Proof.
  intros Hparse.
  unfold onConnectionConfirm, bind, lift, log, call, set_useTLS, modify, ret.
  rewrite Hparse.
  destruct (N.eqb (type response) TYPE_RDP_NEG_FAILURE);
    destruct (tlsSelected response); cbn;
    (eexists _, _; split; [reflexivity|]); cbn;
    (split; [reflexivity|]);
    rewrite <- ?app_assoc; (split; [reflexivity|]); cbn;
    (split; [|split; reflexivity]);
    intuition discriminate.
Qed.

(** X14: [onConnectInitial] takes over the channel definitions of
    the client data when it has network data and keeps the ones it has
    otherwise; it takes over the conference name in both cases. *)
Theorem connectInitial_channel_definitions (now : N)
    (gccConferenceCreateRequest : GCCConferenceCreateRequestPDU)
    (clientData : ClientDataPDU) (c : MITMClient) :
  exists c',
    onConnectInitial now gccConferenceCreateRequest clientData c = (Ok tt, c')
    /\ self_channelDefinitions c'
       = match networkData clientData with
         | Some network => channelDefinitions network
         | None => self_channelDefinitions c
         end
    /\ gccConnect_conferenceName c'
       = conferenceName gccConferenceCreateRequest
    /\ useTLS c' = useTLS c.
Proof.
  unfold onConnectInitial. cbn.
  destruct (networkData clientData); cbn; eexists; repeat split.
Qed.

(** X15: For a client that has its security layer: when the username
    or the password has no replacement, the PDU handed to the security
    layer has the replacement that there is and the received value for
    the other, and the autologon flag is not added: every bit of the
    flags is as received, the bits of the compression flag and of the
    compression type mask apart, which are cleared. *)
Theorem clientInfo_partial_replacement (pdu : ClientInfoPDU) (c : MITMClient) :
  securityLayer c = true ->
  replacementUsername c = None \/ replacementPassword c = None ->
  exists c' forwardedPDU,
    onClientInfoPDUReceived pdu c = (Ok tt, c')
    /\ calls c' = calls c ++ [SecurityLayerSendClientInfo forwardedPDU]
    /\ username forwardedPDU = default (username pdu) (replacementUsername c)
    /\ password forwardedPDU = default (password pdu) (replacementPassword c)
    /\ forall n, (0 <= n)%Z ->
         Z.testbit (flags forwardedPDU) n
         = Z.testbit (flags pdu) n
           && negb (Z.testbit INFO_COMPRESSION n)
           && negb (Z.testbit INFO_CompressionTypeMask n).
Proof.
  intros Hlayer Hone.
  eexists _, _. split; [now apply onClientInfoPDUReceived_calls|].
  split; [reflexivity|].
  destruct (replacementUsername c) as [u|], (replacementPassword c) as [p|];
    try (destruct Hone; discriminate);
    (split; [reflexivity|]); (split; [reflexivity|]);
    intros n Hn; cbn;
    now rewrite !Z.land_spec, !Z.lnot_spec by assumption.
Qed.

(** X25: A client that has no security layer yet, as it is from
    [__init__] until the I/O channel is built, raises [AttributeError]
    on a client info PDU: the record is written to the log and nothing
    is handed to the security layer or to any other collaborator. *)
Theorem clientInfo_without_security_layer (pdu : ClientInfoPDU)
    (c : MITMClient) :
  securityLayer c = false ->
  exists c',
    onClientInfoPDUReceived pdu c = (Raise AttributeError, c')
    /\ calls c' = calls c
    /\ client_log c'
       = client_log c ++ [(DEBUG, "Sending Client Info: %(arg1)s"%string)]
    /\ securityLayer c' = false.
Proof.
  intros Hlayer.
  unfold onClientInfoPDUReceived, bind, gets, log, call, modify, raise, lift.
  cbn. rewrite Hlayer. eexists. repeat split.
Qed.

End ClientExtras.

Lemma connectionConfirm_parse_error_witness :
  let pdu := {| Client.cc_payload := [x03; x00] |} in
  exists c',
    Client.onConnectionConfirm (H := Client.referenceExternals) pdu
      (Client.newClient None None) = (Raise ParseError, c')
    /\ Client.calls c' = [].
Proof.
  intros pdu.
  destruct (connectionConfirm_parse_error (H := Client.referenceExternals)
              pdu ParseError (Client.newClient None None) eq_refl)
    as (c' & Hrun & _ & Hcalls & _).
  exists c'. split; [exact Hrun | exact Hcalls].
Defined.

Lemma connectionConfirm_tls_witness :
  let pdu := {| Client.cc_payload := [x02; x00; x08; x00; x01; x00; x00; x00] |} in
  exists c',
    Client.onConnectionConfirm (H := Client.referenceExternals) pdu
      (Client.newClient None None) = (Ok tt, c')
    /\ Client.useTLS c' = true
    /\ In Client.TcpStartTLS (Client.calls c').
Proof.
  intros pdu.
  destruct (connectionConfirm_tls (H := Client.referenceExternals)
              pdu {| Client.type := 2; Client.tlsSelected := true |}
              (Client.newClient None None) eq_refl)
    as (c' & newCalls & Hrun & Htls & Hcalls & Hstarted & _).
  exists c'. split; [exact Hrun|]. split; [exact Htls|].
  rewrite Hcalls. apply in_or_app. right. apply Hstarted. reflexivity.
Defined.

Lemma clientInfo_partial_replacement_witness :
  let pdu := {| Client.codePage := 0; Client.flags := 0x80 + 0x200 + 0x1;
                Client.domain := []; Client.username := str_of_string "alice";
                Client.password := str_of_string "secret";
                Client.alternateShell := []; Client.workingDir := [];
                Client.extraInfo := [] |} in
  let c := Client.withSecurityLayer
             (Client.newClient (Some (str_of_string "admin")) None) in
  exists c' forwardedPDU,
    Client.onClientInfoPDUReceived (H := Client.referenceExternals) pdu c
    = (Ok tt, c')
    /\ Client.username forwardedPDU = str_of_string "admin"
    /\ Client.password forwardedPDU = str_of_string "secret"
    /\ Z.testbit (Client.flags forwardedPDU) 3 = false.
Proof.
  intros pdu c.
  destruct (clientInfo_partial_replacement (H := Client.referenceExternals)
              pdu c eq_refl (or_intror eq_refl))
    as (c' & forwardedPDU & Hrun & _ & Hu & Hp & Hflags).
  exists c', forwardedPDU. split; [exact Hrun|].
  split; [exact Hu|]. split; [exact Hp|].
  rewrite (Hflags 3%Z) by lia. reflexivity.
Defined.

Lemma clientInfo_without_security_layer_witness :
  let pdu := {| Client.codePage := 0; Client.flags := 0x80 + 0x200 + 0x1;
                Client.domain := []; Client.username := str_of_string "alice";
                Client.password := str_of_string "secret";
                Client.alternateShell := []; Client.workingDir := [];
                Client.extraInfo := [] |} in
  exists c',
    Client.onClientInfoPDUReceived (H := Client.referenceExternals) pdu
      (Client.newClient None None) = (Raise AttributeError, c')
    /\ Client.calls c' = [].
Proof.
  intros pdu.
  destruct (clientInfo_without_security_layer (H := Client.referenceExternals)
              pdu (Client.newClient None None) eq_refl)
    as (c' & Hrun & Hcalls & _).
  exists c'. split; [exact Hrun | exact Hcalls].
Defined.

(** ** Channels of the client *)

Section ChannelProperties.
Import Channels.
Context `{Channels.Externals}.

Ltac reduce_channels :=
  cbv beta iota zeta delta
    [useTLS channelDefinitions channelMap channelObservers
     deviceRedirectionObserver serverData securityLayer fastPathObserver
     log calls fst snd encryptionMethod security network userID
     channelID stack layerClass securityHeaderExpected negb].

Ltac unfold_channels :=
  cbv beta iota zeta delta
    [buildChannel buildIOChannel buildVirtualChannel
     buildClipboardChannel buildDeviceRedirectionChannel
     createSecurityLayer serverEncryptionMethod getChannelObserver
     getFastPathObserver onLicensingDataReceived
     setChannelObserver setChannelName set_channelMap
     set_channelObservers set_deviceRedirectionObserver set_serverData
     set_securityLayer set_fastPathObserver debug call
     Channels.bind Channels.ret Channels.raise Channels.lift
     Channels.gets Channels.modify
     useTLS channelDefinitions channelMap channelObservers
     deviceRedirectionObserver serverData securityLayer fastPathObserver
     log calls fst snd encryptionMethod security network userID
     channelID stack layerClass securityHeaderExpected negb].

(** The loop of [onServerData] returns when there is a definition for
    every channel, and changes the channel map only. *)
Lemma nameChannels_returns (ids : list N) :
  forall (index : nat) (c : MITMClient),
    index + length ids <= length (channelDefinitions c) ->
    NoDup ids ->
    exists m,
      nameChannels ids index c = (Returns tt, snd (set_channelMap m c)) /\
      (forall i id, ids !! i = Some id ->
         m !! id = Client.name <$> channelDefinitions c !! (index + i)) /\
      (forall id, id ∉ ids -> m !! id = channelMap c !! id).
Proof.
  induction ids as [|id0 rest IH]; intros index c Hlen Hnodup.
  - exists (channelMap c). split; [destruct c; reflexivity|].
    split; [intros i id Hi; rewrite lookup_nil in Hi; discriminate|].
    reflexivity.
  - simpl in Hlen. apply NoDup_cons in Hnodup as [Hnotin Hnodup].
    destruct (lookup_lt_is_Some_2 (channelDefinitions c) index) as [d Hd];
      [lia|].
    set (c1 := snd (set_channelMap (<[id0 := Client.name d]> (channelMap c)) c)).
    destruct (IH (S index) c1) as (m & Hrun & Hnamed & Hother);
      [simpl; lia | assumption |].
    exists m. split; [|split].
    + simpl. unfold Channels.bind at 1. unfold Channels.gets at 1.
      rewrite Hd. unfold Channels.bind at 1.
      transitivity (nameChannels rest (S index) c1); [reflexivity|].
      rewrite Hrun. reflexivity.
    + intros [|i] id Hi; simpl in Hi.
      * injection Hi as ->. rewrite Hother by assumption.
        simpl. rewrite lookup_insert_eq, Nat.add_0_r, Hd. reflexivity.
      * rewrite (Hnamed i id Hi). simpl.
        replace (index + S i) with (S index + i) by lia. reflexivity.
    + intros id Hid. apply not_elem_of_cons in Hid as [Hne Hid].
      rewrite Hother by assumption. simpl.
      apply lookup_insert_ne. congruence.
Qed.

(** The loop of [onServerData] raises [IndexError] when the definitions
    run out, and has changed the channel map only. *)
Lemma nameChannels_raises (ids : list N) :
  forall (index : nat) (c : MITMClient),
    length (channelDefinitions c) < index + length ids ->
    index <= length (channelDefinitions c) ->
    exists m,
      nameChannels ids index c = (Raises IndexError, snd (set_channelMap m c)) /\
      (forall i id, i < length (channelDefinitions c) - index ->
         ids !! i = Some id -> is_Some (m !! id)) /\
      (forall id, is_Some (channelMap c !! id) -> is_Some (m !! id)).
Proof.
  induction ids as [|id0 rest IH]; intros index c Hlen Hindex.
  - simpl in Hlen. lia.
  - simpl in Hlen.
    destruct (channelDefinitions c !! index) as [d|] eqn:Hd.
    + assert (index < length (channelDefinitions c))
        by (apply lookup_lt_is_Some; eauto).
      set (c1 := snd (set_channelMap (<[id0 := Client.name d]> (channelMap c)) c)).
      destruct (IH (S index) c1) as (m & Hrun & Hnamed & Hother);
        [simpl; lia | simpl; lia |].
      exists m. split; [|split].
      * simpl. unfold Channels.bind at 1. unfold Channels.gets at 1.
        rewrite Hd. unfold Channels.bind at 1.
        transitivity (nameChannels rest (S index) c1); [reflexivity|].
        rewrite Hrun. reflexivity.
      * intros [|i] id Hi Hid; simpl in Hid.
        -- injection Hid as ->. apply Hother. simpl.
           rewrite lookup_insert_eq. eauto.
        -- apply (Hnamed i id); [simpl; lia | assumption].
      * intros id Hid. apply Hother. simpl.
        apply lookup_insert_is_Some'. right. assumption.
    + exists (channelMap c). split; [|split].
      * simpl. unfold Channels.bind, Channels.gets. rewrite Hd.
        destruct c; reflexivity.
      * apply lookup_ge_None in Hd. intros i id Hi. lia.
      * auto.
Qed.

(** The state in which [onServerData] enters its loop. *)
Lemma onServerData_loop (sd : ServerDataPDU) (c : MITMClient) :
  onServerData sd c =
  nameChannels (channels (network sd)) 0
    {| useTLS := useTLS c; channelDefinitions := channelDefinitions c;
       channelMap :=
         <[mcsChannelID (network sd) := str_of_string "I/O"]> (channelMap c);
       channelObservers := channelObservers c;
       deviceRedirectionObserver := deviceRedirectionObserver c;
       serverData := Some sd; securityLayer := securityLayer c;
       fastPathObserver := fastPathObserver c; log := log c;
       calls :=
         (calls c ++ [GenerateClientRandom]) ++
         [ServerSecurityReceived (security sd)] |}.
Proof. reflexivity. Qed.

Lemma onServerData_returns (sd : ServerDataPDU) (c : MITMClient) :
  length (channels (network sd)) <= length (channelDefinitions c) ->
  NoDup (channels (network sd)) ->
  mcsChannelID (network sd) ∉ channels (network sd) ->
  exists m,
    onServerData sd c =
    (Returns tt,
     {| useTLS := useTLS c; channelDefinitions := channelDefinitions c;
        channelMap := m;
        channelObservers := channelObservers c;
        deviceRedirectionObserver := deviceRedirectionObserver c;
        serverData := Some sd; securityLayer := securityLayer c;
        fastPathObserver := fastPathObserver c; log := log c;
        calls :=
          calls c ++
          [GenerateClientRandom; ServerSecurityReceived (security sd)] |}) /\
    m !! mcsChannelID (network sd) = Some (str_of_string "I/O") /\
    (forall i id, channels (network sd) !! i = Some id ->
       m !! id = Client.name <$> channelDefinitions c !! i) /\
    (forall id, id <> mcsChannelID (network sd) ->
       id ∉ channels (network sd) -> m !! id = channelMap c !! id).
Proof.
  intros Hlen Hnodup Hio. rewrite onServerData_loop.
  match goal with
  | |- context [nameChannels _ 0 ?c0] =>
      destruct (nameChannels_returns (channels (network sd)) 0 c0)
        as (m & Hrun & Hnamed & Hother); [simpl; lia | assumption |]
  end.
  exists m. rewrite Hrun. simpl in *. rewrite <- app_assoc. simpl.
  split; [reflexivity|]. split; [|split].
  - rewrite Hother by assumption. apply lookup_insert_eq.
  - exact Hnamed.
  - intros id Hne Hid. rewrite Hother by assumption.
    apply lookup_insert_ne. congruence.
Qed.

(** X16: Given a definition for every channel of the
    server, channel ids that are distinct and an I/O channel id that is
    not among them, [onServerData] returns: it keeps the server data, the
    I/O channel is named I/O, every channel has the name of the
    definition at its index, every other id keeps what it had, and the
    security settings have generated the client random and received the
    security data of the server. *)
Theorem onServerData_names_channels (sd : ServerDataPDU) (c : MITMClient) :
  length (channels (network sd)) <= length (channelDefinitions c) ->
  NoDup (channels (network sd)) ->
  mcsChannelID (network sd) ∉ channels (network sd) ->
  exists c',
    onServerData sd c = (Returns tt, c') /\
    serverData c' = Some sd /\
    channelMap c' !! mcsChannelID (network sd) = Some (str_of_string "I/O") /\
    (forall i id, channels (network sd) !! i = Some id ->
       channelMap c' !! id = Client.name <$> channelDefinitions c !! i) /\
    (forall id, id <> mcsChannelID (network sd) ->
       id ∉ channels (network sd) ->
       channelMap c' !! id = channelMap c !! id) /\
    calls c' =
    calls c ++ [GenerateClientRandom; ServerSecurityReceived (security sd)].
Proof.
  intros Hlen Hnodup Hio.
  destruct (onServerData_returns sd c Hlen Hnodup Hio)
    as (m & Hrun & Hm & Hnamed & Hother).
  eexists. split; [exact Hrun|]. simpl. auto.
Qed.

(** X17: When the server has more channels than the client
    has defined, [onServerData] raises [IndexError]; by then it has kept
    the server data, handed the security data to the security settings,
    and named the I/O channel and the channels that have a definition. *)
Theorem onServerData_too_few_definitions (sd : ServerDataPDU) (c : MITMClient) :
  length (channelDefinitions c) < length (channels (network sd)) ->
  exists c',
    onServerData sd c = (Raises IndexError, c') /\
    serverData c' = Some sd /\
    is_Some (channelMap c' !! mcsChannelID (network sd)) /\
    (forall i id, i < length (channelDefinitions c) ->
       channels (network sd) !! i = Some id ->
       is_Some (channelMap c' !! id)) /\
    calls c' =
    calls c ++ [GenerateClientRandom; ServerSecurityReceived (security sd)].
Proof.
  intros Hlen. rewrite onServerData_loop.
  match goal with
  | |- context [nameChannels _ 0 ?c0] =>
      destruct (nameChannels_raises (channels (network sd)) 0 c0)
        as (m & Hrun & Hnamed & Hother); [simpl; lia | simpl; lia |]
  end.
  rewrite Hrun. simpl in *. eexists. split; [reflexivity|]. simpl.
  split; [reflexivity|]. split; [|split].
  - apply Hother. rewrite lookup_insert_eq. eauto.
  - intros i id Hi Hid. apply (Hnamed i id); [lia | assumption].
  - rewrite <- app_assoc. reflexivity.
Qed.

Lemma buildChannel_returns (u id : N) (sd : ServerDataPDU) (c : MITMClient) :
  serverData c = Some sd ->
  (useTLS c = false ->
   SecurityLayer_create (encryptionMethod (security sd)) = Returns tt) ->
  (channelMap c !! id = Some (str_of_string "I/O") ->
   createFastPathParser (useTLS c) (encryptionMethod (security sd)) =
   Returns tt) ->
  exists channel c',
    buildChannel u id c = (Returns channel, c') /\
    userID channel = u /\
    channelID channel = id /\
    channelObservers c' =
    <[id := observerFor (channelMap c !! id)]> (channelObservers c) /\
    channelMap c' = channelMap c /\
    serverData c' = serverData c /\
    useTLS c' = useTLS c /\
    (channelMap c !! id = Some (str_of_string "I/O") ->
     is_Some (securityLayer c') /\ fastPathObserver c' = true) /\
    (channelMap c !! id <> Some (str_of_string "I/O") ->
     securityLayer c' = securityLayer c /\
     fastPathObserver c' = fastPathObserver c) /\
    exists new,
      calls c' = calls c ++ new ++ [ServerOnChannelJoinAccepted u id].
Proof.
  destruct c as [tls defs names observers dro sdata layer fpo lg cs].
  destruct sd as [[em] net].
  reduce_channels. intros -> Hsec Hfast. unfold observerFor.
  destruct (bool_decide (names !! id = Some (str_of_string "I/O")))
    eqn:Hio.
  - pose proof Hio as Hname. apply bool_decide_eq_true in Hname.
    specialize (Hfast Hname).
    unfold_channels. rewrite Hio. unfold_channels.
    destruct tls.
    + rewrite Hfast. do 2 eexists.
      repeat (split; [reflexivity|]).
      split; [intros _; split; [eauto | reflexivity]|].
      split; [intros Hne; contradiction|].
      rewrite <- !app_assoc.
      eexists (_ :: _ :: _ :: _ :: _ :: [_]). reflexivity.
    + rewrite (Hsec eq_refl), Hfast.
      destruct (N.eqb em 0);
        do 2 eexists;
        repeat (split; [reflexivity|]);
        (split; [intros _; split; [eauto | reflexivity]|]);
        (split; [intros Hne; contradiction|]);
        rewrite <- !app_assoc.
      * eexists (_ :: _ :: _ :: _ :: _ :: [_]). reflexivity.
      * eexists (_ :: _ :: _ :: _ :: _ :: _ :: [_]). reflexivity.
  - pose proof Hio as Hname. apply bool_decide_eq_false in Hname.
    unfold_channels. rewrite Hio.
    destruct (bool_decide (names !! id = Some CLIPBOARD));
      [| destruct (bool_decide (names !! id = Some DEVICE_REDIRECTION))];
      unfold_channels;
      (destruct tls; [|rewrite (Hsec eq_refl)]);
      do 2 eexists;
      repeat (split; [reflexivity|]);
      (split; [intros Hyes; contradiction|]);
      (split; [intros _; split; reflexivity|]);
      exists []; reflexivity.
Qed.

(** X18: With the server data at hand and factories that
    return, [buildChannel] returns a channel of the given user and id,
    after which [getChannelObserver] returns for that id the observer
    that goes with the name of the channel: the slow-path observer for
    I/O, the clipboard stealer, the file stealer, and the plain observer
    for any other name and for a channel without a name.  The observers
    of the other channels stay, and the server is told last that the
    channel is joined. *)
Theorem buildChannel_registers (u id : N) (sd : ServerDataPDU) (c : MITMClient) :
  serverData c = Some sd ->
  (useTLS c = false ->
   SecurityLayer_create (encryptionMethod (security sd)) = Returns tt) ->
  (channelMap c !! id = Some (str_of_string "I/O") ->
   createFastPathParser (useTLS c) (encryptionMethod (security sd)) =
   Returns tt) ->
  exists channel c',
    buildChannel u id c = (Returns channel, c') /\
    userID channel = u /\
    channelID channel = id /\
    getChannelObserver id c' =
    (Returns (observerFor (channelMap c !! id)), c') /\
    (forall other, other <> id ->
       getChannelObserver other c' = 
       (fst (getChannelObserver other c), c')) /\
    last (calls c') = Some (ServerOnChannelJoinAccepted u id).
Proof.
  intros Hsd Hsec Hfast.
  destruct (buildChannel_returns u id sd c Hsd Hsec Hfast)
    as (channel & c' & Hrun & Hu & Hid & Hobs & _ & _ & _ & _ & _ & new & Hcalls).
  exists channel, c'. split; [exact Hrun|]. split; [exact Hu|].
  split; [exact Hid|]. split; [|split].
  - unfold getChannelObserver, Channels.bind, Channels.gets, Channels.ret.
    rewrite Hobs, lookup_insert_eq. reflexivity.
  - intros other Hne.
    unfold getChannelObserver, Channels.bind, Channels.gets, Channels.ret,
      Channels.raise.
    rewrite Hobs, lookup_insert_ne by congruence.
    destruct (channelObservers c !! other); reflexivity.
  - rewrite Hcalls, !app_assoc. apply last_snoc.
Qed.

(** X19: Before the server data has arrived, [buildChannel]
    raises [AttributeError] for every channel: no observer is registered,
    no security layer is kept, and the server is not told that the
    channel is joined. *)
Theorem buildChannel_without_server_data (u id : N) (c : MITMClient) :
  serverData c = None ->
  exists c',
    buildChannel u id c = (Raises AttributeError, c') /\
    channelObservers c' = channelObservers c /\
    deviceRedirectionObserver c' = deviceRedirectionObserver c /\
    securityLayer c' = securityLayer c /\
    fastPathObserver c' = fastPathObserver c /\
    calls c' = calls c.
Proof.
  destruct c as [tls defs names observers dro sdata layer fpo lg cs].
  reduce_channels. intros ->. unfold_channels.
  destruct (bool_decide (names !! id = Some (str_of_string "I/O")));
    [| destruct (bool_decide (names !! id = Some CLIPBOARD));
       [| destruct (bool_decide (names !! id = Some DEVICE_REDIRECTION))]];
    unfold_channels; eexists; repeat (split; [reflexivity|]); reflexivity.
Qed.

(** X20: With the server data at hand and factories that
    return, [buildIOChannel] keeps a security layer: with TLS a TLS layer
    that expects the security header, otherwise the layer of the
    encryption method of the server, whose expectation the client leaves
    alone.  [getFastPathObserver] returns an observer afterwards, and the
    security exchange is sent exactly when TLS is off and the encryption
    method is not 0. *)
Theorem buildIOChannel_security (u id : N) (sd : ServerDataPDU) (c : MITMClient) :
  serverData c = Some sd ->
  (useTLS c = false ->
   SecurityLayer_create (encryptionMethod (security sd)) = Returns tt) ->
  createFastPathParser (useTLS c) (encryptionMethod (security sd)) =
  Returns tt ->
  exists channel c',
    buildIOChannel u id c = (Returns channel, c') /\
    securityLayer c' =
    Some (if useTLS c
          then {| layerClass := TLSSecurityLayer;
                  securityHeaderExpected := Some true |}
          else {| layerClass := SecurityLayer (encryptionMethod (security sd));
                  securityHeaderExpected := None |}) /\
    getFastPathObserver c' = (Returns true, c') /\
    exists new,
      calls c' = calls c ++ new /\
      (In SendSecurityExchange new <->
       useTLS c = false /\ encryptionMethod (security sd) <> 0%N).
Proof.
  destruct c as [tls defs names observers dro sdata layer fpo lg cs].
  destruct sd as [[em] net].
  reduce_channels. intros -> Hsec Hfast. unfold_channels.
  destruct tls.
  - rewrite Hfast. do 2 eexists. repeat (split; [reflexivity|]).
    rewrite <- !app_assoc. eexists. split; [reflexivity|].
    split; [intros Hin | intros [Hne _]; discriminate].
    repeat (destruct Hin as [Hin | Hin]; [discriminate|]). destruct Hin.
  - rewrite (Hsec eq_refl), Hfast.
    destruct (N.eqb_spec em 0) as [Hem | Hem];
      do 2 eexists; repeat (split; [reflexivity|]);
      rewrite <- !app_assoc; (eexists; split; [reflexivity|]).
    + split; [intros Hin | intros [_ Hne]; contradiction].
      repeat (destruct Hin as [Hin | Hin]; [discriminate|]). destruct Hin.
    + split; [intros _; split; [reflexivity | assumption] | intros _].
      do 6 right. left. reflexivity.
Qed.

(** X21: With TLS, the security layer that [buildIOChannel]
    has kept expects the security header until the licensing data
    arrives: [onLicensingDataReceived] turns the expectation off, keeps
    the layer, and hands the data to the server. *)
Theorem licensing_after_io_channel (u id : N) (data : bytes)
    (sd : ServerDataPDU) (c : MITMClient) :
  useTLS c = true ->
  serverData c = Some sd ->
  createFastPathParser true (encryptionMethod (security sd)) = Returns tt ->
  exists channel c1 c2,
    buildIOChannel u id c = (Returns channel, c1) /\
    securityLayer c1 =
    Some {| layerClass := TLSSecurityLayer;
            securityHeaderExpected := Some true |} /\
    onLicensingDataReceived data c1 = (Returns tt, c2) /\
    securityLayer c2 =
    Some {| layerClass := TLSSecurityLayer;
            securityHeaderExpected := Some false |} /\
    calls c2 = calls c1 ++ [ServerOnLicensingDataReceived data].
Proof.
  destruct c as [tls defs names observers dro sdata layer fpo lg cs].
  destruct sd as [[em] net].
  reduce_channels. intros -> -> Hfast. unfold_channels.
  rewrite Hfast. do 3 eexists. split; [reflexivity|].
  split; [reflexivity|]. split; [reflexivity|]. split; reflexivity.
Qed.

(** X22: With TLS and no security layer yet,
    [onLicensingDataReceived] raises [AttributeError] and the server does
    not get the licensing data; without TLS it leaves the security layer
    alone and hands the data to the server. *)
Theorem licensing_without_security_layer (data : bytes) (c : MITMClient) :
  securityLayer c = None ->
  exists c',
    onLicensingDataReceived data c =
    (if useTLS c then Raises AttributeError else Returns tt, c') /\
    securityLayer c' = None /\
    calls c' =
    calls c ++
    (if useTLS c then [] else [ServerOnLicensingDataReceived data]).
Proof.
  destruct c as [tls defs names observers dro sdata layer fpo lg cs].
  reduce_channels. intros ->. unfold_channels.
  destruct tls; eexists; (split; [reflexivity|]); reduce_channels;
    rewrite ?app_nil_r; auto.
Qed.

(** X23: After [onServerData], building the channel of a
    server channel id registers the observer that goes with the name of
    the client's definition at the same index. *)
Theorem channel_of_definition_gets_observer (u : N) (i : nat) (id : N)
    (d : Client.ChannelDefinition) (sd : ServerDataPDU) (c : MITMClient) :
  length (channels (network sd)) <= length (channelDefinitions c) ->
  NoDup (channels (network sd)) ->
  mcsChannelID (network sd) ∉ channels (network sd) ->
  channels (network sd) !! i = Some id ->
  channelDefinitions c !! i = Some d ->
  (useTLS c = false ->
   SecurityLayer_create (encryptionMethod (security sd)) = Returns tt) ->
  (Client.name d = str_of_string "I/O" ->
   createFastPathParser (useTLS c) (encryptionMethod (security sd)) =
   Returns tt) ->
  exists c1 channel c2,
    onServerData sd c = (Returns tt, c1) /\
    buildChannel u id c1 = (Returns channel, c2) /\
    getChannelObserver id c2 =
    (Returns (observerFor (Some (Client.name d))), c2).
Proof.
  intros Hlen Hnodup Hio Hi Hd Hsec Hfast.
  destruct (onServerData_returns sd c Hlen Hnodup Hio)
    as (m & Hrun & Hm & Hnamed & Hother).
  specialize (Hnamed i id Hi). rewrite Hd in Hnamed. simpl in Hnamed.
  match type of Hrun with
  | _ = (_, ?c1) =>
      destruct (buildChannel_returns u id sd c1) as
        (channel & c2 & Hbuild & _ & _ & Hobs & _);
        [reflexivity | exact Hsec
        | simpl; rewrite Hnamed; intros Hname; apply Hfast; congruence |];
      exists c1, channel, c2
  end.
  split; [exact Hrun|]. split; [exact Hbuild|].
  unfold getChannelObserver, Channels.bind, Channels.gets, Channels.ret.
  rewrite Hobs, lookup_insert_eq. simpl. rewrite Hnamed. reflexivity.
Qed.

(** X24: After [onServerData], building the channel of the
    I/O channel id of the server registers the slow-path observer, keeps
    a security layer and makes the fast-path observer. *)
Theorem io_channel_built (u : N) (sd : ServerDataPDU) (c : MITMClient) :
  length (channels (network sd)) <= length (channelDefinitions c) ->
  NoDup (channels (network sd)) ->
  mcsChannelID (network sd) ∉ channels (network sd) ->
  (useTLS c = false ->
   SecurityLayer_create (encryptionMethod (security sd)) = Returns tt) ->
  createFastPathParser (useTLS c) (encryptionMethod (security sd)) =
  Returns tt ->
  exists c1 channel c2,
    onServerData sd c = (Returns tt, c1) /\
    buildChannel u (mcsChannelID (network sd)) c1 = (Returns channel, c2) /\
    getChannelObserver (mcsChannelID (network sd)) c2 =
    (Returns MITMSlowPathObserver, c2) /\
    is_Some (securityLayer c2) /\
    getFastPathObserver c2 = (Returns true, c2).
Proof.
  intros Hlen Hnodup Hio Hsec Hfast.
  destruct (onServerData_returns sd c Hlen Hnodup Hio)
    as (m & Hrun & Hm & Hnamed & Hother).
  match type of Hrun with
  | _ = (_, ?c1) =>
      destruct (buildChannel_returns u (mcsChannelID (network sd)) sd c1) as
        (channel & c2 & Hbuild & _ & _ & Hobs & _ & _ & _ & Hlayer & _);
        [reflexivity | exact Hsec | intros _; exact Hfast |];
      exists c1, channel, c2
  end.
  simpl in Hobs, Hlayer. destruct (Hlayer Hm) as [Hsome Hfp].
  split; [exact Hrun|]. split; [exact Hbuild|]. split; [|split].
  - unfold getChannelObserver, Channels.bind, Channels.gets, Channels.ret.
    rewrite Hobs, lookup_insert_eq, Hm. reflexivity.
  - exact Hsome.
  - unfold getFastPathObserver, Channels.gets. rewrite Hfp. reflexivity.
Qed.

End ChannelProperties.

(** ** The properties of the channels on a concrete session *)

Lemma onServerData_names_channels_witness :
  exists c',
    Channels.onServerData Session.serverData Session.client =
    (Channels.Returns tt, c') /\
    Channels.channelMap c' !! 1003%N = Some (str_of_string "I/O") /\
    Channels.channelMap c' !! 1005%N = Some (str_of_string "rdpdr").
Proof.
  destruct (onServerData_names_channels Session.serverData Session.client)
    as (c' & Hrun & _ & Hio & Hnamed & _).
  - vm_compute. lia.
  - apply (bool_decide_unpack _). vm_compute. exact I.
  - apply (bool_decide_unpack _). vm_compute. exact I.
  - exists c'. split; [exact Hrun|]. split; [exact Hio|].
    rewrite (Hnamed 1%nat 1005%N eq_refl). reflexivity.
Defined.

Lemma onServerData_too_few_definitions_witness :
  exists c',
    Channels.onServerData Session.crowdedServerData Session.client =
    (Channels.Raises Channels.IndexError, c') /\
    Channels.serverData c' = Some Session.crowdedServerData /\
    is_Some (Channels.channelMap c' !! 1006%N).
Proof.
  destruct (onServerData_too_few_definitions Session.crowdedServerData
              Session.client)
    as (c' & Hrun & Hdata & _ & Hnamed & _).
  - vm_compute. lia.
  - exists c'. split; [exact Hrun|]. split; [exact Hdata|].
    apply (Hnamed 2%nat 1006%N); [vm_compute; lia | reflexivity].
Defined.

Lemma buildChannel_registers_witness :
  exists channel c',
    Channels.buildChannel (H := Channels.referenceExternals) 1 1005
      Session.ready = (Channels.Returns channel, c') /\
    Channels.getChannelObserver 1005 c' =
    (Channels.Returns Channels.PassiveFileStealerClient, c') /\
    last (Channels.calls c') = Some (Channels.ServerOnChannelJoinAccepted 1 1005).
Proof.
  destruct (buildChannel_registers (H := Channels.referenceExternals) 1 1005
              Session.serverData Session.ready)
    as (channel & c' & Hrun & _ & _ & Hget & _ & Hlast).
  - vm_compute. reflexivity.
  - intros _. reflexivity.
  - intros _. reflexivity.
  - exists channel, c'. split; [exact Hrun|]. split; [|exact Hlast].
    rewrite Hget. vm_compute. reflexivity.
Defined.

Lemma buildChannel_without_server_data_witness :
  exists c',
    Channels.buildChannel (H := Channels.referenceExternals) 1 1003
      Session.client = (Channels.Raises Channels.AttributeError, c') /\
    Channels.channelObservers c' = ∅ /\
    Channels.calls c' = [].
Proof.
  destruct (buildChannel_without_server_data (H := Channels.referenceExternals)
              1 1003 Session.client)
    as (c' & Hrun & Hobservers & _ & _ & _ & Hcalls).
  - reflexivity.
  - exists c'. split; [exact Hrun|]. split; [exact Hobservers | exact Hcalls].
Defined.

Lemma buildIOChannel_security_witness :
  exists channel c',
    Channels.buildIOChannel (H := Channels.referenceExternals) 1 1003
      Session.ready = (Channels.Returns channel, c') /\
    Channels.securityLayer c' =
    Some (Channels.Build_SecurityLayerObject (Channels.SecurityLayer 2) None) /\
    In Channels.SendSecurityExchange (Channels.calls c').
Proof.
  destruct (buildIOChannel_security (H := Channels.referenceExternals) 1 1003
              Session.serverData Session.ready)
    as (channel & c' & Hrun & Hlayer & _ & new & Hcalls & Hsent).
  - vm_compute. reflexivity.
  - intros _. reflexivity.
  - reflexivity.
  - exists channel, c'. split; [exact Hrun|]. split; [exact Hlayer|].
    rewrite Hcalls. apply in_or_app. right. apply Hsent.
    split; [reflexivity | discriminate].
Defined.

Lemma licensing_after_io_channel_witness :
  exists channel c1 c2,
    Channels.buildIOChannel (H := Channels.referenceExternals) 1 1003
      Session.tlsReady = (Channels.Returns channel, c1) /\
    Channels.onLicensingDataReceived [x01; x02] c1 = (Channels.Returns tt, c2) /\
    Channels.securityLayer c2 =
    Some (Channels.Build_SecurityLayerObject Channels.TLSSecurityLayer
            (Some false)).
Proof.
  destruct (licensing_after_io_channel (H := Channels.referenceExternals)
              1 1003 [x01; x02] Session.serverData Session.tlsReady)
    as (channel & c1 & c2 & Hbuild & _ & Hlicensing & Hlayer & _).
  - reflexivity.
  - vm_compute. reflexivity.
  - reflexivity.
  - exists channel, c1, c2.
    split; [exact Hbuild|]. split; [exact Hlicensing | exact Hlayer].
Defined.

Lemma licensing_without_security_layer_witness :
  exists c',
    Channels.onLicensingDataReceived [x01; x02] Session.tlsReady =
    (Channels.Raises Channels.AttributeError, c') /\
    Channels.calls c' = Channels.calls Session.tlsReady.
Proof.
  destruct (licensing_without_security_layer [x01; x02] Session.tlsReady)
    as (c' & Hrun & _ & Hcalls).
  - reflexivity.
  - exists c'. split; [exact Hrun|]. rewrite Hcalls. apply app_nil_r.
Defined.

Lemma channel_of_definition_gets_observer_witness :
  exists c1 channel c2,
    Channels.onServerData Session.serverData Session.client =
    (Channels.Returns tt, c1) /\
    Channels.buildChannel (H := Channels.referenceExternals) 1 1004 c1 =
    (Channels.Returns channel, c2) /\
    Channels.getChannelObserver 1004 c2 =
    (Channels.Returns Channels.ActiveClipboardStealer, c2).
Proof.
  destruct (channel_of_definition_gets_observer
              (H := Channels.referenceExternals) 1 0 1004
              (Client.Build_ChannelDefinition (str_of_string "cliprdr") 0)
              Session.serverData Session.client)
    as (c1 & channel & c2 & Hdata & Hbuild & Hget).
  - vm_compute. lia.
  - apply (bool_decide_unpack _). vm_compute. exact I.
  - apply (bool_decide_unpack _). vm_compute. exact I.
  - reflexivity.
  - reflexivity.
  - intros _. reflexivity.
  - intros _. reflexivity.
  - exists c1, channel, c2.
    split; [exact Hdata|]. split; [exact Hbuild|].
    rewrite Hget. vm_compute. reflexivity.
Defined.

Lemma io_channel_built_witness :
  exists c1 channel c2,
    Channels.onServerData Session.serverData Session.tlsClient =
    (Channels.Returns tt, c1) /\
    Channels.buildChannel (H := Channels.referenceExternals) 1 1003 c1 =
    (Channels.Returns channel, c2) /\
    Channels.getChannelObserver 1003 c2 =
    (Channels.Returns Channels.MITMSlowPathObserver, c2) /\
    is_Some (Channels.securityLayer c2).
Proof.
  destruct (io_channel_built (H := Channels.referenceExternals) 1
              Session.serverData Session.tlsClient)
    as (c1 & channel & c2 & Hdata & Hbuild & Hget & Hlayer & _).
  - vm_compute. lia.
  - apply (bool_decide_unpack _). vm_compute. exact I.
  - apply (bool_decide_unpack _). vm_compute. exact I.
  - intros Htls. discriminate.
  - reflexivity.
  - exists c1, channel, c2.
    split; [exact Hdata|]. split; [exact Hbuild|].
    split; [exact Hget | exact Hlayer].
Defined.
